(** * JustInsurance student dashboard: the client-side logic, embedded and verified

    The dashboard is a React single-page application.  Its logic lives in a
    handful of pure computations over the lists of records the backend sends
    (filtering, sorting, bucketing of enrollments, KPI recomputation) and in
    event handlers that move the component state (adding a department,
    fetching, exporting).  Pure computations are embedded as functions;
    handlers as functions from the component state (a record of the [useState]
    cells) and the outcome of the HTTP requests they issue to the new state.

    Conventions of the embedding:
    - a JavaScript string is a [string]; [toLowerCase], [toUpperCase] and
      [trim] act on the ASCII range, which is what course names, e-mail
      addresses, GUIDs and the PASS / FAIL marks are made of;
    - a JavaScript number that counts or compares is a [Z]; where the code
      divides, the quotient is a Number: a rational rounded to binary64;
    - [arr.filter(f)] is [List.filter], [arr.some(f)] is [existsb],
      [arr.map(f)] is [map], [[...arr, x]] is [arr ++ [x]],
      [arr.join(sep)] is [String.concat];
    - [undefined] / [null] in a field that may lack a value is [None]. *)

From Stdlib Require Import ZArith QArith Qabs Qround Qpower Lia Lqa.
From Stdlib Require Import Bool Ascii String List Sorted Permutation.
From Stdlib Require OrderedTypeEx.
From stdpp Require Import base list strings pretty.

Import ListNotations.
Local Open Scope string_scope.
Local Open Scope Z_scope.

(** ** JavaScript string primitives *)

Module Js.

Definition is_upper (c : ascii) : bool :=
  let n := N_of_ascii c in (65 <=? n)%N && (n <=? 90)%N.

Definition is_lower (c : ascii) : bool :=
  let n := N_of_ascii c in (97 <=? n)%N && (n <=? 122)%N.

Definition lower_char (c : ascii) : ascii :=
  if is_upper c then ascii_of_N (N_of_ascii c + 32) else c.

Definition upper_char (c : ascii) : ascii :=
  if is_lower c then ascii_of_N (N_of_ascii c - 32) else c.

Fixpoint map_chars (f : ascii -> ascii) (s : string) : string :=
  match s with
  | EmptyString => EmptyString
  | String c s' => String (f c) (map_chars f s')
  end.

(** [s.toLowerCase()] and [s.toUpperCase()] on strings of ASCII characters,
    where they change the letters A-Z and a-z and nothing else.  (On other
    strings the language's maps also change letters outside ASCII, some of
    them by their neighbours and some into several characters; what is proved
    below of a case map is proved of ASCII strings, see [isAscii], or holds
    whatever the map does to the other characters.) *)
Definition toLowerCase (s : string) : string := map_chars lower_char s.
Definition toUpperCase (s : string) : string := map_chars upper_char s.

(** Every character of the string is in the ASCII range. *)
Definition isAscii (s : string) : bool :=
  forallb (fun c => (N_of_ascii c <? 128)%N) (list_ascii_of_string s).

(** [s.includes(sub)]: [sub] occurs in [s] as a contiguous substring. *)
Fixpoint includes (s sub : string) : bool :=
  if String.prefix sub s then true
  else match s with
       | EmptyString => false
       | String _ s' => includes s' sub
       end.

(** White space of [String.prototype.trim] in the ASCII range:
    TAB, LF, VT, FF, CR and SPACE. *)
Definition is_space (c : ascii) : bool :=
  let n := N_of_ascii c in ((9 <=? n)%N && (n <=? 13)%N) || (n =? 32)%N.

Fixpoint trimStart (s : string) : string :=
  match s with
  | EmptyString => EmptyString
  | String c s' => if is_space c then trimStart s' else s
  end.

Fixpoint trimEnd (s : string) : string :=
  match s with
  | EmptyString => EmptyString
  | String c s' =>
      match trimEnd s' with
      | EmptyString => if is_space c then EmptyString else String c EmptyString
      | t => String c t
      end
  end.

(** [s.trim()] *)
Definition trim (s : string) : string := trimEnd (trimStart s).

(** [x || ''] for a field that may be undefined or null. *)
Definition orEmpty (o : option string) : string :=
  match o with Some s => s | None => "" end.

(** Truthiness of a string: [!s] holds exactly for the empty string. *)
Definition truthy (s : string) : bool :=
  match s with EmptyString => false | _ => true end.

End Js.

(** ** Numbers: binary64 arithmetic

    A Number is an IEEE 754 binary64 value.  [/] and [*] give the exact
    quotient or product rounded to the nearest binary64 value, a tie going to
    the even significand.  A finite Number is embedded as the rational it
    denotes; the rounding below is the one of the normal range (magnitudes
    from [2 ^ -1022] up to [2 ^ 1024]), where the quotients and products of
    the dashboard lie. *)

Module Binary64.
Local Open Scope Q_scope.

Definition pow2 (k : Z) : Q := (2 # 1) ^ k.

(** The exponent of a positive number: the [e] with [2 ^ e <= x < 2 ^ (e + 1)]. *)
Definition exponent (x : Q) : Z :=
  let k := (Z.log2 (Qnum x) - Z.log2 (Zpos (Qden x)))%Z in
  if Qle_bool (pow2 k) x then k else (k - 1)%Z.

(** The nearest integer, a tie going to the even one. *)
Definition roundHalfEven (q : Q) : Z :=
  let f := Qfloor q in
  match Qcompare (q - inject_Z f) (1 # 2) with
  | Lt => f
  | Gt => (f + 1)%Z
  | Eq => if Z.even f then f else (f + 1)%Z
  end.

(** A positive number rounded to 53 significant bits. *)
Definition roundPositive (x : Q) : Q :=
  let e := exponent x in
  inject_Z (roundHalfEven (x * pow2 (52 - e))) * pow2 (e - 52).

Definition round64 (x : Q) : Q :=
  match Qcompare x 0 with
  | Eq => 0
  | Gt => roundPositive x
  | Lt => - roundPositive (- x)
  end.

(** [a / b] and [a * b] on Numbers. *)
Definition div64 (a b : Q) : Q := round64 (a / b).
Definition mul64 (a b : Q) : Q := round64 (a * b).

(** [Math.round(x)]: the integer nearest to [x], a tie going up. *)
Definition mathRound (x : Q) : Z := Qfloor (x + (1 # 2)).

(** Half a unit in the last place, relative to the number rounded. *)
Definition ulp53 : Q := 1 # (2 ^ 53).

End Binary64.

(** ** StudentModal: bucketing the enrollments of a student *)

Module StudentModal.

Record Enrollment := mkEnrollment {
  enrollmentId : Z;
  courseName : option string;
  enrollmentStatus : Z;
  progressValue : Z;
  timeSpentMinutes : Z
}.

Definition isPreLicensingCourse (name : string) : bool :=
  let lower := Js.toLowerCase name in
  Js.includes lower "pre-licens" || Js.includes lower "prelicens"
  || Js.includes lower "pre licens".

Definition isChapterOrModule (name : string) : bool :=
  let lower := Js.toLowerCase name in
  Js.includes lower "module" || Js.includes lower "chapter"
  || Js.includes lower "lesson" || Js.includes lower "unit".

Definition isExamPrepCourse (name : string) : bool :=
  let lower := Js.toLowerCase name in
  Js.includes lower "practice" || Js.includes lower "prep"
  || Js.includes lower "study".

Record Buckets := mkBuckets {
  preLicensing : list Enrollment;
  examPrep : list Enrollment;
  other : list Enrollment
}.

Definition emptyBuckets : Buckets := mkBuckets [] [] [].

(** One turn of the [for ... of] loop: the enrollment is pushed onto the end
    of the array its name selects. *)
Definition pushEnrollment (b : Buckets) (enrollment : Enrollment) : Buckets :=
  let name := Js.orEmpty (courseName enrollment) in
  if isPreLicensingCourse name then
    mkBuckets (preLicensing b ++ [enrollment]) (examPrep b) (other b)
  else if isChapterOrModule name then
    mkBuckets (preLicensing b ++ [enrollment]) (examPrep b) (other b)
  else if isExamPrepCourse name then
    mkBuckets (preLicensing b) (examPrep b ++ [enrollment]) (other b)
  else
    mkBuckets (preLicensing b) (examPrep b) (other b ++ [enrollment]).

Definition categorizeEnrollments (enrollments : list Enrollment) : Buckets :=
  fold_left pushEnrollment enrollments emptyBuckets.

(** The three buckets as predicates on the course name, in the words of the
    precedence rule. *)
Inductive Bucket := PreLicensing | ExamPrep | Other.

Definition containsCI (name sub : string) : bool :=
  Js.includes (Js.toLowerCase name) sub.

Definition anyOf (name : string) (subs : list string) : bool :=
  existsb (containsCI name) subs.

Definition bucketOf (e : Enrollment) : Bucket :=
  let name := Js.orEmpty (courseName e) in
  if anyOf name ["pre-licens"; "prelicens"; "pre licens"] then PreLicensing
  else if anyOf name ["module"; "chapter"; "lesson"; "unit"] then PreLicensing
  else if anyOf name ["practice"; "prep"; "study"] then ExamPrep
  else Other.

Definition Bucket_eqb (a b : Bucket) : bool :=
  match a, b with
  | PreLicensing, PreLicensing | ExamPrep, ExamPrep | Other, Other => true
  | _, _ => false
  end.

Definition inBucket (k : Bucket) (e : Enrollment) : bool :=
  Bucket_eqb (bucketOf e) k.

End StudentModal.

(** ** Values compared with [<] and [>], and [Array.prototype.sort] *)

Module JsArray.

(** The sort keys of the tables are numbers or (lower-cased) strings; a
    number may be [NaN], which is what [getTime()] gives for a [Date] built
    from a string that is no date. *)
Inductive JsValue :=
  | JNum (n : Z)
  | JStr (s : string)
  | JNaN.

Definition isNaN (v : JsValue) : bool :=
  match v with JNaN => true | _ => false end.

#[global] Instance JsValue_eq_dec : EqDecision JsValue.
Proof. solve_decision. Defined.

(** [a < b]: numeric order on numbers, code-unit lexicographic order on
    strings; every comparison with [NaN] is false.  A column yields keys of
    one kind only, so the case of a number and a string (which JavaScript
    resolves by coercion) is never evaluated by the tables. *)
Definition js_lt (a b : JsValue) : bool :=
  match a, b with
  | JNum x, JNum y => x <? y
  | JStr s, JStr t => String.ltb s t
  | _, _ => false
  end.

(** [Array.prototype.sort(cmp)] is specified by ECMAScript (2019 and later) as
    a stable sort: with a consistent comparator the result is the one sorted
    permutation that keeps elements comparing equal in their input order.  It
    is library code of the runtime; it is embedded as the stable insertion
    sort, which computes that permutation.  [x] is inserted in front of the
    first element it is not greater than.

    For a comparator that is not consistent on the rows sorted (one that
    answers 0 for a [NaN] key against every key, for one) ECMAScript leaves
    the order to the implementation: [sort] says nothing about the table
    then, and what is proved of a sorted table below is proved of rows whose
    keys hold no [NaN]. *)
Fixpoint insertBy {A} (cmp : A -> A -> Z) (x : A) (l : list A) : list A :=
  match l with
  | [] => [x]
  | y :: l' => if 0 <? cmp x y then y :: insertBy cmp x l' else x :: l
  end.

Definition sort {A} (cmp : A -> A -> Z) (l : list A) : list A :=
  foldr (insertBy cmp) [] l.

(** No row is followed by one it compares greater than. *)
Definition inOrder {A} (cmp : A -> A -> Z) (a b : A) : Prop := cmp a b <= 0.

(** The rows whose sort key is [k], in the order the list has them. *)
Definition rowsWithKey {A} (key : A -> JsValue) (k : JsValue) (l : list A) : list A :=
  List.filter (fun a => bool_decide (key a = k)) l.

End JsArray.

(** ** The records the backend sends *)

Module Model.

(** [student.status]: the label with its sort priority and badge colour. *)
Record Status := mkStatus {
  statusLabel : string;      (* status.status *)
  priority : Z;              (* status.priority *)
  statusClass : string       (* status.class *)
}.

(** A row of the Students tab.  [lastLoginTime] is [None] when
    [lastLogin.raw] is missing or empty; otherwise it is what
    [new Date(raw).getTime()] gives: [Some (Some t)] for a date that can be
    read, [Some None] ([NaN]) for a string that is no date. *)
Record Student := mkStudent {
  studentId : Z;
  fullName : string;
  email : string;
  departmentName : option string;
  status : Status;
  lastLoginTime : option (option Z);
  progressValue : Z;
  courseName : string
}.

(** A row of the Exam tab (a spreadsheet row, joined to a student when the
    e-mail matched).  Every field may be missing. *)
Record ExamStudent := mkExamStudent {
  examEmail : option string;
  examFullName : option string;
  examStatusPriority : option Z;       (* status?.priority *)
  examDateRaw : option string;
  examDate : option string;
  examDepartmentName : option string;
  examProgressValue : option Z;        (* progress?.value *)
  passFail : option string;
  examState : option string;
  examCourseName : option string;
  examTime : option string;
  matched : option bool
}.

End Model.

Inductive SortDirection := asc | desc.

(** The last four lines of both comparators. *)
Definition compareValues (sortDirection : SortDirection)
    (aValue bValue : JsArray.JsValue) : Z :=
  if JsArray.js_lt aValue bValue then
    match sortDirection with asc => -1 | desc => 1 end
  else if JsArray.js_lt bValue aValue then
    match sortDirection with asc => 1 | desc => -1 end
  else 0.

(** ** StudentTable.jsx *)

Module StudentTable.
Import Model JsArray.

(** The [switch (sortField)] that picks the value a row is sorted by. *)
Definition sortValue (sortField : string) (a : Student) : JsValue :=
  if String.eqb sortField "name" then JStr (Js.toLowerCase (fullName a))
  else if String.eqb sortField "status" then JNum (priority (status a))
  else if String.eqb sortField "lastLogin" then
    match lastLoginTime a with
    | Some (Some t) => JNum t
    | Some None => JNaN
    | None => JNum 0
    end
  else if String.eqb sortField "progress" then JNum (progressValue a)
  else if String.eqb sortField "course" then JStr (Js.toLowerCase (courseName a))
  else if String.eqb sortField "department" then
    JStr (Js.toLowerCase (Js.orEmpty (departmentName a)))
  else JNum (priority (status a)).

Definition compareStudents (sortField : string) (sortDirection : SortDirection)
    (a b : Student) : Z :=
  compareValues sortDirection (sortValue sortField a) (sortValue sortField b).

(** [[...students].sort((a, b) => ...)] *)
Definition sortedStudents (sortField : string) (sortDirection : SortDirection)
    (students : list Student) : list Student :=
  JsArray.sort (compareStudents sortField sortDirection) students.

(** No row has [NaN] for sort value: the column is not Last Login, or every
    [lastLogin.raw] of the rows can be read as a date. *)
Definition noNaN (sortField : string) (students : list Student) : bool :=
  forallb (fun a => negb (isNaN (sortValue sortField a))) students.

(** [handleSort]: a click on a column header. *)
Definition handleSort (field : string) (st : string * SortDirection)
    : string * SortDirection :=
  let '(sortField, sortDirection) := st in
  if String.eqb sortField field then
    (sortField, match sortDirection with asc => desc | desc => asc end)
  else (field, asc).

End StudentTable.

(** ** ExamTable.jsx *)

Module ExamTable.
Import Model JsArray.

Section WithDateFormats.

(** The readers tried by [parseExamDate], in order: each gives the time of a
    date it can read and [None] when the [Date] it builds is invalid (or
    building it throws).  They rest on the runtime's [Date]. *)
Variable formats : list (string -> option Z).

Fixpoint firstValid (fs : list (string -> option Z)) (dateStr : string) : Z :=
  match fs with
  | [] => 0
  | parse :: fs' =>
      match parse dateStr with
      | Some t => t
      | None => firstValid fs' dateStr
      end
  end.

Definition parseExamDate (dateStr : option string) : Z :=
  match dateStr with
  | None => 0
  | Some s => if Js.truthy s then firstValid formats s else 0
  end.

(** [a || b] on two fields holding a string or nothing. *)
Definition orField (a b : option string) : option string :=
  match a with
  | Some s => if Js.truthy s then a else b
  | None => b
  end.

(** PASS=1 (top), FAIL=2, no result=3 *)
Definition resultRank (a : ExamStudent) : Z :=
  let pf := Js.toUpperCase (Js.orEmpty (passFail a)) in
  if String.eqb pf "PASS" then 1 else if String.eqb pf "FAIL" then 2 else 3.

Definition sortValue (sortField : string) (a : ExamStudent) : JsValue :=
  if String.eqb sortField "name" then
    JStr (Js.toLowerCase (Js.orEmpty (examFullName a)))
  else if String.eqb sortField "status" then
    JNum (match examStatusPriority a with Some p => p | None => 99 end)
  else if String.eqb sortField "examDate" then
    JNum (parseExamDate (orField (examDateRaw a) (examDate a)))
  else if String.eqb sortField "department" then
    JStr (Js.toLowerCase (Js.orEmpty (examDepartmentName a)))
  else if String.eqb sortField "progress" then
    JNum (match examProgressValue a with Some v => v | None => 0 end)
  else if String.eqb sortField "result" then JNum (resultRank a)
  else if String.eqb sortField "state" then
    JStr (Js.toLowerCase (Js.orEmpty (examState a)))
  else if String.eqb sortField "course" then
    JStr (Js.toLowerCase (Js.orEmpty (examCourseName a)))
  else JNum (parseExamDate (orField (examDateRaw a) (examDate a))).

Definition compareStudents (sortField : string) (sortDirection : SortDirection)
    (a b : ExamStudent) : Z :=
  compareValues sortDirection (sortValue sortField a) (sortValue sortField b).

Definition sortedStudents (sortField : string) (sortDirection : SortDirection)
    (students : list ExamStudent) : list ExamStudent :=
  JsArray.sort (compareStudents sortField sortDirection) students.

End WithDateFormats.

End ExamTable.

(** ** HTTP requests as the handlers see them *)

Module Http.

(** The outcome of [await fetch(url)] followed, where the handler asks for it,
    by [await res.json()] (or [res.blob()]): the request is rejected (network
    failure), or a response arrives with its status and a body that can be
    read ([Some]) or not ([None]: reading it rejects). *)
Inductive Fetch (B : Type) :=
  | NetworkError
  | Response (status : Z) (body : option B).

Arguments NetworkError {B}.
Arguments Response {B} status body.

(** [res.ok] *)
Definition ok (status : Z) : bool := (200 <=? status) && (status <=? 299).

(** The request got a response (of whatever status). *)
Definition responded {B} (r : Fetch B) : bool :=
  match r with Response _ _ => true | NetworkError => false end.

(** The request got a response with status 401. *)
Definition status401 {B} (r : Fetch B) : bool :=
  match r with Response status _ => status =? 401 | NetworkError => false end.

(** The request failed: it was rejected, or answered with a status outside
    200..299, or with a body that cannot be read. *)
Definition requestFailed {B} (r : Fetch B) : bool :=
  match r with
  | NetworkError => true
  | Response status body =>
      negb (ok status) || match body with Some _ => false | None => true end
  end.

Definition hexDigitUpper (n : N) : ascii :=
  match n with
  | 0 => "0" | 1 => "1" | 2 => "2" | 3 => "3" | 4 => "4" | 5 => "5"
  | 6 => "6" | 7 => "7" | 8 => "8" | 9 => "9" | 10 => "A" | 11 => "B"
  | 12 => "C" | 13 => "D" | 14 => "E" | _ => "F"
  end%char%N.

(** Characters [encodeURIComponent] leaves as they are. *)
Definition unreserved (c : ascii) : bool :=
  let n := N_of_ascii c in
  Js.is_upper c || Js.is_lower c || ((48 <=? n)%N && (n <=? 57)%N)
  || existsb (Ascii.eqb c) ["-"; "_"; "."; "!"; "~"; "*"; "'"; "("; ")"]%char.

Fixpoint encodeURIComponent (s : string) : string :=
  match s with
  | EmptyString => EmptyString
  | String c s' =>
      if unreserved c then String c (encodeURIComponent s')
      else
        let n := N_of_ascii c in
        String "%" (String (hexDigitUpper (n / 16)) (String (hexDigitUpper (n mod 16))
          (encodeURIComponent s')))
  end.

End Http.

(** ** Dashboard (the multi-department revision) *)

Module Dashboard.
Import Model Http.

Definition API_BASE : string := "/api".

Record Summary := mkSummary {
  totalStudents : Z;
  activeCount : Z;
  warningCount : Z;
  reengageCount : Z;
  averageProgress : Z
}.

(** [examSummary].  The fields below [noResult] come from the backend and are
    carried over by [{...prev}] when the summary is recomputed locally. *)
Record ExamSummary := mkExamSummary {
  total : Z;
  passed : Z;
  failed : Z;
  upcoming : Z;
  atRisk : Z;
  passRate : Q;
  noResult : Z;
  examAverageProgress : option Z;
  avgStudyTimeFormatted : option string
}.

(** An entry of [data.departments]. *)
Record DepartmentMeta := mkDepartmentMeta {
  deptId : string;
  deptName : string;
  deptStatus : string;         (* 'ok' or 'error' *)
  deptErrorText : option string;  (* d.error *)
  studentCount : Z
}.

(** A CSV file: its header line and its data rows. *)
Record CsvFile := mkCsvFile {
  csvHeader : list string;
  csvRows : list (list string)
}.

(** A file handed to the browser for download. *)
Record Download := mkDownload {
  downloadName : string;
  downloadBlob : CsvFile
}.

(** The [useState] cells the handlers below read or write, with the calls made
    on the [onLogout] prop and the downloads started.  Cells that only drive
    presentation (the selected student, chart and dropdown toggles) are left
    out. *)
Record State := mkState {
  students : list Student;
  summary : option Summary;
  loading : bool;
  syncing : bool;
  loadingFull : bool;
  error : option string;
  lastSynced : option Z;
  examStudents : list ExamStudent;
  examSummary : option ExamSummary;
  examLoading : bool;
  examLoaded : bool;
  adminKey : string;
  schedulerInfo : option string;
  extraDepartments : list string;
  deptInputValue : string;
  deptError : string;
  departmentMeta : list DepartmentMeta;
  studentDeptFilter : list string;
  searchTerm : string;
  statusFilter : string;
  onLogoutCalled : bool;
  downloads : list Download
}.

(** Setters: one per cell that is written. *)
Definition setStudents v (s : State) : State :=
  mkState v (summary s) (loading s) (syncing s) (loadingFull s) (error s)
    (lastSynced s) (examStudents s) (examSummary s) (examLoading s) (examLoaded s)
    (adminKey s) (schedulerInfo s) (extraDepartments s) (deptInputValue s)
    (deptError s) (departmentMeta s) (studentDeptFilter s) (searchTerm s)
    (statusFilter s) (onLogoutCalled s) (downloads s).
Definition setSummary v (s : State) : State :=
  mkState (students s) v (loading s) (syncing s) (loadingFull s) (error s)
    (lastSynced s) (examStudents s) (examSummary s) (examLoading s) (examLoaded s)
    (adminKey s) (schedulerInfo s) (extraDepartments s) (deptInputValue s)
    (deptError s) (departmentMeta s) (studentDeptFilter s) (searchTerm s)
    (statusFilter s) (onLogoutCalled s) (downloads s).
Definition setLoading v (s : State) : State :=
  mkState (students s) (summary s) v (syncing s) (loadingFull s) (error s)
    (lastSynced s) (examStudents s) (examSummary s) (examLoading s) (examLoaded s)
    (adminKey s) (schedulerInfo s) (extraDepartments s) (deptInputValue s)
    (deptError s) (departmentMeta s) (studentDeptFilter s) (searchTerm s)
    (statusFilter s) (onLogoutCalled s) (downloads s).
Definition setSyncing v (s : State) : State :=
  mkState (students s) (summary s) (loading s) v (loadingFull s) (error s)
    (lastSynced s) (examStudents s) (examSummary s) (examLoading s) (examLoaded s)
    (adminKey s) (schedulerInfo s) (extraDepartments s) (deptInputValue s)
    (deptError s) (departmentMeta s) (studentDeptFilter s) (searchTerm s)
    (statusFilter s) (onLogoutCalled s) (downloads s).
Definition setLoadingFull v (s : State) : State :=
  mkState (students s) (summary s) (loading s) (syncing s) v (error s)
    (lastSynced s) (examStudents s) (examSummary s) (examLoading s) (examLoaded s)
    (adminKey s) (schedulerInfo s) (extraDepartments s) (deptInputValue s)
    (deptError s) (departmentMeta s) (studentDeptFilter s) (searchTerm s)
    (statusFilter s) (onLogoutCalled s) (downloads s).
Definition setError v (s : State) : State :=
  mkState (students s) (summary s) (loading s) (syncing s) (loadingFull s) v
    (lastSynced s) (examStudents s) (examSummary s) (examLoading s) (examLoaded s)
    (adminKey s) (schedulerInfo s) (extraDepartments s) (deptInputValue s)
    (deptError s) (departmentMeta s) (studentDeptFilter s) (searchTerm s)
    (statusFilter s) (onLogoutCalled s) (downloads s).
Definition setLastSynced v (s : State) : State :=
  mkState (students s) (summary s) (loading s) (syncing s) (loadingFull s) (error s)
    v (examStudents s) (examSummary s) (examLoading s) (examLoaded s)
    (adminKey s) (schedulerInfo s) (extraDepartments s) (deptInputValue s)
    (deptError s) (departmentMeta s) (studentDeptFilter s) (searchTerm s)
    (statusFilter s) (onLogoutCalled s) (downloads s).
Definition setExamStudents v (s : State) : State :=
  mkState (students s) (summary s) (loading s) (syncing s) (loadingFull s) (error s)
    (lastSynced s) v (examSummary s) (examLoading s) (examLoaded s)
    (adminKey s) (schedulerInfo s) (extraDepartments s) (deptInputValue s)
    (deptError s) (departmentMeta s) (studentDeptFilter s) (searchTerm s)
    (statusFilter s) (onLogoutCalled s) (downloads s).
Definition setExamSummary v (s : State) : State :=
  mkState (students s) (summary s) (loading s) (syncing s) (loadingFull s) (error s)
    (lastSynced s) (examStudents s) v (examLoading s) (examLoaded s)
    (adminKey s) (schedulerInfo s) (extraDepartments s) (deptInputValue s)
    (deptError s) (departmentMeta s) (studentDeptFilter s) (searchTerm s)
    (statusFilter s) (onLogoutCalled s) (downloads s).
Definition setExamLoading v (s : State) : State :=
  mkState (students s) (summary s) (loading s) (syncing s) (loadingFull s) (error s)
    (lastSynced s) (examStudents s) (examSummary s) v (examLoaded s)
    (adminKey s) (schedulerInfo s) (extraDepartments s) (deptInputValue s)
    (deptError s) (departmentMeta s) (studentDeptFilter s) (searchTerm s)
    (statusFilter s) (onLogoutCalled s) (downloads s).
Definition setExamLoaded v (s : State) : State :=
  mkState (students s) (summary s) (loading s) (syncing s) (loadingFull s) (error s)
    (lastSynced s) (examStudents s) (examSummary s) (examLoading s) v
    (adminKey s) (schedulerInfo s) (extraDepartments s) (deptInputValue s)
    (deptError s) (departmentMeta s) (studentDeptFilter s) (searchTerm s)
    (statusFilter s) (onLogoutCalled s) (downloads s).
Definition setSchedulerInfo v (s : State) : State :=
  mkState (students s) (summary s) (loading s) (syncing s) (loadingFull s) (error s)
    (lastSynced s) (examStudents s) (examSummary s) (examLoading s) (examLoaded s)
    (adminKey s) v (extraDepartments s) (deptInputValue s)
    (deptError s) (departmentMeta s) (studentDeptFilter s) (searchTerm s)
    (statusFilter s) (onLogoutCalled s) (downloads s).
Definition setExtraDepartments v (s : State) : State :=
  mkState (students s) (summary s) (loading s) (syncing s) (loadingFull s) (error s)
    (lastSynced s) (examStudents s) (examSummary s) (examLoading s) (examLoaded s)
    (adminKey s) (schedulerInfo s) v (deptInputValue s)
    (deptError s) (departmentMeta s) (studentDeptFilter s) (searchTerm s)
    (statusFilter s) (onLogoutCalled s) (downloads s).
Definition setDeptInputValue v (s : State) : State :=
  mkState (students s) (summary s) (loading s) (syncing s) (loadingFull s) (error s)
    (lastSynced s) (examStudents s) (examSummary s) (examLoading s) (examLoaded s)
    (adminKey s) (schedulerInfo s) (extraDepartments s) v
    (deptError s) (departmentMeta s) (studentDeptFilter s) (searchTerm s)
    (statusFilter s) (onLogoutCalled s) (downloads s).
Definition setDeptError v (s : State) : State :=
  mkState (students s) (summary s) (loading s) (syncing s) (loadingFull s) (error s)
    (lastSynced s) (examStudents s) (examSummary s) (examLoading s) (examLoaded s)
    (adminKey s) (schedulerInfo s) (extraDepartments s) (deptInputValue s)
    v (departmentMeta s) (studentDeptFilter s) (searchTerm s)
    (statusFilter s) (onLogoutCalled s) (downloads s).
Definition setDepartmentMeta v (s : State) : State :=
  mkState (students s) (summary s) (loading s) (syncing s) (loadingFull s) (error s)
    (lastSynced s) (examStudents s) (examSummary s) (examLoading s) (examLoaded s)
    (adminKey s) (schedulerInfo s) (extraDepartments s) (deptInputValue s)
    (deptError s) v (studentDeptFilter s) (searchTerm s)
    (statusFilter s) (onLogoutCalled s) (downloads s).
Definition setStudentDeptFilter v (s : State) : State :=
  mkState (students s) (summary s) (loading s) (syncing s) (loadingFull s) (error s)
    (lastSynced s) (examStudents s) (examSummary s) (examLoading s) (examLoaded s)
    (adminKey s) (schedulerInfo s) (extraDepartments s) (deptInputValue s)
    (deptError s) (departmentMeta s) v (searchTerm s)
    (statusFilter s) (onLogoutCalled s) (downloads s).
Definition setSearchTerm v (s : State) : State :=
  mkState (students s) (summary s) (loading s) (syncing s) (loadingFull s) (error s)
    (lastSynced s) (examStudents s) (examSummary s) (examLoading s) (examLoaded s)
    (adminKey s) (schedulerInfo s) (extraDepartments s) (deptInputValue s)
    (deptError s) (departmentMeta s) (studentDeptFilter s) v
    (statusFilter s) (onLogoutCalled s) (downloads s).
Definition setStatusFilter v (s : State) : State :=
  mkState (students s) (summary s) (loading s) (syncing s) (loadingFull s) (error s)
    (lastSynced s) (examStudents s) (examSummary s) (examLoading s) (examLoaded s)
    (adminKey s) (schedulerInfo s) (extraDepartments s) (deptInputValue s)
    (deptError s) (departmentMeta s) (studentDeptFilter s) (searchTerm s)
    v (onLogoutCalled s) (downloads s).
(** [onLogout()] *)
Definition onLogout (s : State) : State :=
  mkState (students s) (summary s) (loading s) (syncing s) (loadingFull s) (error s)
    (lastSynced s) (examStudents s) (examSummary s) (examLoading s) (examLoaded s)
    (adminKey s) (schedulerInfo s) (extraDepartments s) (deptInputValue s)
    (deptError s) (departmentMeta s) (studentDeptFilter s) (searchTerm s)
    (statusFilter s) true (downloads s).
(** [a.click()] on the link built for the blob *)
Definition startDownload (d : Download) (s : State) : State :=
  mkState (students s) (summary s) (loading s) (syncing s) (loadingFull s) (error s)
    (lastSynced s) (examStudents s) (examSummary s) (examLoading s) (examLoaded s)
    (adminKey s) (schedulerInfo s) (extraDepartments s) (deptInputValue s)
    (deptError s) (departmentMeta s) (studentDeptFilter s) (searchTerm s)
    (statusFilter s) (onLogoutCalled s) (downloads s ++ [d]).

(** *** Filtering *)

(** [students.filter(student => ...)] *)
Definition matchesSearch (searchTerm : string) (student : Student) : bool :=
  let searchLower := Js.toLowerCase searchTerm in
  negb (Js.truthy searchTerm)
  || Js.includes (Js.toLowerCase (fullName student)) searchLower
  || Js.includes (Js.toLowerCase (email student)) searchLower
  || Js.includes (Js.toLowerCase (Js.orEmpty (departmentName student))) searchLower.

Definition matchesStatus (statusFilter : string) (student : Student) : bool :=
  String.eqb statusFilter "all"
  || String.eqb (Js.toLowerCase (statusLabel (status student)))
                (Js.toLowerCase statusFilter).

(** [arr.includes(x)] on an array of strings *)
Definition arrayIncludes (arr : list string) (x : string) : bool :=
  existsb (String.eqb x) arr.

Definition matchesDept (studentDeptFilter : list string) (student : Student) : bool :=
  (Z.of_nat (length studentDeptFilter) =? 0)
  || arrayIncludes studentDeptFilter (Js.trim (Js.orEmpty (departmentName student))).

Definition keepStudent (s : State) (student : Student) : bool :=
  matchesSearch (searchTerm s) student
  && matchesStatus (statusFilter s) student
  && matchesDept (studentDeptFilter s) student.

Definition filteredStudents (s : State) : list Student :=
  List.filter (keepStudent s) (students s).

(** "Showing X of Y students" *)
Definition showingCounts (s : State) : nat * nat :=
  (length (filteredStudents s), length (students s)).

(** *** Adding and removing extra departments *)

Definition isHexDigit (c : ascii) : bool :=
  let n := N_of_ascii c in
  ((48 <=? n)%N && (n <=? 57)%N) || ((97 <=? n)%N && (n <=? 102)%N)
  || ((65 <=? n)%N && (n <=? 70)%N).

(** [[0-9a-fA-F]{n}] at the head of [s]: what follows it, if it matches. *)
Fixpoint hexRun (n : nat) (s : string) : option string :=
  match n with
  | O => Some s
  | S n' =>
      match s with
      | String c s' => if isHexDigit c then hexRun n' s' else None
      | EmptyString => None
      end
  end.

(** [-] at the head of [s] *)
Definition dash (s : string) : option string :=
  match s with
  | String c s' => if Ascii.eqb c "-" then Some s' else None
  | EmptyString => None
  end.

(** Matching one piece of the pattern after another. *)
Definition andThen (o : option string) (piece : string -> option string)
    : option string :=
  match o with Some rest => piece rest | None => None end.

Local Notation "o |> piece" := (andThen o piece) (at level 50, left associativity).

(** [$]: nothing is left *)
Definition atEnd (s : string) : bool :=
  match s with EmptyString => true | _ => false end.

(** [guidPattern.test(id)] for
    [/^[0-9a-fA-F]{8}-[0-9a-fA-F]{4}-[0-9a-fA-F]{4}-[0-9a-fA-F]{4}-[0-9a-fA-F]{12}$/] *)
Definition guidPattern_test (id : string) : bool :=
  match
    hexRun 8 id |> dash |> hexRun 4 |> dash |> hexRun 4 |> dash
      |> hexRun 4 |> dash |> hexRun 12
  with
  | Some rest => atEnd rest
  | None => false
  end.

(** [id.toLowerCase() === department?.id?.toLowerCase()] *)
Definition isPrimary (departmentId : option string) (id : string) : bool :=
  match departmentId with
  | Some d => String.eqb (Js.toLowerCase id) (Js.toLowerCase d)
  | None => false
  end.

(** [extraDepartments.some(d => d.toLowerCase() === id.toLowerCase())] *)
Definition alreadyAdded (extraDepartments : list string) (id : string) : bool :=
  existsb (fun d => String.eqb (Js.toLowerCase d) (Js.toLowerCase id)) extraDepartments.

Definition handleAddDepartment (departmentId : option string) (s : State) : State :=
  let id := Js.trim (deptInputValue s) in
  if negb (guidPattern_test id) then
    setDeptError "Invalid Department ID format (must be a GUID like xxxxxxxx-xxxx-xxxx-xxxx-xxxxxxxxxxxx)" s
  else if isPrimary departmentId id then
    setDeptError "This is already your primary department" s
  else if alreadyAdded (extraDepartments s) id then
    setDeptError "Department already added" s
  else if 10 <=? Z.of_nat (length (extraDepartments s)) then
    setDeptError "Maximum 10 additional departments" s
  else
    setExtraDepartments (extraDepartments s ++ [id])
      (setDeptInputValue "" (setDeptError "" s)).

Definition handleRemoveDepartment (id : string) (s : State) : State :=
  setExtraDepartments
    (List.filter (fun d => negb (String.eqb d id)) (extraDepartments s)) s.

(** The four checks of [handleAddDepartment] taken together. *)
Definition canAddDepartment (departmentId : option string) (s : State) : bool :=
  let id := Js.trim (deptInputValue s) in
  guidPattern_test id
  && negb (isPrimary departmentId id)
  && negb (alreadyAdded (extraDepartments s) id)
  && (Z.of_nat (length (extraDepartments s)) <? 10).

Definition addDepartmentErrors : list string :=
  [ "Invalid Department ID format (must be a GUID like xxxxxxxx-xxxx-xxxx-xxxx-xxxxxxxxxxxx)";
    "This is already your primary department";
    "Department already added";
    "Maximum 10 additional departments" ].

(** What the user does in the department manager: type an id and press Add,
    or press the cross of a department. *)
Inductive DeptAction :=
  | AddDepartment (input : string)
  | RemoveDepartment (id : string).

Definition deptStep (departmentId : option string) (s : State) (a : DeptAction) : State :=
  match a with
  | AddDepartment input => handleAddDepartment departmentId (setDeptInputValue input s)
  | RemoveDepartment id => handleRemoveDepartment id s
  end.

Definition deptRun (departmentId : option string) (actions : list DeptAction)
    (s : State) : State :=
  fold_left (deptStep departmentId) actions s.

(** At most ten extra departments, no two of them equal up to letter case. *)
Definition deptInvariant (extraDepartments : list string) : Prop :=
  (length extraDepartments <= 10)%nat
  /\ NoDup (map Js.toLowerCase extraDepartments).

(** A GUID, position by position: five runs of 8, 4, 4, 4 and 12 hexadecimal
    digits, joined by dashes. *)
Definition hexString (n : nat) (a : string) : Prop :=
  String.length a = n /\ forallb isHexDigit (list_ascii_of_string a) = true.

Definition isGuid (id : string) : Prop :=
  exists a b c d e,
    id = a ++ "-" ++ b ++ "-" ++ c ++ "-" ++ d ++ "-" ++ e
    /\ hexString 8 a /\ hexString 4 b /\ hexString 4 c /\ hexString 4 d
    /\ hexString 12 e.

(** *** Fetching *)

Record SummaryBody := mkSummaryBody {
  summarySuccess : bool;
  summaryOf : Summary
}.

Record StudentsBody := mkStudentsBody {
  studentsSuccess : bool;
  studentsOf : list Student
}.

(** The body of [/dashboard/students/multi]. *)
Record MultiBody := mkMultiBody {
  multiSuccess : bool;
  multiStudents : list Student;
  multiSummary : Summary;
  multiDepartments : option (list DepartmentMeta)
}.

Record ExamBody := mkExamBody {
  examSuccess : bool;
  examStudentsOf : list ExamStudent;
  examSummaryOf : ExamSummary
}.

Record SchedulerBody := mkSchedulerBody {
  schedulerSuccess : bool;
  schedulerOf : string
}.

Record UpdateBody := mkUpdateBody {
  updateSuccess : bool;
  sheetSaved : bool
}.

Section Handlers.

(** [Date.now()] / [new Date()] at the time the handler runs. *)
Variable now : Z.

(** [fetchDashboardData]: the two requests are awaited with [Promise.all],
    which rejects as soon as one of them is rejected. *)
Definition fetchDashboardData
    (summaryRes : Fetch SummaryBody) (studentsRes : Fetch StudentsBody)
    (s : State) : State :=
  let s1 := setError None (setLoading true s) in
  let catch := setError (Some "Failed to load dashboard data. Please try again.") in
  let finally := setLoading false in
  match summaryRes, studentsRes with
  | Response summaryStatus summaryJson, Response studentsStatus studentsJson =>
      if negb (ok summaryStatus) || negb (ok studentsStatus) then
        if (summaryStatus =? 401) || (studentsStatus =? 401) then
          finally (onLogout s1)
        else finally (catch s1)
      else
        match summaryJson, studentsJson with
        | Some summaryData, Some studentsData =>
            let s2 := if summarySuccess summaryData
                      then setSummary (Some (summaryOf summaryData)) s1 else s1 in
            let s3 := if studentsSuccess studentsData
                      then setStudents (studentsOf studentsData) s2 else s2 in
            finally (setLastSynced (Some now) s3)
        | _, _ => finally (catch s1)
        end
  | _, _ => finally (catch s1)
  end.

(** [loadFullDataInBackground]: a failure is logged to the console only. *)
Definition loadFullDataInBackground
    (summaryRes : Fetch SummaryBody) (studentsRes : Fetch StudentsBody)
    (s : State) : State :=
  let finally := setLoadingFull false in
  match summaryRes, studentsRes with
  | Response summaryStatus summaryJson, Response studentsStatus studentsJson =>
      if ok summaryStatus && ok studentsStatus then
        match summaryJson, studentsJson with
        | Some summaryData, Some studentsData =>
            if summarySuccess summaryData && studentsSuccess studentsData then
              finally (setLastSynced (Some now)
                (setStudents (studentsOf studentsData)
                  (setSummary (Some (summaryOf summaryData)) s)))
            else finally s
        | _, _ => finally s
        end
      else finally s
  | _, _ => finally s
  end.

(** [d.error || d.id] *)
Definition errorOrId (d : DepartmentMeta) : string :=
  match deptErrorText d with
  | Some e => if Js.truthy e then e else deptId d
  | None => deptId d
  end.

(** [(data.departments || []).filter(d => d.status === 'error')] *)
Definition failedDepartments (departments : option (list DepartmentMeta))
    : list DepartmentMeta :=
  List.filter (fun d => String.eqb (deptStatus d) "error")
    (match departments with Some ds => ds | None => [] end).

Definition failedMessage (failed : list DepartmentMeta) : string :=
  "Could not load " ++ pretty (length failed) ++ " department(s): "
  ++ String.concat ", " (map errorOrId failed).

Definition fetchMultiDeptStudents (res : Fetch MultiBody) (s : State) : State :=
  let s1 := setError None (setLoading true s) in
  let catch := setError (Some "Failed to load multi-department data. Please try again.") in
  let finally := setLoading false in
  match res with
  | Response status json =>
      if negb (ok status) then
        if status =? 401 then finally (onLogout s1) else finally (catch s1)
      else
        match json with
        | Some data =>
            if multiSuccess data then
              let s2 :=
                setLastSynced (Some now)
                  (setDepartmentMeta
                     (match multiDepartments data with Some ds => ds | None => [] end)
                     (setSummary (Some (multiSummary data))
                        (setStudents (multiStudents data) s1))) in
              let failed := failedDepartments (multiDepartments data) in
              if 0 <? Z.of_nat (length failed)
              then finally (setDeptError (failedMessage failed) s2)
              else finally s2
            else finally s1
        | None => finally (catch s1)
        end
  | NetworkError => finally (catch s1)
  end.

(** [fetchExamData(overrideAdminKey)].  [schedulerRes] is the outcome of the
    follow-up request for the scheduler status, made in admin mode only; its
    failures are swallowed by [.catch(() => {})]. *)
Definition fetchExamData (overrideAdminKey : string)
    (res : Fetch ExamBody) (schedulerRes : Fetch SchedulerBody)
    (s : State) : State :=
  let s1 := setExamLoading true s in
  let key := if Js.truthy overrideAdminKey then overrideAdminKey else adminKey s in
  let catch := setError (Some "Failed to load exam data. Please try again.") in
  let finally := setExamLoading false in
  match res with
  | Response status json =>
      if negb (ok status) then
        if status =? 401 then finally (onLogout s1) else finally (catch s1)
      else
        match json with
        | Some data =>
            if examSuccess data then
              let s2 :=
                setExamLoaded true
                  (setExamSummary (Some (examSummaryOf data))
                     (setExamStudents (examStudentsOf data) s1)) in
              let s3 :=
                if Js.truthy key then
                  match schedulerRes with
                  | Response schedStatus (Some d) =>
                      if ok schedStatus && schedulerSuccess d
                      then setSchedulerInfo (Some (schedulerOf d)) s2 else s2
                  | _ => s2
                  end
                else s2 in
              finally s3
            else finally s1
        | None => finally (catch s1)
        end
  | NetworkError => finally (catch s1)
  end.

(** The data loaded before is all still there. *)
Definition dataKept (before after : State) : Prop :=
  students after = students before
  /\ summary after = summary before
  /\ examStudents after = examStudents before
  /\ examSummary after = examSummary before
  /\ departmentMeta after = departmentMeta before
  /\ extraDepartments after = extraDepartments before.

(** *** Export *)

Definition exportUrl (s : State) : string :=
  if 0 <? Z.of_nat (length (extraDepartments s)) then
    API_BASE ++ "/dashboard/export?departments="
    ++ encodeURIComponent (String.concat "," (extraDepartments s))
  else API_BASE ++ "/dashboard/export".

(** [handleExport].  [backend] answers the GET request for a URL;
    [today] is [new Date().toISOString().split('T')[0]]. *)
Definition handleExport (today : string) (backend : string -> Fetch CsvFile)
    (s : State) : State :=
  let catch := setError (Some "Failed to export data. Please try again.") in
  match backend (exportUrl s) with
  | Response status blob =>
      if negb (ok status) then catch s
      else
        match blob with
        | Some csv =>
            startDownload (mkDownload ("students_export_" ++ today ++ ".csv") csv) s
        | None => catch s
        end
  | NetworkError => catch s
  end.

(** The number of data rows of the file the last export produced, if any. *)
Definition exportedRows (before after : State) : option nat :=
  if (length (downloads before) <? length (downloads after))%nat then
    (fun d => length (csvRows (downloadBlob d))) <$> last (downloads after)
  else None.

End Handlers.

(** *** Exam KPIs, recomputed after a local edit *)

Section ExamSummary.

(** [Date.now()] *)
Variable now : Z.

(** The time value of the [Date] that [parseExamDateRaw] builds from a
    non-empty raw string ([YYYY-MM-DD], [M/D/YYYY], or whatever [new Date]
    accepts, with 0 for a string the fallback cannot read); [None] stands for
    [NaN], which the first two branches can produce. *)
Variable dateOf : string -> option Z.

(** [dt.toLocaleDateString('en-US', ...)] of the date picked in the editor. *)
Variable formatDate : string -> string.

Definition parseExamDateRaw (raw : option string) : option Z :=
  match raw with
  | None => Some 0
  | Some r => if Js.truthy r then dateOf r else Some 0
  end.

(** [(s.passFail || '').toUpperCase() === mark] *)
Definition hasMark (mark : string) (s : ExamStudent) : bool :=
  String.eqb (Js.toUpperCase (Js.orEmpty (passFail s))) mark.

(** [dt > now && !hasResult] *)
Definition isUpcoming (s : ExamStudent) : bool :=
  let dt := parseExamDateRaw (examDateRaw s) in
  let hasResult := negb (String.eqb (Js.trim (Js.orEmpty (passFail s))) "") in
  match dt with Some t => now <? t | None => false end && negb hasResult.

(** [s.matched !== false && (s.progress?.value || 0) < 80] *)
Definition isAtRisk (s : ExamStudent) : bool :=
  negb (match matched s with Some false => true | _ => false end)
  && (match examProgressValue s with Some v => v | None => 0 end <? 80).

(** The [forEach] that counts [upcoming] and [atRisk]. *)
Definition countUpcoming (students : list ExamStudent) : Z * Z :=
  fold_left
    (fun '(upcoming, atRisk) s =>
       if isUpcoming s then
         (upcoming + 1, if isAtRisk s then atRisk + 1 else atRisk)
       else (upcoming, atRisk))
    students (0, 0).

(** [Math.round(passed / completedExams * 1000)], as the runtime computes it:
    the quotient of the two counts is a Number, so is its product with 1000,
    and [Math.round] takes the integer nearest to that.  (The product can fall
    a hair under an exact half, 201 of 400 for one, and [Math.round] then
    yields the integer below.) *)
Definition roundPermille (passed completedExams : Z) : Z :=
  Binary64.mathRound
    (Binary64.mul64
       (Binary64.div64 (inject_Z passed) (inject_Z completedExams)) 1000%Q).

(** [completedExams > 0 ? Math.round(...) / 10 : 0] *)
Definition passRateOf (passed completedExams : Z) : Q :=
  if 0 <? completedExams
  then Binary64.div64 (inject_Z (roundPermille passed completedExams)) 10%Q
  else 0%Q.

(** [recalcExamSummary(students)]: the updater applied to the previous
    summary ([{...prev}] of a missing summary has no fields). *)
Definition recalcExamSummary (students : list ExamStudent)
    (prev : option ExamSummary) : ExamSummary :=
  let total := Z.of_nat (length students) in
  let passed := Z.of_nat (length (List.filter (hasMark "PASS") students)) in
  let failed := Z.of_nat (length (List.filter (hasMark "FAIL") students)) in
  let '(upcoming, atRisk) := countUpcoming students in
  let completedExams := passed + failed in
  let passRate := passRateOf passed completedExams in
  mkExamSummary total passed failed upcoming atRisk passRate
    (total - passed - failed - upcoming)
    (prev ≫= examAverageProgress) (prev ≫= avgStudyTimeFormatted).

(** [getReadiness]: the colour of the dot in the exam table.  It is read off
    the pass/fail mark only; the study readiness computed by the backend is
    shown in the student modal. *)
Definition getReadiness (student : ExamStudent) : string :=
  let pf := Js.toUpperCase (Js.orEmpty (passFail student)) in
  if String.eqb pf "PASS" then "GREEN"
  else if String.eqb pf "FAIL" then "RED"
  else "GRAY".

(** [s.email === email] *)
Definition hasEmail (email : string) (s : ExamStudent) : bool :=
  match examEmail s with Some e => String.eqb e email | None => false end.

Definition withPassFail (result : string) (s : ExamStudent) : ExamStudent :=
  mkExamStudent (examEmail s) (examFullName s) (examStatusPriority s)
    (examDateRaw s) (examDate s) (examDepartmentName s) (examProgressValue s)
    (Some result) (examState s) (examCourseName s) (examTime s) (matched s).

Definition withExamDate (newDate formatted newTime : string) (s : ExamStudent)
    : ExamStudent :=
  mkExamStudent (examEmail s) (examFullName s) (examStatusPriority s)
    (Some newDate) (Some formatted) (examDepartmentName s) (examProgressValue s)
    (passFail s) (examState s) (examCourseName s)
    (if Js.truthy newTime then Some newTime else examTime s) (matched s).

(** [handleUpdateResult(email, result)].  The response is read without
    looking at its status; when it cannot be obtained or read, or reports no
    success, the handler raises an alert and leaves the state as it is.

    [s] is the state when the answer arrives.  [captured] is the
    [examStudents] the handler closed over, those of the render in which it
    was created: [examStudents.map(...)] reads that array, not the current
    state (the summary is recomputed with an updater, which does read the
    current one). *)
Definition handleUpdateResult (email result : string) (res : Fetch UpdateBody)
    (captured : list ExamStudent) (s : State) : State :=
  match res with
  | Response _ (Some data) =>
      if updateSuccess data then
        let updated :=
          map (fun e => if hasEmail email e then withPassFail result e else e)
              captured in
        setExamSummary (Some (recalcExamSummary updated (examSummary s)))
          (setExamStudents updated s)
      else s
  | _ => s
  end.

(** [handleUpdateExamDate(email, newDate, newTime)], with [captured] and [s]
    as for [handleUpdateResult]. *)
Definition handleUpdateExamDate (email newDate newTime : string)
    (res : Fetch UpdateBody) (captured : list ExamStudent) (s : State) : State :=
  match res with
  | Response _ (Some data) =>
      if updateSuccess data then
        let formatted := formatDate newDate in
        let updated :=
          map (fun e => if hasEmail email e
                        then withExamDate newDate formatted newTime e else e)
              captured in
        setExamSummary (Some (recalcExamSummary updated (examSummary s)))
          (setExamStudents updated s)
      else s
  | _ => s
  end.

End ExamSummary.

(** [passed / completedExams] as an exact percentage. *)
Definition exactPercent (passed completedExams : Z) : Q :=
  (100 * passed) # (Z.to_pos completedExams).

(** A pass rate is the exact percentage rounded to one decimal place: the
    Number written [tenths / 10] (50.2, say), for a number of tenths no further
    than half a tenth from the percentage. *)
Definition roundedToOneDecimal (rate exact : Q) : Prop :=
  exists tenths : Z,
    rate = Binary64.div64 (inject_Z tenths) 10%Q
    /\ (Qabs ((tenths # 10) - exact) <= 1 # 20)%Q.

(** What the KPI cards of the Exam tab must add up to for [n] rows. *)
Definition kpiConsistent (n : nat) (k : ExamSummary) : Prop :=
  total k = Z.of_nat n
  /\ passed k + failed k + upcoming k + noResult k = total k
  /\ 0 <= passed k /\ 0 <= failed k /\ 0 <= upcoming k /\ 0 <= noResult k
  /\ 0 <= atRisk k <= upcoming k
  /\ (if 0 <? passed k + failed k
      then roundedToOneDecimal (passRate k)
             (exactPercent (passed k) (passed k + failed k))
      else passRate k = 0%Q).

End Dashboard.

(** ** Dashboard.jsx (the single-department revision)

    [fetchDashboardData] and [loadFullDataInBackground] read the same there;
    the filter has no department part, and [handleExport] is the one above
    with the fixed URL below (that of a dashboard without extra departments). *)

Module DashboardSingle.
Import Model Http.

Definition filteredStudents (searchTerm statusFilter : string)
    (students : list Student) : list Student :=
  List.filter
    (fun student =>
       let searchLower := Js.toLowerCase searchTerm in
       let matchesSearch :=
         negb (Js.truthy searchTerm)
         || Js.includes (Js.toLowerCase (fullName student)) searchLower
         || Js.includes (Js.toLowerCase (email student)) searchLower in
       let matchesStatus :=
         String.eqb statusFilter "all"
         || String.eqb (Js.toLowerCase (statusLabel (status student)))
                       (Js.toLowerCase statusFilter) in
       matchesSearch && matchesStatus)
    students.

Definition exportUrl : string := Dashboard.API_BASE ++ "/dashboard/export".

End DashboardSingle.

(** ** App.jsx: what [onLogout] does *)

Module App.

Record State := mkState {
  isAuthenticated : bool;
  user : option string;
  department : option string
}.

Inductive View := LoginView | DashboardView.

(** [handleLogout]: whatever becomes of the logout request, the [finally]
    block clears the session. *)
Definition handleLogout {B} (logoutRes : Http.Fetch B) (s : State) : State :=
  mkState false None None.

(** What [App] renders once the session check is over. *)
Definition view (s : State) : View :=
  if negb (isAuthenticated s) then LoginView else DashboardView.

End App.

(** ** The backend's classifiers *)

Module Backend.

Inductive StatusLabel := Active | Warning | ReEngage.

(** [status.status] as the status filter of the dashboard spells it. *)
Definition labelText (l : StatusLabel) : string :=
  match l with
  | Active => "active"
  | Warning => "warning"
  | ReEngage => "re-engage"
  end.

(** Modelled from the spec: the status calculator runs in the backend, which
    is not part of the sources at hand (only the legend of the README, the KPI
    cards and the status filter show its labels).  In the specification's
    words: given elapsed hours since last login, less than 24 h maps to
    active, 24 to 72 h to warning, more than 72 h to re-engage. *)
Definition statusOfElapsed (hours : Q) : StatusLabel :=
  if negb (Qle_bool 24 hours) then Active
  else if Qle_bool hours 72 then Warning
  else ReEngage.

(** Hours and minutes as a number of hours. *)
Definition hm (h m : Z) : Q := inject_Z h + (m # 60).

(** The study figures a readiness assessment is computed from, as the
    readiness card of the student modal displays them. *)
Record StudyRecord := mkStudyRecord {
  consecutivePassing : Z;        (* practice exams passed in a row *)
  hoursLogged : Q;               (* time in course *)
  hoursRequired : Q;
  stateLawCompletions : Z;
  stateLawHours : Q;
  videoMinutes : list (string * Q)   (* minutes watched, per category *)
}.

(** Modelled from the spec: the readiness calculator runs in the backend,
    which is not part of the sources at hand (the client only displays
    [readiness.criteria.*.met]).  In the specification's words: consecutive
    passing practice scores >= 3, hours-in-course >= required, state-law
    completion >= 1 with >= 1.5 h, video minutes >= 30 per category. *)
Definition practiceExamsMet (r : StudyRecord) : bool :=
  3 <=? consecutivePassing r.

(** Modelled from the spec: hours-in-course >= required. *)
Definition timeInCourseMet (r : StudyRecord) : bool :=
  Qle_bool (hoursRequired r) (hoursLogged r).

(** Modelled from the spec: state-law completion >= 1 with >= 1.5 h. *)
Definition stateLawsMet (r : StudyRecord) : bool :=
  (1 <=? stateLawCompletions r) && Qle_bool (3 # 2) (stateLawHours r).

(** Modelled from the spec: video minutes >= 30 per category. *)
Definition videosMet (r : StudyRecord) : bool :=
  forallb (fun c => Qle_bool 30 (snd c)) (videoMinutes r).

Record Criteria := mkCriteria {
  practiceExams : bool;
  timeInCourse : bool;
  stateLaws : bool;
  videos : bool
}.

Definition criteriaOf (r : StudyRecord) : Criteria :=
  mkCriteria (practiceExamsMet r) (timeInCourseMet r) (stateLawsMet r) (videosMet r).

(** Modelled from the spec: readiness is the AND of the criteria. *)
Definition ready (r : StudyRecord) : bool :=
  let c := criteriaOf r in
  practiceExams c && timeInCourse c && stateLaws c && videos c.

(** Changing the figures behind one criterion. *)
Definition withPractice (n : Z) (r : StudyRecord) : StudyRecord :=
  mkStudyRecord n (hoursLogged r) (hoursRequired r) (stateLawCompletions r)
    (stateLawHours r) (videoMinutes r).

Definition withHours (logged required : Q) (r : StudyRecord) : StudyRecord :=
  mkStudyRecord (consecutivePassing r) logged required (stateLawCompletions r)
    (stateLawHours r) (videoMinutes r).

Definition withStateLaws (completions : Z) (hours : Q) (r : StudyRecord) : StudyRecord :=
  mkStudyRecord (consecutivePassing r) (hoursLogged r) (hoursRequired r)
    completions hours (videoMinutes r).

Definition withVideos (minutes : list (string * Q)) (r : StudyRecord) : StudyRecord :=
  mkStudyRecord (consecutivePassing r) (hoursLogged r) (hoursRequired r)
    (stateLawCompletions r) (stateLawHours r) minutes.

End Backend.

(** ** Dashboard: the department dropdown of the Students tab *)

Module Departments.
Import Model.

(** The texts of a student that the search reads are ASCII. *)
Definition asciiStudent (a : Student) : bool :=
  Js.isAscii (fullName a) && Js.isAscii (email a)
  && Js.isAscii (Js.orEmpty (departmentName a)).

(** [[...new Set(arr)]]: the elements of [arr] without repetition, each at the
    place of its first occurrence. *)
Definition newSet (arr : list string) : list string :=
  fold_left (fun seen x => if Dashboard.arrayIncludes seen x then seen else (seen ++ [x])%list)
    arr [].

(** The comparator [arr.sort()] uses when none is given, on strings: the
    order of the code units. *)
Definition defaultCompare (a b : string) : Z :=
  if String.ltb a b then -1 else if String.ltb b a then 1 else 0.

(** [students.map(s => (s.departmentName || '').trim()).filter(Boolean)] *)
Definition departmentNames (students : list Student) : list string :=
  List.filter Js.truthy
    (map (fun s => Js.trim (Js.orEmpty (departmentName s))) students).

(** [studentDepartments]: the names offered by the dropdown. *)
Definition studentDepartments (students : list Student) : list string :=
  JsArray.sort defaultCompare (newSet (departmentNames students)).

(** The [onChange] of the check box of department [d]. *)
Definition toggleDepartment (d : string) (prev : list string) : list string :=
  if Dashboard.arrayIncludes prev d
  then List.filter (fun x => negb (String.eqb x d)) prev
  else (prev ++ [d])%list.

(** The student has a department name that is not blank. *)
Definition hasDepartment (s : Student) : bool :=
  Js.truthy (Js.trim (Js.orEmpty (departmentName s))).

End Departments.

(** ** Sample data *)

Module Samples.
Import Model.

Definition course (id : Z) (name : string) : StudentModal.Enrollment :=
  StudentModal.mkEnrollment id (Some name) 1 0 0.

Definition emptyState : Dashboard.State :=
  Dashboard.mkState [] None false false false None None [] None false false
    "" None [] "" "" [] [] "" "all" false [].

Definition alice : Student :=
  mkStudent 1 "Alice Adams" "alice@example.com" (Some "North Agency")
    (mkStatus "Active" 1 "green") (Some (Some 1700000000000)) 80 "Life Pre-Licensing".

Definition bob : Student :=
  mkStudent 2 "Bob Brown" "bob@example.com" (Some "South Agency")
    (mkStatus "Warning" 2 "orange") None 35 "Health Pre-Licensing".

Definition carol : Student :=
  mkStudent 3 "carol clark" "carol@example.com" (Some "North Agency")
    (mkStatus "Active" 1 "green") (Some (Some 1600000000000)) 35 "Life Pre-Licensing".

(** A dashboard that has loaded two students. *)
Definition loadedState : Dashboard.State :=
  Dashboard.setSummary (Some (Dashboard.mkSummary 2 1 1 0 58))
    (Dashboard.setStudents [alice; bob] emptyState).

(** The answer of [/dashboard/students/multi] when two of three extra
    departments could not be loaded. *)
Definition partialAnswer : Dashboard.MultiBody :=
  Dashboard.mkMultiBody true [alice; bob; carol] (Dashboard.mkSummary 3 2 1 0 50)
    (Some [ Dashboard.mkDepartmentMeta "d1" "North Agency" "ok" None 2;
            Dashboard.mkDepartmentMeta "d2" "" "error" (Some "Request timed out") 0;
            Dashboard.mkDepartmentMeta "d3" "" "error" None 0 ]).

Definition examRow (email : string) (dateRaw : string) (mark : option string)
    (progress : Z) : ExamStudent :=
  mkExamStudent (Some email) None None (Some dateRaw) None None (Some progress)
    mark None None None None.

(** Dates of the sample rows: days counted from an arbitrary origin. *)
Definition sampleDateOf (raw : string) : option Z :=
  if String.eqb raw "2026-01-09" then Some 9
  else if String.eqb raw "2026-01-20" then Some 20
  else if String.eqb raw "1/25/2026" then Some 25
  else None.

Definition examRows : list ExamStudent :=
  [ examRow "a@example.com" "2026-01-09" (Some "pass") 100;
    examRow "b@example.com" "2026-01-09" (Some "FAIL") 60;
    examRow "c@example.com" "2026-01-09" (Some "Fail") 70;
    examRow "d@example.com" "2026-01-20" None 50;
    examRow "e@example.com" "1/25/2026" (Some "  ") 90;
    examRow "f@example.com" "2026-01-09" None 10;
    examRow "g@example.com" "someday" (Some "n/a") 10 ].

End Samples.

(** ** Dashboard: the filters of the Exam tab *)

Module ExamTab.
Import Model.

(** A row of the Exam tab with the further fields the filters read. *)
Record ExamRow := mkExamRow {
  examRowOf : ExamStudent;
  agencyOwner : option string;
  examCourse : option string;
  readinessStatus : option string     (* readiness?.status *)
}.

(** The filter cells of the Exam tab, with [adminMode]. *)
Record Filters := mkFilters {
  adminMode : bool;
  searchTerm : string;
  examResultFilter : string;
  examCourseFilter : string;
  examDeptFilter : list string;
  examStateFilter : string;
  examReadinessFilter : string;
  examDaysFilter : string
}.

Section WithDates.

(** [today.getTime()] after [today.setHours(0, 0, 0, 0)]: the start of the
    current day. *)
Variable todayTs : Z.

(** As for [recalcExamSummary]: the time value [parseExamDateRaw] reads from a
    non-empty raw string, [None] for [NaN]. *)
Variable dateOf : string -> option Z.

(** A number used as a condition: [NaN] and 0 are falsy. *)
Definition truthyTime (ts : option Z) : bool :=
  match ts with Some t => negb (t =? 0) | None => false end.

(** [examDateTs && examDateTs < today.getTime()] *)
Definition isPast (student : ExamRow) : bool :=
  let examDateTs := Dashboard.parseExamDateRaw dateOf (examDateRaw (examRowOf student)) in
  truthyTime examDateTs
  && match examDateTs with Some t => t <? todayTs | None => false end.

(** The [switch (examResultFilter)] with the lines before it. *)
Definition matchesResult (examResultFilter : string) (student : ExamRow) : bool :=
  if negb (String.eqb examResultFilter "all") then
    let pf := Js.toUpperCase (Js.orEmpty (passFail (examRowOf student))) in
    let hasResult := String.eqb pf "PASS" || String.eqb pf "FAIL" in
    if String.eqb examResultFilter "passed" then String.eqb pf "PASS"
    else if String.eqb examResultFilter "failed" then String.eqb pf "FAIL"
    else if String.eqb examResultFilter "no-result" then negb hasResult
    else if String.eqb examResultFilter "upcoming" then
      negb (isPast student) && negb hasResult
    else if String.eqb examResultFilter "pending" then
      isPast student && negb hasResult
    else if String.eqb examResultFilter "at-risk" then
      negb (isPast student) && negb hasResult
      && negb (match matched (examRowOf student) with Some false => true | _ => false end)
      && (match examProgressValue (examRowOf student) with Some v => v | None => 0 end
          <? 80)
    else true
  else true.

(** [Math.ceil((examDateTs - todayTs) / 86400000)] for two times in
    milliseconds. *)
Definition daysUntil (examDateTs : Z) : Z :=
  (examDateTs - todayTs + 86399999) / 86400000.

(** [matchesDaysFilter(student, filter)] *)
Definition matchesDaysFilter (student : ExamRow) (filter : string) : bool :=
  if String.eqb filter "all" then true
  else
    let examDateTs := Dashboard.parseExamDateRaw dateOf (examDateRaw (examRowOf student)) in
    if negb (truthyTime examDateTs) then String.eqb filter "no-date"
    else
      let d := daysUntil (match examDateTs with Some t => t | None => 0 end) in
      if String.eqb filter "overdue" then d <? 0
      else if String.eqb filter "today" then d =? 0
      else if String.eqb filter "tomorrow" then d =? 1
      else if String.eqb filter "2-days" then (0 <=? d) && (d <=? 2)
      else if String.eqb filter "3-days" then (0 <=? d) && (d <=? 3)
      else if String.eqb filter "this-week" then (0 <=? d) && (d <=? 7)
      else if String.eqb filter "next-week" then (7 <? d) && (d <=? 14)
      else if String.eqb filter "this-month" then (0 <=? d) && (d <=? 30)
      else if String.eqb filter "no-date" then false
      else true.

(** [x === 'all' || (field || '').toLowerCase() === x.toLowerCase()] *)
Definition matchesChoice (choice : string) (field : option string) : bool :=
  String.eqb choice "all"
  || String.eqb (Js.toLowerCase (Js.orEmpty field)) (Js.toLowerCase choice).

(** The callback of [examStudents.filter(student => ...)]. *)
Definition keepExamStudent (f : Filters) (student : ExamRow) : bool :=
  if negb (adminMode f)
     && match matched (examRowOf student) with Some false => true | _ => false end
  then false
  else
    let searchLower := Js.toLowerCase (searchTerm f) in
    let matchesSearch :=
      negb (Js.truthy (searchTerm f))
      || Js.includes (Js.toLowerCase (Js.orEmpty (examFullName (examRowOf student))))
           searchLower
      || Js.includes (Js.toLowerCase (Js.orEmpty (examEmail (examRowOf student))))
           searchLower
      || Js.includes
           (Js.toLowerCase (Js.orEmpty (examDepartmentName (examRowOf student))))
           searchLower
      || Js.includes (Js.toLowerCase (Js.orEmpty (agencyOwner student))) searchLower in
    let matchesCourse := matchesChoice (examCourseFilter f) (examCourse student) in
    let matchesDept :=
      (Z.of_nat (length (examDeptFilter f)) =? 0)
      || Dashboard.arrayIncludes (examDeptFilter f)
           (Js.trim (Js.orEmpty (examDepartmentName (examRowOf student)))) in
    let matchesState :=
      matchesChoice (examStateFilter f) (examState (examRowOf student)) in
    let matchesReadiness :=
      String.eqb (examReadinessFilter f) "all"
      || String.eqb
           (match readinessStatus student with
            | Some r => if Js.truthy r then r else "GRAY"
            | None => "GRAY"
            end)
           (examReadinessFilter f) in
    let matchesDays := matchesDaysFilter student (examDaysFilter f) in
    matchesSearch && matchesResult (examResultFilter f) student && matchesCourse
    && matchesDept && matchesState && matchesReadiness && matchesDays.

Definition filteredExamStudents (f : Filters) (examStudents : list ExamRow)
    : list ExamRow :=
  List.filter (keepExamStudent f) examStudents.

(** [adminMode ? examStudents : examStudents.filter(s => s.matched !== false)] *)
Definition visibleExamStudents (f : Filters) (examStudents : list ExamRow)
    : list ExamRow :=
  if adminMode f then examStudents
  else List.filter
         (fun s => negb (match matched (examRowOf s) with
                         | Some false => true | _ => false end))
         examStudents.

End WithDates.

(** [setExamResultFilter(v)] and [setExamDaysFilter(v)] *)
Definition setExamResultFilter (v : string) (f : Filters) : Filters :=
  mkFilters (adminMode f) (searchTerm f) v (examCourseFilter f) (examDeptFilter f)
    (examStateFilter f) (examReadinessFilter f) (examDaysFilter f).

Definition setExamDaysFilter (v : string) (f : Filters) : Filters :=
  mkFilters (adminMode f) (searchTerm f) (examResultFilter f) (examCourseFilter f)
    (examDeptFilter f) (examStateFilter f) (examReadinessFilter f) v.

(** The "Clear All" button: every filter back to its neutral value. *)
Definition clearAll (f : Filters) : Filters :=
  mkFilters (adminMode f) "" "all" "all" [] "all" "all" "all".

End ExamTab.

(** ** Sort values of one kind *)

Module JsOrder.
Import JsArray.



End JsOrder.

(** ** StudentModal: a group of courses *)

Module CourseGroups.
Import StudentModal.

(** The callback of [enrollments.find(...)]: a course whose name mentions no
    module, chapter or lesson. *)
Definition isMainCandidate (e : Enrollment) : bool :=
  let name := Js.toLowerCase (Js.orEmpty (courseName e)) in
  negb (Js.includes name "module") && negb (Js.includes name "chapter")
  && negb (Js.includes name "lesson").

(** What [CourseGroup] lays out: nothing for an empty group, otherwise the
    main course ([find(...) || enrollments[0]]) and the modules (the
    enrollments of another id). *)
Definition courseGroup (enrollments : list Enrollment)
    : option (Enrollment * list Enrollment) :=
  match enrollments with
  | [] => None
  | first :: _ =>
      let mainCourse :=
        match List.find isMainCandidate enrollments with
        | Some e => e
        | None => first
        end in
      let modules :=
        List.filter (fun e => negb (enrollmentId e =? enrollmentId mainCourse))
          enrollments in
      Some (mainCourse, modules)
  end.

(** The enrollments whose progress is a number: [progress] holds, for each
    enrollment, [e.progress?.value ?? e.progress] when that is a number other
    than [NaN], and [None] otherwise. *)
Definition validProgress (progress : list (option Z)) : list Z :=
  omap id progress.

(** [Math.round(total / n)] for whole numbers, [n] positive: the nearest
    integer, a half going up. *)
Definition roundDiv (total n : Z) : Z := (2 * total + n) / (2 * n).

(** [calculateGroupProgress(enrollments)], on the progress readings. *)
Definition calculateGroupProgress (progress : list (option Z)) : Z :=
  if (Z.of_nat (length progress) =? 0) then 0
  else
    let valid := validProgress progress in
    if (Z.of_nat (length valid) =? 0) then 0
    else
      let total := fold_left Z.add valid 0 in
      roundDiv total (Z.of_nat (length valid)).

End CourseGroups.

(** ** StudentModal: editing the contact data *)

Module ContactForm.

(** *** Regular expressions, matched with continuations

    A piece of a pattern takes the matcher of what follows it and the rest of
    the input; it tries its longest match first and falls back to shorter
    ones, as the backtracking matcher of the language does. *)

(** [[class]+] *)
Fixpoint plus (class : ascii -> bool) (k : string -> bool) (s : string) : bool :=
  match s with
  | String c s' => class c && (plus class k s' || k s')
  | EmptyString => false
  end.

(** [[class]*] *)
Fixpoint star (class : ascii -> bool) (k : string -> bool) (s : string) : bool :=
  match s with
  | String c s' => (class c && star class k s') || k s
  | EmptyString => k EmptyString
  end.

(** [[class]] *)
Definition one (class : ascii -> bool) (k : string -> bool) (s : string) : bool :=
  match s with
  | String c s' => class c && k s'
  | EmptyString => false
  end.

(** A literal character. *)
Definition lit (c : ascii) : (string -> bool) -> string -> bool :=
  one (Ascii.eqb c).

(** [$] *)
Definition atEnd (s : string) : bool :=
  match s with EmptyString => true | _ => false end.

Definition isDigit (c : ascii) : bool :=
  let n := N_of_ascii c in (48 <=? n)%N && (n <=? 57)%N.

(** [[a-zA-Z]] *)
Definition isLetter (c : ascii) : bool := Js.is_lower c || Js.is_upper c.

(** [[a-zA-Z0-9._%+-]] *)
Definition isLocalChar (c : ascii) : bool :=
  isLetter c || isDigit c || existsb (Ascii.eqb c) ["."; "_"; "%"; "+"; "-"]%char.

(** [[a-zA-Z0-9.-]] *)
Definition isDomainChar (c : ascii) : bool :=
  isLetter c || isDigit c || existsb (Ascii.eqb c) ["."; "-"]%char.

(** [isValidEmail(email)]:
    [/^[a-zA-Z0-9._%+-]+@[a-zA-Z0-9.-]+\.[a-zA-Z]{2,}$/.test(email)] *)
Definition isValidEmail (email : string) : bool :=
  plus isLocalChar
    (lit "@"
       (plus isDomainChar
          (lit "." (one isLetter (one isLetter (star isLetter atEnd))))))
    email.

(** *** The form *)

Record Contact := mkContact {
  firstName : string;
  lastName : string;
  emailAddress : string;
  phone : string
}.

(** What [onUpdateStudentContact] resolves to, or that it threw. *)
Inductive SaveResult :=
  | Threw
  | Saved (student : Contact)
  | NotSaved (error : option string).

(** The cells of the modal that saving touches, with the contact fields of
    the student shown. *)
Record State := mkState {
  contactForm : Contact;
  contactError : string;
  contactSaving : bool;
  editingContact : bool;
  shown : Contact;
  shownFullName : string
}.

Definition setContactError (v : string) (s : State) : State :=
  mkState (contactForm s) v (contactSaving s) (editingContact s) (shown s)
    (shownFullName s).

Definition setContactSaving (v : bool) (s : State) : State :=
  mkState (contactForm s) (contactError s) v (editingContact s) (shown s)
    (shownFullName s).

(** The object handed to [onUpdateStudentContact]: every field trimmed. *)
Definition trimmed (form : Contact) : Contact :=
  mkContact (Js.trim (firstName form)) (Js.trim (lastName form))
    (Js.trim (emailAddress form)) (Js.trim (phone form)).

(** The [try] block once the answer is there. *)
Definition afterSave (result : SaveResult) (s : State) : State :=
  match result with
  | Saved student =>
      mkState (contactForm s) (contactError s) (contactSaving s) false student
        (Js.trim (firstName student ++ " " ++ lastName student))
  | NotSaved error =>
      setContactError
        (match error with
         | Some e => if Js.truthy e then e else "Update failed"
         | None => "Update failed"
         end) s
  | Threw => setContactError "Failed to save changes" s
  end.

(** [handleSaveContact].  [onUpdateStudentContact] is a function of the parent
    component: it may change the parent's state, of type [W], before it
    answers; [studentId] is the modal's prop. *)
Definition handleSaveContact {W} (studentId : Z)
    (onUpdateStudentContact : Z -> Contact -> W -> W * SaveResult)
    (s : State) (parent : W) : W * State :=
  let s0 := setContactError "" s in
  let form := contactForm s in
  if negb (Js.truthy (Js.trim (firstName form)))
     || negb (Js.truthy (Js.trim (lastName form)))
  then (parent, setContactError "First and last name are required" s0)
  else if negb (isValidEmail (emailAddress form))
  then (parent, setContactError "Please enter a valid email address" s0)
  else
    let answer := onUpdateStudentContact studentId (trimmed form) parent in
    (answer.1,
     setContactSaving false (afterSave answer.2 (setContactSaving true s0))).

(** A character that is no white space. *)
Definition notSpace (c : ascii) : bool := negb (Js.is_space c).

(** A string of characters of one class. *)
Definition allChars (class : ascii -> bool) (s : string) : Prop :=
  forallb class (list_ascii_of_string s) = true.

End ContactForm.

(** ** Dashboard: saving the contact data of a student *)

Module ContactUpdate.
Import Model Http ContactForm.

(** A row of the Students tab with the contact fields the update writes. *)
Record ContactRow := mkContactRow {
  rowOf : Student;
  rowFirstName : option string;
  rowLastName : option string;
  rowPhone : option string
}.

(** The body of the answer of [PUT /students/:id]. *)
Record ContactBody := mkContactBody {
  contactSuccess : bool;
  contactStudent : Contact;
  contactErrorText : option string
}.

(** The object spread in the callback of [prev.map(...)]. *)
Definition withContact (updated : Contact) (r : ContactRow) : ContactRow :=
  let s := rowOf r in
  mkContactRow
    (mkStudent (studentId s)
       (Js.trim (firstName updated ++ " " ++ lastName updated))
       (emailAddress updated) (departmentName s) (status s) (lastLoginTime s)
       (progressValue s) (courseName s))
    (Some (firstName updated)) (Some (lastName updated)) (Some (phone updated)).

(** [handleUpdateStudentContact(studentId, contactData)]: the rows after it,
    and what it resolves to.  The status of the response is not looked at. *)
Definition handleUpdateStudentContact (id : Z) (contactData : Contact)
    (res : Fetch ContactBody) (rows : list ContactRow)
    : list ContactRow * SaveResult :=
  match res with
  | Response _ (Some data) =>
      if contactSuccess data then
        let updated := contactStudent data in
        (map (fun r => if studentId (rowOf r) =? id then withContact updated r else r)
           rows,
         Saved updated)
      else
        (rows,
         NotSaved (Some (match contactErrorText data with
                         | Some e => if Js.truthy e then e else "Update failed"
                         | None => "Update failed"
                         end)))
  | _ => (rows, NotSaved (Some "Network error"))
  end.

End ContactUpdate.

(** ** Login.jsx *)

Module LoginForm.

Record Credentials := mkCredentials {
  credUsername : string;
  credPassword : string;
  credDepartmentId : string
}.

(** What [onLogin] resolves to. *)
Record LoginResult := mkLoginResult {
  loginSuccess : bool;
  loginError : option string
}.

Record State := mkState {
  username : string;
  password : string;
  departmentId : string;
  loading : bool;
  error : option string
}.

Definition finish (message : option string) (s : State) : State :=
  mkState (username s) (password s) (departmentId s) false message.

(** [handleSubmit]: each failed check sets its message, clears [loading] and
    returns; [onLogin] is awaited only after the four checks. *)
Definition handleSubmit (onLogin : Credentials -> LoginResult) (s : State) : State :=
  if negb (Js.truthy (Js.trim (username s))) then
    finish (Some "Username is required") s
  else if negb (Js.truthy (password s)) then
    finish (Some "Password is required") s
  else if negb (Js.truthy (Js.trim (departmentId s))) then
    finish (Some "Department ID is required") s
  else if negb (Dashboard.guidPattern_test (Js.trim (departmentId s))) then
    finish (Some "Invalid Department ID format. Please enter a valid GUID.") s
  else
    let result :=
      onLogin (mkCredentials (Js.trim (username s)) (password s)
                 (Js.trim (departmentId s))) in
    if negb (loginSuccess result) then finish (loginError result) s
    else finish None s.

End LoginForm.

(** ** Dashboard: the Sync button *)

Module Sync.
Import Model Http Dashboard.

(** The body of the answer of [/dashboard/sync]: the fields read from it when
    the request succeeded, and [error], read when it did not. *)
Record SyncBody := mkSyncBody {
  syncSuccess : bool;
  syncSummary : Summary;
  syncStudents : list Student;
  syncDepartments : option (list DepartmentMeta);
  syncError : option string
}.

Section WithRuntime.

(** [new Date()] when the answer arrives. *)
Variable now : Z.

(** The [message] of the error a rejected [fetch] carries, and of the error
    [response.json()] carries when the body cannot be parsed. *)
Variables fetchErrorMessage jsonErrorMessage : string.

(** The tab that is open. *)
Variable activeTab : string.

(** [errData?.error || `Sync failed (${response.status})`] *)
Definition syncFailedMessage (status : Z) (errData : option SyncBody) : string :=
  match errData with
  | Some d =>
      match syncError d with
      | Some e => if Js.truthy e then e else "Sync failed (" ++ pretty status ++ ")"
      | None => "Sync failed (" ++ pretty status ++ ")"
      end
  | None => "Sync failed (" ++ pretty status ++ ")"
  end.

(** [handleSync].  [examRes] and [schedulerRes] are the outcomes of the
    requests of [fetchExamData()], which is started, and not awaited, when the
    exam data had been loaded and the Exam tab is open. *)
Definition handleSync (res : Fetch SyncBody)
    (examRes : Fetch ExamBody) (schedulerRes : Fetch SchedulerBody)
    (s : State) : State :=
  let s1 := setError None (setSyncing true s) in
  let catch (message : string) :=
    setError (Some (if Js.truthy message then message
                    else "Failed to sync data. Please try again.")) in
  let finally := setSyncing false in
  match res with
  | Response status json =>
      if negb (ok status) then
        if status =? 401 then finally (onLogout s1)
        else finally (catch (syncFailedMessage status json) s1)
      else
        match json with
        | Some data =>
            if syncSuccess data then
              let s2 := setStudents (syncStudents data)
                          (setSummary (Some (syncSummary data)) s1) in
              let s3 := match syncDepartments data with
                        | Some ds => setDepartmentMeta ds s2
                        | None => s2
                        end in
              let s4 := setLastSynced (Some now) s3 in
              let s5 :=
                if examLoaded s then
                  let s' := setExamLoaded false s4 in
                  if String.eqb activeTab "exam"
                  then fetchExamData "" examRes schedulerRes s'
                  else s'
                else s4 in
              finally s5
            else finally s1
        | None => finally (catch jsonErrorMessage s1)
        end
  | NetworkError => finally (catch fetchErrorMessage s1)
  end.

End WithRuntime.

End Sync.

(** ** ExamTable, the revision with sections *)

Module GroupedExamTable.
Import Model JsArray.

Record TableSection := mkTableSection {
  label : string;
  color : string;
  sectionStudents : list ExamStudent
}.

Section WithRuntime.

(** The three readers of [parseExamDate] (M/D/YYYY, YYYY-MM-DD, and the
    runtime's own [Date] parser brought to local midnight), each giving the
    time of a date it can read. *)
Variable formats : list (string -> option Z).

(** [getFullYear()], [getMonth()] and [getDate()] of the [Date] of a time, and
    the time of [new Date(year, month, day)]; [now] is the time of
    [new Date()] while the table is rendered. *)
Variable localDate : Z -> Z * Z * Z.
Variable dateTime : Z * Z * Z -> Z.
Variable now : Z.

Definition parseExamDate (dateStr : option string) : Z :=
  match dateStr with
  | None => 0
  | Some s => if Js.truthy s then ExamTable.firstValid formats (Js.trim s) else 0
  end.

Definition examTs (student : ExamStudent) : Z :=
  parseExamDate (ExamTable.orField (examDateRaw student) (examDate student)).

(** [getDateGroup(student)] *)
Definition getDateGroup (student : ExamStudent) : string :=
  let ts := examTs student in
  if ts =? 0 then "upcoming"
  else
    let '(ey, em, ed) := localDate ts in
    let '(ty, tm, td) := localDate now in
    if (ey =? ty) && (em =? tm) && (ed =? td) then "today"
    else if dateTime (ty, tm, td) <? dateTime (ey, em, ed) then "upcoming"
    else "past".

(** PASS=1 (top), No result=2 (middle), FAIL=3 (bottom) *)
Definition resultRank (a : ExamStudent) : Z :=
  let pf := Js.toUpperCase (Js.orEmpty (passFail a)) in
  if String.eqb pf "PASS" then 1 else if String.eqb pf "FAIL" then 3 else 2.

Definition sortValue (sortField : string) (a : ExamStudent) : JsValue :=
  if String.eqb sortField "name" then
    JStr (Js.toLowerCase (Js.orEmpty (examFullName a)))
  else if String.eqb sortField "status" then
    JNum (match examStatusPriority a with Some p => p | None => 99 end)
  else if String.eqb sortField "examDate" then JNum (examTs a)
  else if String.eqb sortField "department" then
    JStr (Js.toLowerCase (Js.orEmpty (examDepartmentName a)))
  else if String.eqb sortField "progress" then
    JNum (match examProgressValue a with Some v => v | None => 0 end)
  else if String.eqb sortField "result" then JNum (resultRank a)
  else if String.eqb sortField "state" then
    JStr (Js.toLowerCase (Js.orEmpty (examState a)))
  else if String.eqb sortField "course" then
    JStr (Js.toLowerCase (Js.orEmpty (examCourseName a)))
  else JNum (examTs a).

(** [sortWithinGroup(list)] *)
Definition sortWithinGroup (sortField : string) (sortDirection : SortDirection)
    (rows : list ExamStudent) : list ExamStudent :=
  JsArray.sort
    (fun a b => compareValues sortDirection (sortValue sortField a)
                  (sortValue sortField b))
    rows.

Definition inGroup (group : string) (students : list ExamStudent)
    : list ExamStudent :=
  List.filter (fun s => String.eqb (getDateGroup s) group) students.

(** The comparator of the past exams when the table is sorted by date. *)
Definition comparePast (sortDirection : SortDirection) (a b : ExamStudent) : Z :=
  match sortDirection with
  | asc => examTs b - examTs a
  | desc => examTs a - examTs b
  end.

Definition sortedPast (sortField : string) (sortDirection : SortDirection)
    (students : list ExamStudent) : list ExamStudent :=
  if String.eqb sortField "examDate"
  then JsArray.sort (comparePast sortDirection) (inGroup "past" students)
  else sortWithinGroup sortField sortDirection (inGroup "past" students).

(** [sections.push(...)] for a group that is not empty. *)
Definition pushSection (name shade : string) (rows : list ExamStudent)
    (sections : list TableSection) : list TableSection :=
  if 0 <? Z.of_nat (length rows)
  then (sections ++ [mkTableSection name shade rows])%list
  else sections.

(** The sections of the table: Today > Upcoming > Past. *)
Definition sections (sortField : string) (sortDirection : SortDirection)
    (students : list ExamStudent) : list TableSection :=
  let sortedToday :=
    sortWithinGroup sortField sortDirection (inGroup "today" students) in
  let sortedUpcoming :=
    sortWithinGroup sortField sortDirection (inGroup "upcoming" students) in
  pushSection "Past Exams" "gray" (sortedPast sortField sortDirection students)
    (pushSection "Upcoming Exams" "green" sortedUpcoming
       (pushSection "Today's Exams" "blue" sortedToday [])).

End WithRuntime.

End GroupedExamTable.

(** ** More sample data *)

Module MoreSamples.
Import Model Samples.

(** A student whose record carries no department. *)
Definition dave : Student :=
  mkStudent 4 "Dave Doe" "dave@example.com" None
    (mkStatus "Re-engage" 3 "red") None 0 "Life Pre-Licensing".

(** Three departments' worth of students, one of them without department. *)
Definition mixedState : Dashboard.State :=
  Dashboard.setStudents [alice; bob; carol; dave] emptyState.

(** The sample exam rows as rows of the Exam tab. *)
Definition examTabRows : list ExamTab.ExamRow :=
  map (fun e => ExamTab.mkExamRow e None None None) examRows.

(** A department manager with a well-formed id typed in. *)
Definition typingState : Dashboard.State :=
  Dashboard.setDeptInputValue " a1b2c3d4-e5f6-7890-abcd-ef1234567890 "
    (Dashboard.setExtraDepartments ["00000000-0000-0000-0000-000000000002"] emptyState).

(** The courses of a pre-licensing bundle, the main course in the middle. *)
Definition bundle : list StudentModal.Enrollment :=
  [ StudentModal.mkEnrollment 11 (Some "Life Pre-Licensing - Chapter 1") 2 100 60;
    StudentModal.mkEnrollment 12 (Some "Life Pre-Licensing") 1 40 300;
    StudentModal.mkEnrollment 13 (Some "Life Pre-Licensing - Chapter 2") 1 15 20 ].

(** The filters of an administrator searching for a name. *)
Definition adminFilters : ExamTab.Filters :=
  ExamTab.mkFilters true "adams" "passed" "all" [] "all" "all" "this-week".

(** Students by the day of their last login; [unreadable] has a
    [lastLogin.raw] that is no date. *)
Definition loggedIn (id day : Z) : Student :=
  mkStudent id "Student" "student@example.com" None (mkStatus "Active" 1 "green")
    (Some (Some (day * 86400000))) 50 "Life Pre-Licensing".

Definition unreadable : Student :=
  mkStudent 4 "Student" "student@example.com" None (mkStatus "Active" 1 "green")
    (Some None) 50 "Life Pre-Licensing".

Definition loginRows : list Student :=
  [ loggedIn 1 1; loggedIn 2 2; loggedIn 3 9; unreadable; loggedIn 5 5;
    loggedIn 6 0; loggedIn 7 5 ].

End MoreSamples.

(** * Properties *)

(** ** Strings *)

Section JsFacts.

Lemma append_cons (c : ascii) (a b : string) :
  String c a ++ b = String c (a ++ b).
Proof. reflexivity. Qed.

Lemma append_nil (b : string) : "" ++ b = b.
Proof. reflexivity. Qed.

Lemma prefix_app (p s : string) :
  String.prefix p s = true <-> exists rest, s = p ++ rest.
Proof.
  revert s. induction p as [|c p IH]; intros s.
  - destruct s; simpl; split; eauto.
  - destruct s as [|d s]; simpl.
    + split; [discriminate | intros [rest H]; discriminate].
    + destruct (ascii_dec c d) as [->|Hne].
      * rewrite IH. split; intros [rest H]; exists rest;
          rewrite append_cons in *; congruence.
      * split; [discriminate | intros [rest H]; rewrite append_cons in H; congruence].
Qed.

Lemma includes_unfold (s sub : string) :
  Js.includes s sub =
  if String.prefix sub s then true
  else match s with
       | EmptyString => false
       | String _ s' => Js.includes s' sub
       end.
Proof. destruct s; reflexivity. Qed.

(** [includes] decides the occurrence of a contiguous substring. *)
Lemma includes_spec (s sub : string) :
  Js.includes s sub = true <-> exists before after, s = before ++ sub ++ after.
Proof.
  induction s as [|c s IH]; rewrite includes_unfold.
  - destruct (String.prefix sub "") eqn:Hp.
    + apply prefix_app in Hp as [rest Hp]. split; [|done].
      intros _. exists "", rest. done.
    + split; [discriminate|]. intros ([|? ?] & after & H); [|discriminate].
      rewrite append_nil in H.
      assert (String.prefix sub "" = true) by (apply prefix_app; eauto).
      congruence.
  - destruct (String.prefix sub (String c s)) eqn:Hp.
    + apply prefix_app in Hp as [rest Hp]. split; [|done].
      intros _. exists "", rest. done.
    + rewrite IH. split.
      * intros (b & a & ->). exists (String c b), a. done.
      * intros ([|d b] & a & H).
        -- rewrite append_nil in H.
           assert (String.prefix sub (String c s) = true)
             by (apply prefix_app; eauto). congruence.
        -- rewrite append_cons in H. injection H as -> ->. eauto.
Qed.

Lemma includes_empty (s : string) : Js.includes s "" = true.
Proof. apply includes_spec. exists "", s. done. Qed.

Lemma toLowerCase_idem (s : string) :
  Js.toLowerCase (Js.toLowerCase s) = Js.toLowerCase s.
Proof.
  induction s as [|c s IH]; [done|]. unfold Js.toLowerCase in *. simpl. f_equal; [|done].
  unfold Js.lower_char at 1. destruct (Js.is_upper (Js.lower_char c)) eqn:E; [|done].
  exfalso. revert E. unfold Js.lower_char, Js.is_upper.
  destruct c as [[] [] [] [] [] [] [] []]; vm_compute; congruence.
Qed.

End JsFacts.

(** ** Enrollment buckets *)

Section Categorize.
Import StudentModal Samples.

Lemma isPreLicensingCourse_anyOf (name : string) :
  isPreLicensingCourse name = anyOf name ["pre-licens"; "prelicens"; "pre licens"].
Proof.
  unfold isPreLicensingCourse, anyOf, containsCI. simpl.
  by rewrite orb_false_r, orb_assoc.
Qed.

Lemma isChapterOrModule_anyOf (name : string) :
  isChapterOrModule name = anyOf name ["module"; "chapter"; "lesson"; "unit"].
Proof.
  unfold isChapterOrModule, anyOf, containsCI. simpl.
  by rewrite orb_false_r, !orb_assoc.
Qed.

Lemma isExamPrepCourse_anyOf (name : string) :
  isExamPrepCourse name = anyOf name ["practice"; "prep"; "study"].
Proof.
  unfold isExamPrepCourse, anyOf, containsCI. simpl.
  by rewrite orb_false_r, orb_assoc.
Qed.

(** A turn of the loop appends the enrollment to the bucket the precedence
    rule names, and to that one only. *)
Lemma pushEnrollment_bucketOf (b : Buckets) (e : Enrollment) :
  pushEnrollment b e =
  match bucketOf e with
  | PreLicensing => mkBuckets (preLicensing b ++ [e]) (examPrep b) (other b)
  | ExamPrep => mkBuckets (preLicensing b) (examPrep b ++ [e]) (other b)
  | Other => mkBuckets (preLicensing b) (examPrep b) (other b ++ [e])
  end.
Proof.
  unfold pushEnrollment, bucketOf.
  rewrite isPreLicensingCourse_anyOf, isChapterOrModule_anyOf, isExamPrepCourse_anyOf.
  repeat case_match; congruence.
Qed.

Lemma fold_pushEnrollment (l : list Enrollment) (b : Buckets) :
  fold_left pushEnrollment l b =
  mkBuckets (preLicensing b ++ List.filter (inBucket PreLicensing) l)
            (examPrep b ++ List.filter (inBucket ExamPrep) l)
            (other b ++ List.filter (inBucket Other) l).
Proof.
  revert b. induction l as [|e l IH]; intros b; simpl.
  - rewrite !app_nil_r. by destruct b.
  - rewrite IH, pushEnrollment_bucketOf. unfold inBucket.
    destruct (bucketOf e); simpl; by rewrite <- ?app_assoc.
Qed.

Lemma partition3_Permutation {A} (f : A -> Bucket) (l : list A) :
  Permutation
    (List.filter (fun x => Bucket_eqb (f x) PreLicensing) l
     ++ List.filter (fun x => Bucket_eqb (f x) ExamPrep) l
     ++ List.filter (fun x => Bucket_eqb (f x) Other) l) l.
Proof.
  induction l as [|x l IH]; simpl; [done|].
  destruct (f x); simpl.
  - by constructor.
  - rewrite <- Permutation_middle. by constructor.
  - rewrite app_assoc, <- Permutation_middle, <- app_assoc. by constructor.
Qed.

(** C7. Every enrollment goes to exactly one of the buckets pre-licensing,
    exam-prep and other, by case-insensitive substring search in its course
    name with the stated precedence: each bucket holds, in input order, the
    enrollments the rule [bucketOf] assigns to it, the three buckets together
    are a rearrangement of the input, and the rule names one bucket per
    enrollment. *)
Theorem categorizeEnrollments_buckets (enrollments : list Enrollment) :
  let b := categorizeEnrollments enrollments in
  preLicensing b = List.filter (inBucket PreLicensing) enrollments
  /\ examPrep b = List.filter (inBucket ExamPrep) enrollments
  /\ other b = List.filter (inBucket Other) enrollments
  /\ Permutation (preLicensing b ++ examPrep b ++ other b) enrollments
  /\ (forall e,
        inBucket PreLicensing e || inBucket ExamPrep e || inBucket Other e = true
        /\ inBucket PreLicensing e && inBucket ExamPrep e = false
        /\ inBucket PreLicensing e && inBucket Other e = false
        /\ inBucket ExamPrep e && inBucket Other e = false).
Proof.
  unfold categorizeEnrollments. rewrite fold_pushEnrollment. simpl.
  repeat split; try reflexivity.
  - apply (partition3_Permutation bucketOf).
  - unfold inBucket. by destruct (bucketOf e).
  - unfold inBucket. by destruct (bucketOf e).
  - unfold inBucket. by destruct (bucketOf e).
  - unfold inBucket. by destruct (bucketOf e).
Qed.

Example categorize_sample :
  categorizeEnrollments
    [course 1 "Life Pre-Licensing Course"; course 2 "Chapter 3 Practice Quiz";
     course 3 "Exam PREP Study Guide"; course 4 "Welcome Video";
     mkEnrollment 5 None 0 0 0; course 6 "Community Guidelines"]
  = mkBuckets
      [course 1 "Life Pre-Licensing Course"; course 2 "Chapter 3 Practice Quiz";
       course 6 "Community Guidelines"]
      [course 3 "Exam PREP Study Guide"]
      [course 4 "Welcome Video"; mkEnrollment 5 None 0 0 0].
Proof. vm_compute. reflexivity. Qed.

End Categorize.

(** ** Sorting the tables *)

Section SortFacts.
Import JsArray.
Context {A : Type} (cmp : A -> A -> Z).

Lemma insertBy_Permutation (x : A) (l : list A) :
  Permutation (insertBy cmp x l) (x :: l).
Proof.
  induction l as [|y l IH]; simpl; [done|].
  destruct (0 <? cmp x y); [|done].
  rewrite IH. apply perm_swap.
Qed.

Lemma sort_Permutation (l : list A) : Permutation (sort cmp l) l.
Proof.
  induction l as [|x l IH]; simpl; [done|].
  rewrite insertBy_Permutation. by constructor.
Qed.

(** A class of rows that never compare greater than one another keeps its
    order: inserting passes over rows outside the class only. *)
Lemma filter_insertBy (P : A -> bool) (x : A) (l : list A) :
  (forall a b, 0 < cmp a b -> P a = true -> P b = true -> False) ->
  List.filter P (insertBy cmp x l) = List.filter P (x :: l).
Proof.
  intros HP. induction l as [|y l IH]; simpl; [done|].
  destruct (0 <? cmp x y) eqn:Hc; simpl; [|done].
  rewrite IH. simpl. apply Z.ltb_lt in Hc.
  destruct (P x) eqn:Hx, (P y) eqn:Hy; try done.
  exfalso. eauto.
Qed.

Lemma filter_sort (P : A -> bool) (l : list A) :
  (forall a b, 0 < cmp a b -> P a = true -> P b = true -> False) ->
  List.filter P (sort cmp l) = List.filter P l.
Proof.
  intros HP. induction l as [|x l IH]; simpl; [done|].
  rewrite filter_insertBy by done. simpl. by rewrite IH.
Qed.

Lemma insertBy_Sorted (x : A) (l : list A) :
  (forall a b, 0 < cmp a b -> cmp b a <= 0) ->
  Sorted (inOrder cmp) l -> Sorted (inOrder cmp) (insertBy cmp x l).
Proof.
  intros Hanti. induction 1 as [|y l Hs IH Hhd]; simpl.
  - repeat constructor.
  - destruct (0 <? cmp x y) eqn:Hc.
    + apply Z.ltb_lt in Hc. constructor; [done|].
      destruct l as [|z l]; simpl in *.
      * constructor. by apply Hanti.
      * destruct (0 <? cmp x z); constructor.
        -- by inversion Hhd.
        -- by apply Hanti.
    + apply Z.ltb_ge in Hc. constructor; [by constructor|]. by constructor.
Qed.

Lemma sort_Sorted (l : list A) :
  (forall a b, 0 < cmp a b -> cmp b a <= 0) ->
  Sorted (inOrder cmp) (sort cmp l).
Proof.
  intros Hanti. induction l as [|x l IH]; simpl; [constructor|].
  by apply insertBy_Sorted.
Qed.

End SortFacts.

Section TableSort.
Import JsArray.

Lemma string_ltb_irrefl (s : string) : String.ltb s s = false.
Proof.
  unfold String.ltb. pose proof (String.compare_antisym s s) as H.
  destruct (String.compare s s); simpl in H; congruence.
Qed.

Lemma string_ltb_asym (s t : string) :
  String.ltb s t = true -> String.ltb t s = false.
Proof.
  unfold String.ltb. rewrite (String.compare_antisym t s).
  destruct (String.compare s t); simpl; congruence.
Qed.

Lemma js_lt_irrefl (a : JsValue) : js_lt a a = false.
Proof.
  destruct a; simpl; [apply Z.ltb_irrefl | apply string_ltb_irrefl | done].
Qed.

Lemma js_lt_asym (a b : JsValue) : js_lt a b = true -> js_lt b a = false.
Proof.
  destruct a, b; simpl; try done.
  - intros H. apply Z.ltb_lt in H. apply Z.ltb_ge. lia.
  - apply string_ltb_asym.
Qed.

(** The comparator answers a positive number only for different keys. *)
Lemma compareValues_pos_neq (d : SortDirection) (a b : JsValue) :
  0 < compareValues d a b -> a <> b.
Proof.
  intros H ->. unfold compareValues in H. rewrite js_lt_irrefl in H. lia.
Qed.

Lemma compareValues_antisym (d : SortDirection) (a b : JsValue) :
  0 < compareValues d a b -> compareValues d b a <= 0.
Proof.
  unfold compareValues.
  destruct (js_lt a b) eqn:Hab, (js_lt b a) eqn:Hba, d; try lia;
    apply js_lt_asym in Hab; congruence.
Qed.

(** Sorting by a key with [compareValues] keeps the rows of each key in
    their order, whatever the direction. *)
Lemma sort_by_key_stable {A} (key : A -> JsValue) (d : SortDirection)
    (k : JsValue) (l : list A) :
  rowsWithKey key k (sort (fun a b => compareValues d (key a) (key b)) l)
  = rowsWithKey key k l.
Proof.
  unfold rowsWithKey. apply filter_sort.
  intros a b Hpos Ha Hb.
  apply bool_decide_eq_true in Ha, Hb.
  apply compareValues_pos_neq in Hpos. congruence.
Qed.

Lemma sort_by_key_Sorted {A} (key : A -> JsValue) (d : SortDirection) (l : list A) :
  Sorted (inOrder (fun a b => compareValues d (key a) (key b)))
    (sort (fun a b => compareValues d (key a) (key b)) l).
Proof. apply sort_Sorted. intros a b. apply compareValues_antisym. Qed.

Lemma Sorted_weaken {A} (R R' : A -> A -> Prop) (l : list A) :
  (forall a b, R a b -> R' a b) -> Sorted R l -> Sorted R' l.
Proof.
  intros HR. induction 1 as [|a l Hs IH Hhd]; constructor; [done|].
  destruct Hhd; constructor; auto.
Qed.

(** A second click on the header of the sorted column reverses the
    direction, a third restores it; a click on another column sorts by it,
    ascending. *)
Lemma handleSort_toggle (field other : string) (d : SortDirection) :
  StudentTable.handleSort field (field, asc) = (field, desc)
  /\ StudentTable.handleSort field (field, desc) = (field, asc)
  /\ (field <> other -> StudentTable.handleSort field (other, d) = (field, asc)).
Proof.
  unfold StudentTable.handleSort. rewrite String.eqb_refl. split_and!; try done.
  intros Hne. destruct (String.eqb_spec other field); congruence.
Qed.

(** C3, at the failing input.  Sorted by Last Login, a row whose
    [lastLogin.raw] is no date has [NaN] for key and compares equal to every
    row, in either direction, while the other rows compare as their dates do:
    on the sample rows the row of day 9 ties with the unreadable row, the
    unreadable row ties with the row of day 5, and yet the row of day 9 comes
    after the row of day 5.  The comparator is then not consistent, which
    ECMAScript requires for the sorted order (stable or not) to be defined at
    all.  The exam table guards the same computation with [isNaN]. *)
Theorem lastLogin_comparator_inconsistent :
  let cmp := StudentTable.compareStudents "lastLogin" asc in
  StudentTable.noNaN "lastLogin" MoreSamples.loginRows = false
  /\ In (MoreSamples.loggedIn 3 9) MoreSamples.loginRows
  /\ In MoreSamples.unreadable MoreSamples.loginRows
  /\ In (MoreSamples.loggedIn 5 5) MoreSamples.loginRows
  /\ cmp (MoreSamples.loggedIn 3 9) MoreSamples.unreadable = 0
  /\ cmp MoreSamples.unreadable (MoreSamples.loggedIn 5 5) = 0
  /\ cmp (MoreSamples.loggedIn 3 9) (MoreSamples.loggedIn 5 5) = 1
  /\ forall d a,
       StudentTable.compareStudents "lastLogin" d MoreSamples.unreadable a = 0
       /\ StudentTable.compareStudents "lastLogin" d a MoreSamples.unreadable = 0.
Proof.
  split_and!; try reflexivity.
  - simpl. tauto.
  - simpl. tauto.
  - simpl. tauto.
  - intros d a. unfold StudentTable.compareStudents, compareValues.
    change (StudentTable.sortValue "lastLogin" MoreSamples.unreadable) with JNaN.
    simpl. by destruct (StudentTable.sortValue "lastLogin" a).
Qed.

End TableSort.

(** ** The filtered student list *)

Section Filtering.
Import Model Dashboard.

Lemma filter_sublist {A} (f : A -> bool) (l : list A) :
  List.filter f l `sublist_of` l.
Proof.
  induction l as [|x l IH]; simpl; [constructor|].
  destruct (f x); by constructor.
Qed.

Lemma filter_all {A} (f : A -> bool) (l : list A) :
  (forall x, f x = true) -> List.filter f l = l.
Proof.
  intros Hf. induction l as [|x l IH]; simpl; [done|]. by rewrite Hf, IH.
Qed.

(** C8. The filtered student list is a subsequence of the student list for
    every search term, status filter and department filter, so X <= Y in
    "Showing X of Y students"; with an empty search term, the status filter
    'all' and no department selected it is the student list itself.  The same
    holds for the single-department revision of the dashboard. *)
Theorem filteredStudents_subsequence :
  (forall s : State,
      filteredStudents s `sublist_of` students s
      /\ (fst (showingCounts s) <= snd (showingCounts s))%nat)
  /\ (forall s : State,
        filteredStudents
          (setSearchTerm "" (setStatusFilter "all" (setStudentDeptFilter [] s)))
        = students s)
  /\ (forall searchTerm statusFilter students,
        DashboardSingle.filteredStudents searchTerm statusFilter students
          `sublist_of` students)
  /\ (forall students, DashboardSingle.filteredStudents "" "all" students = students).
Proof.
  split; [|split; [|split]].
  - intros s. split; [apply filter_sublist|].
    unfold showingCounts. simpl. apply sublist_length, filter_sublist.
  - intros s. unfold filteredStudents. simpl. by apply filter_all.
  - intros. apply filter_sublist.
  - intros. unfold DashboardSingle.filteredStudents. by apply filter_all.
Qed.

End Filtering.

(** ** Extra departments *)

Section Departments.
Import Model Dashboard.

Lemma hexRun_spec (n : nat) (s rest : string) :
  hexRun n s = Some rest <-> exists a, s = a ++ rest /\ hexString n a.
Proof.
  revert s. induction n as [|n IH]; intros s; simpl.
  - split.
    + intros [= ->]. exists "". by repeat split.
    + intros (a & -> & Hlen & _). destruct a; [done|discriminate].
  - destruct s as [|c s].
    + split; [discriminate|].
      intros ([|? ?] & H & Hlen & _); [discriminate Hlen | discriminate H].
    + destruct (isHexDigit c) eqn:Hc.
      * rewrite IH. split.
        -- intros (a & -> & Hlen & Hall). exists (String c a).
           repeat split; simpl; [by rewrite Hlen | by rewrite Hc].
        -- intros ([|d a] & H & Hlen & Hall); [discriminate Hlen|].
           rewrite append_cons in H. injection H as -> ->.
           simpl in Hlen, Hall. apply andb_true_iff in Hall as [_ Hall].
           exists a. repeat split; [lia | done].
      * split; [discriminate|].
        intros ([|d a] & H & Hlen & Hall); [discriminate Hlen|].
        rewrite append_cons in H. injection H as -> ->.
        simpl in Hall. rewrite Hc in Hall. discriminate.
Qed.

Lemma dash_spec (s rest : string) :
  dash s = Some rest <-> s = String "-" rest.
Proof.
  destruct s as [|c s]; simpl; [done|].
  destruct (Ascii.eqb_spec c "-") as [->|Hne]; split; congruence.
Qed.

Lemma andThen_Some (o : option string) (piece : string -> option string)
    (rest : string) :
  andThen o piece = Some rest <-> exists mid, o = Some mid /\ piece mid = Some rest.
Proof.
  destruct o as [mid|]; simpl; split; eauto.
  - intros (? & [= <-] & ?). done.
  - discriminate.
  - intros (? & ? & ?). done.
Qed.

Lemma append_assoc (a b c : string) : (a ++ b) ++ c = a ++ b ++ c.
Proof. induction a as [|x a IH]; [done|]. rewrite !append_cons. by f_equal. Qed.

Lemma hexRun_app (n : nat) (a rest : string) :
  hexString n a -> hexRun n (a ++ rest) = Some rest.
Proof. intros Ha. apply hexRun_spec. eauto. Qed.

Lemma dash_app (rest : string) : dash ("-" ++ rest) = Some rest.
Proof. reflexivity. Qed.

Lemma append_empty_r (a : string) : a ++ "" = a.
Proof. induction a as [|x a IH]; [done|]. rewrite append_cons. by f_equal. Qed.

(** The regular expression accepts the GUIDs and nothing else. *)
Lemma guidPattern_test_spec (id : string) :
  guidPattern_test id = true <-> isGuid id.
Proof.
  unfold guidPattern_test, isGuid. split.
  - destruct (andThen _ _) as [rest|] eqn:H; [|discriminate].
    intros Hend. destruct rest; [|discriminate]. clear Hend.
    repeat (apply andThen_Some in H as (? & H & ?)).
    repeat match goal with
           | H : hexRun _ _ = Some _ |- _ => apply hexRun_spec in H as (? & -> & ?)
           | H : dash _ = Some _ |- _ => apply dash_spec in H as ->
           end.
    rewrite append_empty_r. do 5 eexists. split; [reflexivity|].
    repeat (split; [assumption|]). assumption.
  - intros (a & b & c & d & e & -> & Ha & Hb & Hc & Hd & He).
    rewrite (hexRun_app 8 a) by done. cbn [andThen]. rewrite dash_app. cbn [andThen].
    rewrite (hexRun_app 4 b) by done. cbn [andThen]. rewrite dash_app. cbn [andThen].
    rewrite (hexRun_app 4 c) by done. cbn [andThen]. rewrite dash_app. cbn [andThen].
    rewrite (hexRun_app 4 d) by done. cbn [andThen]. rewrite dash_app. cbn [andThen].
    rewrite <- (append_empty_r e). by rewrite (hexRun_app 12 e) by done.
Qed.

Lemma existsb_false_iff {A} (f : A -> bool) (l : list A) :
  existsb f l = false <-> forall x, In x l -> f x = false.
Proof.
  induction l as [|y l IH]; simpl.
  - split; [intros _ x [] | done].
  - rewrite orb_false_iff, IH. split.
    + intros [Hy Hl] x [<-|Hx]; auto.
    + intros H. split; [apply H; by left | intros x Hx; apply H; by right].
Qed.

(** The guard of [handleAddDepartment], in words. *)
Lemma canAddDepartment_spec (departmentId : option string) (s : State) :
  let id := Js.trim (deptInputValue s) in
  canAddDepartment departmentId s = true <->
  isGuid id
  /\ (forall p, departmentId = Some p -> Js.toLowerCase id <> Js.toLowerCase p)
  /\ (forall d, In d (extraDepartments s) -> Js.toLowerCase d <> Js.toLowerCase id)
  /\ (length (extraDepartments s) < 10)%nat.
Proof.
  intros id. unfold canAddDepartment. fold id.
  rewrite !andb_true_iff, !negb_true_iff, guidPattern_test_spec, Z.ltb_lt.
  unfold alreadyAdded. rewrite existsb_false_iff.
  split.
  - intros [[[Hg Hp] Ha] Hn]. repeat split; [done| | |lia].
    + intros p ->. simpl in Hp. by apply String.eqb_neq.
    + intros d Hd. apply String.eqb_neq. by apply Ha.
  - intros (Hg & Hp & Ha & Hn). repeat split; [done| | |lia].
    + destruct departmentId as [p|]; simpl; [|done].
      apply String.eqb_neq. by apply Hp.
    + intros d Hd. apply String.eqb_neq. by apply Ha.
Qed.

(** The handler appends the trimmed input when the guard holds and otherwise
    only sets one of its four messages. *)
Lemma handleAddDepartment_cases (departmentId : option string) (s : State) :
  let id := Js.trim (deptInputValue s) in
  if canAddDepartment departmentId s then
    handleAddDepartment departmentId s
    = setExtraDepartments (extraDepartments s ++ [id])
        (setDeptInputValue "" (setDeptError "" s))
  else
    exists msg, In msg addDepartmentErrors
                /\ handleAddDepartment departmentId s = setDeptError msg s.
Proof.
  intros id. unfold canAddDepartment, handleAddDepartment. fold id.
  destruct (guidPattern_test id); simpl.
  2: { eexists. split; [|reflexivity]. simpl. tauto. }
  destruct (isPrimary departmentId id); simpl.
  { eexists. split; [|reflexivity]. simpl. tauto. }
  destruct (alreadyAdded (extraDepartments s) id); simpl.
  { eexists. split; [|reflexivity]. simpl. tauto. }
  destruct (Z.ltb_spec (Z.of_nat (length (extraDepartments s))) 10) as [Hlt|Hge].
  - destruct (Z.leb_spec 10 (Z.of_nat (length (extraDepartments s)))); [lia|done].
  - destruct (Z.leb_spec 10 (Z.of_nat (length (extraDepartments s)))); [|lia].
    eexists. split; [|reflexivity]. simpl. tauto.
Qed.

Lemma handleAddDepartment_invariant (departmentId : option string) (s : State) :
  deptInvariant (extraDepartments s) ->
  deptInvariant (extraDepartments (handleAddDepartment departmentId s)).
Proof.
  intros [Hlen Hnd].
  pose proof (handleAddDepartment_cases departmentId s) as Hc. cbv zeta in Hc.
  destruct (canAddDepartment departmentId s) eqn:Hcan.
  - rewrite Hc. simpl.
    apply canAddDepartment_spec in Hcan as (_ & _ & Hfresh & Hlt).
    split.
    + rewrite length_app. simpl. lia.
    + rewrite map_app. simpl. apply NoDup_app. repeat split; [done| |].
      * intros x Hx Hx'. apply list_elem_of_In in Hx.
        apply in_map_iff in Hx as (d & <- & Hd).
        apply list_elem_of_singleton in Hx'. by apply (Hfresh d).
      * apply NoDup_singleton.
  - destruct Hc as (msg & _ & ->). by split.
Qed.

Lemma handleRemoveDepartment_invariant (id : string) (s : State) :
  deptInvariant (extraDepartments s) ->
  deptInvariant (extraDepartments (handleRemoveDepartment id s)).
Proof.
  intros [Hlen Hnd]. simpl. split.
  - pose proof (sublist_length _ _
      (filter_sublist (fun d => negb (String.eqb d id)) (extraDepartments s))). lia.
  - revert Hnd. generalize (extraDepartments s). clear.
    induction l as [|d l IH]; simpl; [done|].
    rewrite NoDup_cons. intros [Hd Hl].
    destruct (negb (String.eqb d id)); simpl; [|by apply IH].
    apply NoDup_cons. split; [|by apply IH].
    intros Hin. apply Hd. apply list_elem_of_In in Hin. apply list_elem_of_In.
    apply in_map_iff in Hin as (x & Hx & Hxin). apply in_map_iff.
    exists x. split; [done|]. apply filter_In in Hxin. tauto.
Qed.

Lemma deptRun_invariant (departmentId : option string) (actions : list DeptAction)
    (s : State) :
  deptInvariant (extraDepartments s) ->
  deptInvariant (extraDepartments (deptRun departmentId actions s)).
Proof.
  revert s. unfold deptRun.
  induction actions as [|a actions IH]; intros s Hinv; simpl; [done|].
  apply IH. destruct a as [input|id]; simpl.
  - by apply handleAddDepartment_invariant.
  - by apply handleRemoveDepartment_invariant.
Qed.

(** C10. Adding an extra department appends the (trimmed) id exactly when it
    is a well-formed GUID, differs up to letter case from the primary
    department's id and from every id already added, and fewer than 10 extra
    departments exist; in every other case the list is left as it was and one
    of the four inline error messages is set.  Hence, starting from no extra
    department, no sequence of additions and removals yields more than 10
    entries or two entries equal up to letter case. *)
Theorem handleAddDepartment_guarded :
  (forall departmentId s,
      let id := Js.trim (deptInputValue s) in
      let s' := handleAddDepartment departmentId s in
      (canAddDepartment departmentId s = true <->
       isGuid id
       /\ (forall p, departmentId = Some p -> Js.toLowerCase id <> Js.toLowerCase p)
       /\ (forall d, In d (extraDepartments s) ->
                     Js.toLowerCase d <> Js.toLowerCase id)
       /\ (length (extraDepartments s) < 10)%nat)
      /\ (if canAddDepartment departmentId s then
            extraDepartments s' = (extraDepartments s ++ [id])%list
            /\ deptError s' = ""
          else
            extraDepartments s' = extraDepartments s
            /\ In (deptError s') addDepartmentErrors
            /\ deptError s' <> ""))
  /\ (forall departmentId actions s,
        let final := deptRun departmentId actions (setExtraDepartments [] s) in
        (length (extraDepartments final) <= 10)%nat
        /\ NoDup (map Js.toLowerCase (extraDepartments final))).
Proof.
  split.
  - intros departmentId s id s'. split; [apply canAddDepartment_spec|].
    pose proof (handleAddDepartment_cases departmentId s) as Hc. cbv zeta in Hc.
    subst s'. destruct (canAddDepartment departmentId s).
    + by rewrite Hc.
    + destruct Hc as (msg & Hmsg & ->). simpl. repeat split; [done|].
      simpl in Hmsg. intros ->. repeat destruct Hmsg as [Hmsg|Hmsg]; done.
  - intros departmentId actions s final. apply deptRun_invariant.
    unfold deptInvariant. simpl. split; [lia | constructor].
Qed.

Example add_department_sample :
  let s := Samples.emptyState in
  extraDepartments
    (deptRun (Some "AAAAAAAA-0000-0000-0000-000000000001")
       [AddDepartment "  a1b2c3d4-e5f6-7890-abcd-ef1234567890 ";
        AddDepartment "A1B2C3D4-E5F6-7890-ABCD-EF1234567890";
        AddDepartment "aaaaaaaa-0000-0000-0000-000000000001";
        AddDepartment "not-a-guid";
        AddDepartment "a1b2c3d4-e5f6-7890-abcd-ef123456789g";
        AddDepartment "00000000-0000-0000-0000-000000000002"] s)
  = ["a1b2c3d4-e5f6-7890-abcd-ef1234567890";
     "00000000-0000-0000-0000-000000000002"].
Proof. vm_compute. reflexivity. Qed.

End Departments.

(** ** Exam KPIs *)

Section ExamKpis.
Import Model Dashboard Http.

Variable now : Z.
Variable dateOf : string -> option Z.

Section Binary64Facts.
Import Binary64.
Local Open Scope Q_scope.

Lemma pow2_pos (k : Z) : 0 < pow2 k.
Proof. apply Qpower_0_lt. reflexivity. Qed.

Lemma pow2_plus (a b : Z) : pow2 (a + b) == pow2 a * pow2 b.
Proof. apply Qpower_plus. discriminate. Qed.

Lemma pow2_Z (k : Z) : (0 <= k)%Z -> pow2 k == inject_Z (2 ^ k).
Proof. intros Hk. unfold pow2. rewrite Zpower_Qpower by assumption. reflexivity. Qed.

Lemma pow2_opp (k : Z) : pow2 (- k) == / pow2 k.
Proof. apply Qpower_opp. Qed.

(** The exponent found is not too large: [2 ^ e <= x]. *)
Lemma exponent_le (x : Q) : 0 < x -> pow2 (exponent x) <= x.
Proof.
  intros Hx. unfold exponent. destruct x as [n d]. cbn [Qnum Qden].
  set (a := Z.log2 n). set (b := Z.log2 (Zpos d)).
  destruct (Qle_bool (pow2 (a - b)) (n # d)) eqn:E.
  - by apply Qle_bool_iff.
  - clear E. unfold Qlt in Hx. simpl in Hx.
    assert (0 < n)%Z as Hn by lia.
    assert (0 <= a)%Z as Ha by apply Z.log2_nonneg.
    assert (0 <= b)%Z as Hb by apply Z.log2_nonneg.
    pose proof (Z.log2_spec n Hn) as [Hn1 _]. fold a in Hn1.
    pose proof (Z.log2_spec (Zpos d) ltac:(lia)) as [_ Hd2]. fold b in Hd2.
    replace (a - b - 1)%Z with (a + - (b + 1))%Z by lia.
    rewrite pow2_plus, pow2_opp, !pow2_Z by lia.
    assert (0 < 2 ^ (b + 1))%Z as Hp by (apply Z.pow_pos_nonneg; lia).
    assert (0 < 2 ^ a)%Z as Hpa by (apply Z.pow_pos_nonneg; lia).
    apply Qle_shift_div_r.
    + rewrite <- (Zlt_Qlt 0). exact Hp.
    + unfold Qle, Qmult, inject_Z. simpl. nia.
Qed.

Lemma roundHalfEven_near (q : Q) :
  q - (1 # 2) <= inject_Z (roundHalfEven q) <= q + (1 # 2).
Proof.
  unfold roundHalfEven.
  pose proof (Qfloor_le q) as Hlo. pose proof (Qlt_floor q) as Hhi.
  rewrite inject_Z_plus in Hhi. change (inject_Z 1) with 1 in Hhi.
  destruct (Qcompare_spec (q - inject_Z (Qfloor q)) (1 # 2)) as [H|H|H].
  - destruct (Z.even (Qfloor q)); rewrite ?inject_Z_plus;
      change (inject_Z 1) with 1; split; lra.
  - split; lra.
  - rewrite inject_Z_plus. change (inject_Z 1) with 1. split; lra.
Qed.

Lemma roundPositive_error (x : Q) :
  0 < x -> Qabs (roundPositive x - x) <= x * ulp53.
Proof.
  intros Hx. unfold roundPositive.
  set (e := exponent x).
  pose proof (exponent_le x Hx) as He. fold e in He.
  pose proof (pow2_pos (52 - e)) as Hs. pose proof (pow2_pos (e - 52)) as Ht.
  pose proof (pow2_pos e) as Hpe.
  assert (pow2 (52 - e) * pow2 (e - 52) == 1) as Hst.
  { rewrite <- pow2_plus. replace (52 - e + (e - 52))%Z with 0%Z by lia. reflexivity. }
  assert (pow2 e * pow2 (52 - e) == inject_Z (2 ^ 52)) as H52.
  { rewrite <- pow2_plus. replace (e + (52 - e))%Z with 52%Z by lia.
    by rewrite pow2_Z by lia. }
  pose proof (roundHalfEven_near (x * pow2 (52 - e))) as [Hlo Hhi].
  set (m := inject_Z (roundHalfEven (x * pow2 (52 - e)))) in *.
  set (s := pow2 (52 - e)) in *. set (t := pow2 (e - 52)) in *.
  assert (inject_Z (2 ^ 52) <= x * s) as Hbig.
  { rewrite <- H52. apply Qmult_le_compat_r; [exact He | lra]. }
  change (inject_Z (2 ^ 52)) with (4503599627370496 # 1) in Hbig.
  unfold ulp53. change (1 # 2 ^ 53) with (1 # 9007199254740992).
  assert (x == x * s * t) as Hx' by (rewrite <- Qmult_assoc, Hst; ring).
  assert ((m - x * s) * t <= (1 # 2) * t) as H1
    by (apply Qmult_le_compat_r; lra).
  assert ((x * s - m) * t <= (1 # 2) * t) as H2
    by (apply Qmult_le_compat_r; lra).
  assert ((4503599627370496 # 1) * t <= x * s * t) as H3
    by (apply Qmult_le_compat_r; lra).
  apply Qabs_Qle_condition. split; nra.
Qed.

Lemma round64_error (x : Q) : 0 <= x -> Qabs (round64 x - x) <= x * ulp53.
Proof.
  intros Hx. unfold round64. destruct (Qcompare_spec x 0) as [H|H|H].
  - unfold ulp53. change (1 # 2 ^ 53) with (1 # 9007199254740992).
    apply Qabs_Qle_condition. split; lra.
  - lra.
  - by apply roundPositive_error.
Qed.

Lemma round64_nonneg (x : Q) : 0 <= x -> 0 <= round64 x.
Proof.
  intros Hx. pose proof (round64_error x Hx) as H.
  apply Qabs_Qle_condition in H as [H _]. unfold ulp53 in H.
  change (1 # 2 ^ 53) with (1 # 9007199254740992) in H. lra.
Qed.

(** The Number written 0.1, and two thirds of a thousand. *)
Example round64_tenth : round64 (1 # 10) == 3602879701896397 # 36028797018963968.
Proof. vm_compute. reflexivity. Qed.

(** The rounded permille is a nearest integer to the exact permille. *)
Lemma roundPermille_nearest (p c : Z) :
  (0 <= p <= c)%Z -> (0 < c < 2 ^ 32)%Z ->
  (Z.abs (2 * (roundPermille p c * c - 1000 * p)) <= c)%Z.
Proof.
  intros Hp Hc. unfold roundPermille, mathRound, mul64, div64.
  set (P := inject_Z p). set (C := inject_Z c).
  assert (0 <= P) as HP by (unfold P; rewrite <- (Zle_Qle 0); lia).
  assert (0 < C) as HC by (unfold C; rewrite <- (Zlt_Qlt 0); lia).
  assert (P <= C) as HPC by (unfold P, C; rewrite <- Zle_Qle; lia).
  assert (C <= 4294967296) as HC32
    by (unfold C; change 4294967296 with (inject_Z (2 ^ 32)); rewrite <- Zle_Qle; lia).
  set (X := P / C).
  assert (0 <= X <= 1) as HX.
  { unfold X. split.
    - apply Qle_shift_div_l; lra.
    - apply Qle_shift_div_r; lra. }
  assert (X * C == P) as HXC by (unfold X; field; lra).
  pose proof (round64_error X ltac:(lra)) as E1.
  pose proof (round64_nonneg X ltac:(lra)) as N1.
  set (x1 := round64 X) in *.
  assert (0 <= x1 * 1000) as N1' by lra.
  pose proof (round64_error (x1 * 1000) N1') as E2.
  set (x2 := round64 (x1 * 1000)) in *.
  pose proof (Qfloor_le (x2 + (1 # 2))) as Flo.
  pose proof (Qlt_floor (x2 + (1 # 2))) as Fhi.
  set (n := Qfloor (x2 + (1 # 2))) in *.
  rewrite inject_Z_plus in Fhi. change (inject_Z 1) with 1 in Fhi.
  unfold ulp53 in E1, E2. change (1 # 2 ^ 53) with (1 # 9007199254740992) in E1, E2.
  apply Qabs_Qle_condition in E1 as [E1a E1b].
  apply Qabs_Qle_condition in E2 as [E2a E2b].
  set (N := inject_Z n) in *.
  (* |x2 - 1000 X| <= 1000 X (2u + u^2) <= 3000 u *)
  assert (x2 - 1000 * X <= (3000 # 9007199254740992)) as U by nra.
  assert (- (3000 # 9007199254740992) <= x2 - 1000 * X) as L by nra.
  assert (2 * C * N - 2000 * P - C < 1) as H1.
  { assert (2 * C * N <= 2 * C * (x2 + (1 # 2))) by nra.
    assert (2 * C * (x2 - 1000 * X) <= 2 * C * (3000 # 9007199254740992)) by nra.
    nra. }
  assert (-1 < 2 * C * N + 2 * C - 2000 * P - C) as H2.
  { assert (2 * C * (x2 + (1 # 2)) <= 2 * C * (N + 1)) by nra.
    assert (2 * C * - (3000 # 9007199254740992) <= 2 * C * (x2 - 1000 * X)) by nra.
    nra. }
  assert (2 * c * n + - (2000 * p) + - c < 1)%Z as Z1.
  { rewrite Zlt_Qlt, !inject_Z_plus, !inject_Z_opp, !inject_Z_mult.
    fold P C N. change (inject_Z 2) with 2. change (inject_Z 2000) with 2000.
    change (inject_Z 1) with 1. lra. }
  assert (-1 < 2 * c * n + 2 * c + - (2000 * p) + - c)%Z as Z2.
  { rewrite Zlt_Qlt, !inject_Z_plus, !inject_Z_opp, !inject_Z_mult.
    fold P C N. change (inject_Z 2) with 2. change (inject_Z 2000) with 2000.
    change (inject_Z (-1)) with (-1). lra. }
  lia.
Qed.

(** 201 passed of 400: the product is a hair under 502.5. *)
Example roundPermille_samples :
  roundPermille 201 400 = 502%Z /\ roundPermille 1 3 = 333%Z
  /\ roundPermille 2 3 = 667%Z /\ roundPermille 1 8 = 125%Z
  /\ roundPermille 0 5 = 0%Z /\ roundPermille 5 5 = 1000%Z.
Proof. vm_compute. repeat split; reflexivity. Qed.

End Binary64Facts.

Lemma passRateOf_rounded (p c : Z) :
  0 <= p <= c -> 0 < c < 2 ^ 32 ->
  roundedToOneDecimal (passRateOf p c) (exactPercent p c).
Proof.
  intros Hp Hc. unfold passRateOf, roundedToOneDecimal, exactPercent.
  destruct (Z.ltb_spec 0 c) as [_|?]; [|lia].
  exists (roundPermille p c). split; [done|].
  pose proof (roundPermille_nearest p c Hp Hc) as Hr.
  unfold Qminus, Qplus, Qopp, Qabs, Qle. cbn [Qnum Qden].
  rewrite !Pos2Z.inj_mul, Z2Pos.id by lia. lia.
Qed.

(** The [forEach] counts the upcoming rows, and among them those at risk. *)
Lemma countUpcoming_filter (students : list ExamStudent) :
  countUpcoming now dateOf students =
  (Z.of_nat (length (List.filter (isUpcoming now dateOf) students)),
   Z.of_nat (length (List.filter
                       (fun s => isUpcoming now dateOf s && isAtRisk s) students))).
Proof.
  unfold countUpcoming.
  enough (forall u r,
    fold_left
      (fun '(upcoming, atRisk) s =>
         if isUpcoming now dateOf s then
           (upcoming + 1, if isAtRisk s then atRisk + 1 else atRisk)
         else (upcoming, atRisk)) students (u, r) =
    (u + Z.of_nat (length (List.filter (isUpcoming now dateOf) students)),
     r + Z.of_nat (length (List.filter
                             (fun s => isUpcoming now dateOf s && isAtRisk s)
                             students)))) as H by (rewrite H; f_equal; lia).
  induction students as [|s l IH]; intros u r; simpl.
  - f_equal; lia.
  - destruct (isUpcoming now dateOf s), (isAtRisk s); simpl; rewrite IH; f_equal; lia.
Qed.

(** A string that reads PASS or FAIL in upper case does not trim to the
    empty string. *)
Lemma trim_nonempty (c : ascii) (x : string) :
  Js.is_space c = false -> Js.trim (String c x) <> "".
Proof.
  intros Hc. unfold Js.trim. simpl. rewrite Hc. simpl.
  destruct (Js.trimEnd x); [by rewrite Hc | done].
Qed.

Lemma marked_not_blank (mark : string) (s : ExamStudent) :
  mark = "PASS" \/ mark = "FAIL" ->
  hasMark mark s = true ->
  String.eqb (Js.trim (Js.orEmpty (passFail s))) "" = false.
Proof.
  unfold hasMark. intros Hmark H. apply String.eqb_eq in H. apply String.eqb_neq.
  destruct (Js.orEmpty (passFail s)) as [|c x]; [destruct Hmark; subst; discriminate|].
  apply trim_nonempty.
  destruct (Js.is_space c) eqn:Hsp; [|done]. exfalso.
  unfold Js.toUpperCase in H. simpl in H.
  assert (Js.upper_char c = "P"%char \/ Js.upper_char c = "F"%char) as Hup
    by (destruct Hmark; subst; injection H; auto).
  revert Hsp Hup. clear.
  destruct c as [[] [] [] [] [] [] [] []]; vm_compute; intros ? [?|?]; congruence.
Qed.

Lemma upcoming_unmarked (mark : string) (s : ExamStudent) :
  mark = "PASS" \/ mark = "FAIL" ->
  isUpcoming now dateOf s = true -> hasMark mark s = false.
Proof.
  intros Hmark Hup. destruct (hasMark mark s) eqn:Hm; [|done].
  apply (marked_not_blank mark s Hmark) in Hm.
  unfold isUpcoming in Hup. rewrite Hm in Hup. simpl in Hup.
  by rewrite andb_false_r in Hup.
Qed.

Lemma pass_not_fail (s : ExamStudent) :
  hasMark "PASS" s = true -> hasMark "FAIL" s = false.
Proof.
  unfold hasMark. intros H. apply String.eqb_eq in H. by rewrite H.
Qed.

Lemma disjoint_counts {A} (f g h : A -> bool) (l : list A) :
  (forall x, f x = true -> g x = false) ->
  (forall x, h x = true -> f x = false) ->
  (forall x, h x = true -> g x = false) ->
  (length (List.filter f l) + length (List.filter g l) + length (List.filter h l)
   <= length l)%nat.
Proof.
  intros Hfg Hhf Hhg. induction l as [|x l IH]; simpl; [lia|].
  destruct (f x) eqn:Hf, (g x) eqn:Hg, (h x) eqn:Hh; simpl; try lia.
  - apply Hfg in Hf. congruence.
  - apply Hfg in Hf. congruence.
  - apply Hhf in Hh. congruence.
  - apply Hhg in Hh. congruence.
Qed.

Lemma filter_and_length {A} (f g : A -> bool) (l : list A) :
  (length (List.filter (fun x => f x && g x) l) <= length (List.filter f l))%nat.
Proof.
  induction l as [|x l IH]; simpl; [lia|].
  destruct (f x), (g x); simpl; lia.
Qed.

Lemma recalcExamSummary_consistent (students : list ExamStudent)
    (prev : option ExamSummary) :
  Z.of_nat (length students) < 2 ^ 32 ->
  kpiConsistent (length students) (recalcExamSummary now dateOf students prev).
Proof.
  intros Hlen.
  unfold recalcExamSummary. rewrite countUpcoming_filter.
  pose proof (disjoint_counts (hasMark "PASS") (hasMark "FAIL")
                (isUpcoming now dateOf) students pass_not_fail
                (fun s => upcoming_unmarked "PASS" s (or_introl eq_refl))
                (fun s => upcoming_unmarked "FAIL" s (or_intror eq_refl))) as Hsum.
  pose proof (filter_and_length (isUpcoming now dateOf) isAtRisk students) as Hrisk.
  unfold kpiConsistent. cbn [total passed failed upcoming atRisk passRate noResult].
  repeat split; try lia.
  destruct (Z.ltb_spec 0
              (Z.of_nat (length (List.filter (hasMark "PASS") students))
               + Z.of_nat (length (List.filter (hasMark "FAIL") students)))) as [Hpos|Hz].
  - apply passRateOf_rounded; lia.
  - unfold passRateOf. destruct (Z.ltb_spec 0
      (Z.of_nat (length (List.filter (hasMark "PASS") students))
       + Z.of_nat (length (List.filter (hasMark "FAIL") students)))); [lia|done].
Qed.

End ExamKpis.

(** C9. The KPI summary recomputed after an exam-result or an exam-date edit
    is consistent with the list of exam students it is computed from:
    passed + failed + upcoming + noResult = total = the number of rows, no
    count is negative, atRisk <= upcoming, and passRate is the percentage
    passed / (passed + failed) rounded to one decimal place when
    passed + failed > 0 and is 0 otherwise.  The rate is computed in binary64
    as the code computes it, and is a nearest tenth for every list an array
    can hold (fewer than [2 ^ 32] rows); at an exact tie, 50.25 for one, the
    tenth below may be the one given.  After an edit the rows of the state are
    those the summary was computed from. *)
Theorem exam_kpis_after_edit :
  (forall now dateOf students prev,
      Z.of_nat (length students) < 2 ^ 32 ->
      Dashboard.kpiConsistent (length students)
        (Dashboard.recalcExamSummary now dateOf students prev))
  /\ (forall now dateOf email result status saved captured s,
        Z.of_nat (length captured) < 2 ^ 32 ->
        let s' := Dashboard.handleUpdateResult now dateOf email result
                    (Http.Response status (Some (Dashboard.mkUpdateBody true saved)))
                    captured s in
        exists k, Dashboard.examSummary s' = Some k
                  /\ Dashboard.kpiConsistent (length (Dashboard.examStudents s')) k)
  /\ (forall now dateOf formatDate email newDate newTime status saved captured s,
        Z.of_nat (length captured) < 2 ^ 32 ->
        let s' := Dashboard.handleUpdateExamDate now dateOf formatDate email
                    newDate newTime
                    (Http.Response status (Some (Dashboard.mkUpdateBody true saved)))
                    captured s in
        exists k, Dashboard.examSummary s' = Some k
                  /\ Dashboard.kpiConsistent (length (Dashboard.examStudents s')) k).
Proof.
  split; [|split].
  - intros. by apply recalcExamSummary_consistent.
  - intros. subst s'. simpl. eexists. split; [reflexivity|].
    apply recalcExamSummary_consistent. by rewrite length_map.
  - intros. subst s'. simpl. eexists. split; [reflexivity|].
    apply recalcExamSummary_consistent. by rewrite length_map.
Qed.

Lemma exam_kpis_after_edit_witness :
  Dashboard.kpiConsistent (length Samples.examRows)
    (Dashboard.recalcExamSummary 10 Samples.sampleDateOf Samples.examRows None).
Proof.
  apply (proj1 exam_kpis_after_edit 10 Samples.sampleDateOf Samples.examRows None).
  vm_compute. reflexivity.
Defined.

(** ** Fetch failures *)

Section FetchFailures.
Import Model Dashboard Http.

Ltac by_cases :=
  cbv zeta; simpl;
  repeat match goal with
         | |- context [orb ?b true] => rewrite (orb_true_r b)
         end;
  simpl; repeat split; reflexivity.

(** [fetchDashboardData]: a 401 among two responses logs out; any other
    failure sets the banner; the loaded data stay in both cases. *)
Lemma fetchDashboardData_failure (now : Z)
    (summaryRes : Fetch SummaryBody) (studentsRes : Fetch StudentsBody) (s : State) :
  let s' := fetchDashboardData now summaryRes studentsRes s in
  if responded summaryRes && responded studentsRes
     && (status401 summaryRes || status401 studentsRes)
  then onLogoutCalled s' = true /\ error s' = None /\ dataKept s s'
       /\ loading s' = false
  else if requestFailed summaryRes || requestFailed studentsRes
  then onLogoutCalled s' = onLogoutCalled s
       /\ error s' = Some "Failed to load dashboard data. Please try again."
       /\ dataKept s s' /\ loading s' = false
  else onLogoutCalled s' = onLogoutCalled s /\ error s' = None.
Proof.
  unfold dataKept.
  destruct summaryRes as [|st1 b1], studentsRes as [|st2 b2]; try by_cases.
  unfold fetchDashboardData, responded, status401, requestFailed.
  destruct (Z.eqb_spec st1 401) as [->|H1], (Z.eqb_spec st2 401) as [->|H2];
    try by_cases.
  destruct (ok st1), (ok st2); try by_cases.
  destruct b1 as [b1|], b2 as [b2|]; try by_cases.
  destruct (summarySuccess b1), (studentsSuccess b2); by_cases.
Qed.

(** The handlers that issue one request. *)
Lemma fetchExamData_failure (overrideAdminKey : string)
    (res : Fetch ExamBody) (schedulerRes : Fetch SchedulerBody) (s : State) :
  let s' := fetchExamData overrideAdminKey res schedulerRes s in
  if status401 res
  then onLogoutCalled s' = true /\ error s' = error s /\ dataKept s s'
       /\ examLoading s' = false
  else if requestFailed res
  then onLogoutCalled s' = onLogoutCalled s
       /\ error s' = Some "Failed to load exam data. Please try again."
       /\ dataKept s s' /\ examLoading s' = false
  else onLogoutCalled s' = onLogoutCalled s /\ error s' = error s.
Proof.
  unfold dataKept. destruct res as [|st b]; try by_cases.
  unfold fetchExamData, status401, requestFailed.
  destruct (Z.eqb_spec st 401) as [->|H1]; try by_cases.
  destruct (ok st); try by_cases.
  destruct b as [b|]; try by_cases.
  destruct (examSuccess b); try by_cases.
  destruct (Js.truthy _); try by_cases.
  destruct schedulerRes as [|? [d|]]; try by_cases.
  destruct (ok _ && schedulerSuccess d); by_cases.
Qed.

Lemma fetchMultiDeptStudents_failure (now : Z) (res : Fetch MultiBody) (s : State) :
  let s' := fetchMultiDeptStudents now res s in
  if status401 res
  then onLogoutCalled s' = true /\ error s' = None /\ dataKept s s'
       /\ loading s' = false
  else if requestFailed res
  then onLogoutCalled s' = onLogoutCalled s
       /\ error s' = Some "Failed to load multi-department data. Please try again."
       /\ dataKept s s' /\ loading s' = false
  else onLogoutCalled s' = onLogoutCalled s /\ error s' = None.
Proof.
  unfold dataKept. destruct res as [|st b]; try by_cases.
  unfold fetchMultiDeptStudents, status401, requestFailed.
  destruct (Z.eqb_spec st 401) as [->|H1]; try by_cases.
  destruct (ok st); try by_cases.
  destruct b as [b|]; try by_cases.
  destruct (multiSuccess b); try by_cases.
  destruct (0 <? _); by_cases.
Qed.

(** The background load swallows every failure. *)
Lemma loadFullDataInBackground_failure (now : Z)
    (summaryRes : Fetch SummaryBody) (studentsRes : Fetch StudentsBody) (s : State) :
  requestFailed summaryRes || requestFailed studentsRes = true ->
  loadFullDataInBackground now summaryRes studentsRes s = setLoadingFull false s.
Proof.
  destruct summaryRes as [|st1 [b1|]], studentsRes as [|st2 [b2|]]; simpl;
    try reflexivity; destruct (ok st1), (ok st2); simpl; try reflexivity; discriminate.
Qed.

(** A failure of the request for the scheduler status is swallowed. *)
Lemma fetchExamData_scheduler_failure overrideAdminKey (res : Fetch ExamBody)
    (schedulerRes : Fetch SchedulerBody) (s : State) :
  requestFailed schedulerRes = true ->
  let s' := fetchExamData overrideAdminKey res schedulerRes s in
  s' = fetchExamData overrideAdminKey res NetworkError s
  /\ (requestFailed res = false ->
      onLogoutCalled s' = onLogoutCalled s /\ error s' = error s
      /\ schedulerInfo s' = schedulerInfo s).
Proof.
  intros Hf s'. subst s'.
  assert (forall s2 : State,
            match schedulerRes with
            | Response schedStatus (Some d) =>
                if ok schedStatus && schedulerSuccess d
                then setSchedulerInfo (Some (schedulerOf d)) s2 else s2
            | _ => s2
            end = s2) as Hsame.
  { intros s2. destruct schedulerRes as [|schedStatus [d|]]; simpl in Hf; try done.
    rewrite orb_false_r in Hf. apply negb_true_iff in Hf. by rewrite Hf. }
  unfold fetchExamData. destruct res as [|status [data|]]; simpl.
  - by split.
  - rewrite !Hsame. split; [done|]. rewrite orb_false_r. intros Hres.
    rewrite Hres. destruct (examSuccess data); simpl; [|done].
    by destruct (Js.truthy _).
  - split; [done|]. by rewrite orb_true_r.
Qed.

End FetchFailures.

Section FetchClaims.
Import Model Dashboard Http.

(** C5, as amended.  A failure of a data request of [fetchDashboardData], of
    [fetchExamData] (its request for the exam students) or of
    [fetchMultiDeptStudents] is handled in exactly one of two ways.  When
    every data request of the handler got a response and one of the responses
    has status 401, the client calls [onLogout], which brings back the login
    view, sets no banner and keeps the data.  For every other failure of a
    data request (a rejected request, even beside a 401 response; a status
    outside 200..299 with no 401; an unreadable body) the client stays logged
    in, keeps the data loaded before and sets the inline error banner.  Two
    requests are handled in neither way.  A failure of the follow-up request
    of [fetchExamData] for the scheduler status, a 401 included, is swallowed:
    the handler ends as if that request had been rejected, with no logout, no
    banner and the scheduler info as it was.  And the background load of the
    full data answers every failure, a 401 included, by only clearing its
    loading flag. *)
Theorem fetch_failures_handled :
  (forall now summaryRes studentsRes s,
      let s' := fetchDashboardData now summaryRes studentsRes s in
      if responded summaryRes && responded studentsRes
         && (status401 summaryRes || status401 studentsRes)
      then onLogoutCalled s' = true /\ error s' = None /\ dataKept s s'
           /\ loading s' = false
      else if requestFailed summaryRes || requestFailed studentsRes
      then onLogoutCalled s' = onLogoutCalled s
           /\ error s' = Some "Failed to load dashboard data. Please try again."
           /\ dataKept s s' /\ loading s' = false
      else onLogoutCalled s' = onLogoutCalled s /\ error s' = None)
  /\ (forall overrideAdminKey res schedulerRes s,
        let s' := fetchExamData overrideAdminKey res schedulerRes s in
        if status401 res
        then onLogoutCalled s' = true /\ error s' = error s /\ dataKept s s'
             /\ examLoading s' = false
        else if requestFailed res
        then onLogoutCalled s' = onLogoutCalled s
             /\ error s' = Some "Failed to load exam data. Please try again."
             /\ dataKept s s' /\ examLoading s' = false
        else onLogoutCalled s' = onLogoutCalled s /\ error s' = error s)
  /\ (forall now res s,
        let s' := fetchMultiDeptStudents now res s in
        if status401 res
        then onLogoutCalled s' = true /\ error s' = None /\ dataKept s s'
             /\ loading s' = false
        else if requestFailed res
        then onLogoutCalled s' = onLogoutCalled s
             /\ error s' = Some "Failed to load multi-department data. Please try again."
             /\ dataKept s s' /\ loading s' = false
        else onLogoutCalled s' = onLogoutCalled s /\ error s' = None)
  /\ (forall (logoutRes : Fetch unit) app,
        App.view (App.handleLogout logoutRes app) = App.LoginView)
  /\ (forall overrideAdminKey res schedulerRes s,
        requestFailed schedulerRes = true ->
        let s' := fetchExamData overrideAdminKey res schedulerRes s in
        s' = fetchExamData overrideAdminKey res NetworkError s
        /\ (requestFailed res = false ->
            onLogoutCalled s' = onLogoutCalled s /\ error s' = error s
            /\ schedulerInfo s' = schedulerInfo s))
  /\ (forall now summaryRes studentsRes s,
        if requestFailed summaryRes || requestFailed studentsRes
        then loadFullDataInBackground now summaryRes studentsRes s
             = setLoadingFull false s
        else True).
Proof.
  split; [|split; [|split; [|split; [|split]]]].
  - apply fetchDashboardData_failure.
  - apply fetchExamData_failure.
  - apply fetchMultiDeptStudents_failure.
  - reflexivity.
  - apply fetchExamData_scheduler_failure.
  - intros now summaryRes studentsRes s.
    destruct (requestFailed summaryRes || requestFailed studentsRes) eqn:E; [|done].
    by apply loadFullDataInBackground_failure.
Qed.

(** C5, as stated, fails.  With the summary request rejected and the students
    request answered 401, [Promise.all] rejects and the handler shows the
    banner without logging out; the background load answers a 401, or a 500,
    on both requests with neither a logout nor a banner; and in admin mode a
    401, or a 500, on the request for the scheduler status, after the exam
    students have arrived, brings neither a logout nor a banner. *)
Lemma fetch_failure_counterexample :
  let mixed :=
    fetchDashboardData 0 NetworkError (Response 401 None) Samples.loadedState in
  let background401 :=
    loadFullDataInBackground 0 (Response 401 None) (Response 401 None)
      Samples.loadedState in
  let background500 :=
    loadFullDataInBackground 0 (Response 500 None) (Response 500 None)
      Samples.loadedState in
  let examAnswer :=
    Response 200
      (Some (mkExamBody true [] (mkExamSummary 0 0 0 0 0 0 0 None None))) in
  let scheduler401 :=
    fetchExamData "key" examAnswer (Response 401 None) Samples.loadedState in
  let scheduler500 :=
    fetchExamData "key" examAnswer (Response 500 None) Samples.loadedState in
  (status401 (Response 401 (@None StudentsBody)) = true
   /\ onLogoutCalled mixed = false
   /\ error mixed = Some "Failed to load dashboard data. Please try again.")
  /\ (onLogoutCalled background401 = false /\ error background401 = None)
  /\ (onLogoutCalled background500 = false /\ error background500 = None)
  /\ (status401 (Response 401 (@None SchedulerBody)) = true
      /\ onLogoutCalled scheduler401 = false /\ error scheduler401 = None)
  /\ (onLogoutCalled scheduler500 = false /\ error scheduler500 = None).
Proof. vm_compute. repeat split; reflexivity. Qed.

(** C6. When the answer for several departments arrives with some of them
    marked as failed, the fetch still succeeds: the students and the summary
    of the answer are displayed as they came (none is dropped because of the
    failed departments), nobody is logged out, the error banner stays clear,
    and the inline department error names the number of failed departments
    and, for each, its error message or else its id. *)
Theorem fetchMultiDeptStudents_partial (now status : Z) (data : MultiBody) (s : State) :
  ok status = true ->
  multiSuccess data = true ->
  let s' := fetchMultiDeptStudents now (Response status (Some data)) s in
  let failed := failedDepartments (multiDepartments data) in
  students s' = multiStudents data
  /\ filteredStudents
       (setSearchTerm "" (setStatusFilter "all" (setStudentDeptFilter [] s')))
     = multiStudents data
  /\ summary s' = Some (multiSummary data)
  /\ error s' = None
  /\ onLogoutCalled s' = onLogoutCalled s
  /\ loading s' = false
  /\ (forall d, In d failed <->
                In d (default [] (multiDepartments data)) /\ deptStatus d = "error")
  /\ match failed with
     | [] => deptError s' = deptError s
     | _ :: _ =>
         deptError s' =
         "Could not load " ++ pretty (length failed) ++ " department(s): "
         ++ String.concat ", " (map errorOrId failed)
     end.
Proof.
  intros Hok Hsucc s' failed. subst s'. unfold fetchMultiDeptStudents.
  rewrite Hok, Hsucc. cbn [negb]. fold failed.
  assert (forall d, In d failed <->
            In d (default [] (multiDepartments data)) /\ deptStatus d = "error") as Hf.
  { intros d. unfold failed, failedDepartments. rewrite filter_In.
    rewrite String.eqb_eq. by destruct (multiDepartments data). }
  destruct failed as [|d failed'] eqn:E.
  - cbn [length Z.of_nat Z.ltb Z.compare]. simpl.
    split_and!; try reflexivity; try exact Hf.
    unfold filteredStudents. simpl. by apply filter_all.
  - assert ((0 <? Z.of_nat (length (d :: failed'))) = true) as ->
      by (apply Z.ltb_lt; simpl; lia).
    simpl. split_and!; try reflexivity; try exact Hf.
    unfold filteredStudents. simpl. by apply filter_all.
Qed.

Lemma fetchMultiDeptStudents_partial_witness :
  let s' := fetchMultiDeptStudents 1700000000000
              (Response 200 (Some Samples.partialAnswer)) Samples.loadedState in
  students s' = [Samples.alice; Samples.bob; Samples.carol]
  /\ error s' = None
  /\ deptError s' = "Could not load 2 department(s): Request timed out, d3".
Proof.
  pose proof (fetchMultiDeptStudents_partial 1700000000000 200 Samples.partialAnswer
                Samples.loadedState eq_refl eq_refl) as H.
  cbv zeta in H. destruct H as (H1 & _ & _ & H4 & _ & _ & _ & H8).
  cbv zeta. split; [exact H1|]. split; [exact H4|]. exact H8.
Defined.

End FetchClaims.

(** ** Export *)

Section ExportFacts.
Import Model Dashboard Http.

(** The export request names the extra departments and nothing else. *)
Lemma exportUrl_ignores_filters (s : State)
    (term status : string) (depts : list string) :
  exportUrl (setSearchTerm term (setStatusFilter status (setStudentDeptFilter depts s)))
  = exportUrl s.
Proof. reflexivity. Qed.

Lemma exportedRows_value (today : string) (backend : string -> Fetch CsvFile)
    (s : State) :
  exportedRows s (handleExport today backend s)
  = match backend (exportUrl s) with
    | Response status (Some csv) =>
        if ok status then Some (length (csvRows csv)) else None
    | _ => None
    end.
Proof.
  unfold handleExport, exportedRows.
  destruct (backend (exportUrl s)) as [|st [csv|]]; simpl;
    rewrite ?Nat.ltb_irrefl; try reflexivity;
    destruct (ok st); simpl; rewrite ?Nat.ltb_irrefl; try reflexivity.
  rewrite length_app. simpl.
  assert ((length (downloads s) <? length (downloads s) + 1)%nat = true) as ->
    by (apply Nat.ltb_lt; lia).
  by rewrite last_snoc.
Qed.

Lemma handleExport_rows_same (today : string) (backend : string -> Fetch CsvFile)
    (s : State) (term status : string) (depts : list string) :
  let filtered :=
    setSearchTerm term (setStatusFilter status (setStudentDeptFilter depts s)) in
  exportedRows filtered (handleExport today backend filtered)
  = exportedRows s (handleExport today backend s).
Proof. intros filtered. by rewrite !exportedRows_value. Qed.

(** C4, as amended.  The CSV file produced by Export is the server's answer
    to a request that names only the extra departments: for every search
    term, status filter and department filter the same file is downloaded,
    with the same number of data rows, as with no filter at all; the filtered
    student list does not enter it.  Without extra departments the request is
    the one of the single-department revision. *)
Theorem handleExport_ignores_filters :
  forall today backend (s : State) term status depts,
    let filtered :=
      setSearchTerm term (setStatusFilter status (setStudentDeptFilter depts s)) in
    downloads (handleExport today backend filtered)
    = downloads (handleExport today backend s)
    /\ error (handleExport today backend filtered)
       = error (handleExport today backend s)
    /\ exportedRows filtered (handleExport today backend filtered)
       = exportedRows s (handleExport today backend s)
    /\ exportedRows s (handleExport today backend s)
       = match backend (exportUrl s) with
         | Response status (Some csv) =>
             if ok status then Some (length (csvRows csv)) else None
         | _ => None
         end
    /\ exportUrl (setExtraDepartments [] filtered) = DashboardSingle.exportUrl.
Proof.
  intros today backend s term status depts filtered.
  split_and!;
    [| |apply handleExport_rows_same|apply exportedRows_value|reflexivity];
    subst filtered; unfold handleExport; rewrite exportUrl_ignores_filters;
    destruct (backend (exportUrl s)) as [|st [csv|]]; try reflexivity;
    destruct (ok st); reflexivity.
Qed.

(** C4, as stated, fails: with the two loaded students of the sample, one
    active and one in warning, no server whatsoever makes the exported row
    count follow the filtered list, since the status filters 'all' (two rows
    shown) and 'active' (one row shown) lead to the same request. *)
Lemma export_rows_counterexample :
  ~ exists backend : string -> Fetch CsvFile,
      (exists n, exportedRows Samples.loadedState
                   (handleExport "2026-01-09" backend Samples.loadedState) = Some n)
      /\ forall term status n,
           let s := setSearchTerm term (setStatusFilter status Samples.loadedState) in
           exportedRows s (handleExport "2026-01-09" backend s) = Some n ->
           n = length (filteredStudents s).
Proof.
  intros (backend & [n Hn] & H).
  pose proof (handleExport_rows_same "2026-01-09" backend Samples.loadedState
                "" "all" []) as Hall.
  pose proof (handleExport_rows_same "2026-01-09" backend Samples.loadedState
                "" "active" []) as Hactive.
  cbv zeta in Hall, Hactive. rewrite Hn in Hall, Hactive.
  apply (H "" "all" n) in Hall. apply (H "" "active" n) in Hactive.
  vm_compute in Hall, Hactive. congruence.
Qed.

End ExportFacts.

(** ** Status and readiness, as specified *)

Section Classifiers.
Import Backend.

Lemma Qle_bool_false (x y : Q) : Qle_bool x y = false <-> (y < x)%Q.
Proof.
  split.
  - intros H. destruct (Qlt_le_dec y x) as [Hlt|Hle]; [done|].
    apply Qle_bool_iff in Hle. congruence.
  - intros Hlt. destruct (Qle_bool x y) eqn:E; [|done].
    apply Qle_bool_iff in E. by apply Qlt_not_le in Hlt.
Qed.

Lemma statusOfElapsed_Active (hours : Q) :
  statusOfElapsed hours = Active <-> (hours < 24)%Q.
Proof.
  unfold statusOfElapsed. rewrite <- Qle_bool_false.
  destruct (Qle_bool 24 hours); simpl; [|done].
  destruct (Qle_bool hours 72); split; congruence.
Qed.

Lemma statusOfElapsed_Warning (hours : Q) :
  statusOfElapsed hours = Warning <-> (24 <= hours)%Q /\ (hours <= 72)%Q.
Proof.
  unfold statusOfElapsed. rewrite <- !Qle_bool_iff.
  destruct (Qle_bool 24 hours), (Qle_bool hours 72); simpl; intuition congruence.
Qed.

Lemma statusOfElapsed_ReEngage (hours : Q) :
  statusOfElapsed hours = ReEngage <-> (72 < hours)%Q.
Proof.
  unfold statusOfElapsed. rewrite <- Qle_bool_false.
  destruct (Qle_bool 24 hours) eqn:E24, (Qle_bool hours 72) eqn:E72; simpl;
    try (split; congruence).
  split; [congruence|]. intros _. exfalso.
  apply Qle_bool_false in E24. apply Qle_bool_false in E72.
  assert (72 < 24)%Q by (eapply Qlt_trans; eauto). discriminate.
Qed.

(** C1. The status label is a function of the elapsed hours since the last
    login alone (equal elapsed times give equal labels) with values among
    active, warning and re-engage, decided by two thresholds: less than 24 h
    is active, from 24 h up to 72 h is warning, more than 72 h is re-engage;
    23 h 59 min is still active and 24 h is warning, 71 h 59 min and 72 h are
    warning and 72 h 1 min is re-engage. *)
Theorem statusOfElapsed_thresholds :
  (forall hours, statusOfElapsed hours = Active <-> (hours < 24)%Q)
  /\ (forall hours,
        statusOfElapsed hours = Warning <-> (24 <= hours)%Q /\ (hours <= 72)%Q)
  /\ (forall hours, statusOfElapsed hours = ReEngage <-> (72 < hours)%Q)
  /\ (forall h1 h2, (h1 == h2)%Q -> statusOfElapsed h1 = statusOfElapsed h2)
  /\ (forall hours,
        In (labelText (statusOfElapsed hours)) ["active"; "warning"; "re-engage"])
  /\ labelText (statusOfElapsed (hm 23 59)) = "active"
  /\ labelText (statusOfElapsed (hm 24 0)) = "warning"
  /\ labelText (statusOfElapsed (hm 71 59)) = "warning"
  /\ labelText (statusOfElapsed (hm 72 0)) = "warning"
  /\ labelText (statusOfElapsed (hm 72 1)) = "re-engage".
Proof.
  split_and!; try reflexivity.
  - apply statusOfElapsed_Active.
  - apply statusOfElapsed_Warning.
  - apply statusOfElapsed_ReEngage.
  - intros h1 h2 Heq.
    destruct (statusOfElapsed h2) eqn:E.
    + apply statusOfElapsed_Active. apply statusOfElapsed_Active in E. by rewrite Heq.
    + apply statusOfElapsed_Warning. apply statusOfElapsed_Warning in E.
      by rewrite Heq.
    + apply statusOfElapsed_ReEngage. apply statusOfElapsed_ReEngage in E.
      by rewrite Heq.
  - intros hours. destruct (statusOfElapsed hours); simpl; tauto.
Qed.

(** The dot of the exam table takes its colour from the mark alone. *)
Lemma getReadiness_by_mark (a b : Model.ExamStudent) :
  Model.passFail a = Model.passFail b ->
  Dashboard.getReadiness a = Dashboard.getReadiness b.
Proof. unfold Dashboard.getReadiness. by intros ->. Qed.

Lemma forallb_Forall {A} (f : A -> bool) (l : list A) :
  forallb f l = true <-> Forall (fun x => f x = true) l.
Proof.
  induction l as [|x l IH]; simpl.
  - split; [constructor | done].
  - rewrite andb_true_iff, IH. split.
    + intros [? ?]. by constructor.
    + intros H. by inversion H.
Qed.

(** C2. Readiness is the AND of four criteria, each decided by its own
    figures against its own threshold: at least 3 consecutive passing
    practice scores; hours in course at least the required hours; at least
    one state-law completion with at least 1.5 hours; at least 30 video
    minutes in every category.  Changing the figures behind one criterion
    sets that criterion's met flag to the outcome of its threshold test on
    the new figures (so crossing the threshold flips it) and leaves the three
    other flags as they were. *)
Theorem readiness_criteria_independent :
  (forall r,
      ready r = practiceExams (criteriaOf r) && timeInCourse (criteriaOf r)
                && stateLaws (criteriaOf r) && videos (criteriaOf r))
  /\ (forall r,
        ready r = true <->
        3 <= consecutivePassing r
        /\ (hoursRequired r <= hoursLogged r)%Q
        /\ (1 <= stateLawCompletions r /\ (3 # 2 <= stateLawHours r)%Q)
        /\ Forall (fun c => (30 <= snd c)%Q) (videoMinutes r))
  /\ (forall n r,
        criteriaOf (withPractice n r)
        = mkCriteria (3 <=? n) (timeInCourse (criteriaOf r))
            (stateLaws (criteriaOf r)) (videos (criteriaOf r)))
  /\ (forall logged required r,
        criteriaOf (withHours logged required r)
        = mkCriteria (practiceExams (criteriaOf r)) (Qle_bool required logged)
            (stateLaws (criteriaOf r)) (videos (criteriaOf r)))
  /\ (forall completions hours r,
        criteriaOf (withStateLaws completions hours r)
        = mkCriteria (practiceExams (criteriaOf r)) (timeInCourse (criteriaOf r))
            ((1 <=? completions) && Qle_bool (3 # 2) hours) (videos (criteriaOf r)))
  /\ (forall minutes r,
        criteriaOf (withVideos minutes r)
        = mkCriteria (practiceExams (criteriaOf r)) (timeInCourse (criteriaOf r))
            (stateLaws (criteriaOf r))
            (forallb (fun c => Qle_bool 30 (snd c)) minutes)).
Proof.
  split_and!; try reflexivity.
  intros r. unfold ready, criteriaOf. cbn [practiceExams timeInCourse stateLaws videos].
  unfold practiceExamsMet, timeInCourseMet, stateLawsMet, videosMet.
  rewrite !andb_true_iff, forallb_Forall, !Z.leb_le, !Qle_bool_iff.
  split.
  - intros [[[? ?] [? ?]] Hv]. split_and!; try done.
    eapply Forall_impl; [exact Hv|]. intros c. by rewrite Qle_bool_iff.
  - intros (? & ? & [? ?] & Hv). split_and!; try done.
    eapply Forall_impl; [exact Hv|]. intros c. by rewrite Qle_bool_iff.
Qed.

Example readiness_flip :
  let r := mkStudyRecord 2 (40 # 1) (40 # 1) 1 (3 # 2) [("life", 45 # 1); ("health", 30 # 1)] in
  criteriaOf r = mkCriteria false true true true
  /\ ready r = false
  /\ criteriaOf (withPractice 3 r) = mkCriteria true true true true
  /\ ready (withPractice 3 r) = true
  /\ criteriaOf (withVideos [("life", 45 # 1); ("health", 29 # 1)] (withPractice 3 r))
     = mkCriteria true true true false.
Proof. vm_compute. repeat split; reflexivity. Qed.

End Classifiers.

(** ** The functions at work on the sample data *)

Section Examples.
Import Model Samples.

Example sort_by_progress_ascending :
  StudentTable.sortedStudents "progress" asc [alice; bob; carol] = [bob; carol; alice].
Proof. vm_compute. reflexivity. Qed.

Example sort_by_progress_descending :
  StudentTable.sortedStudents "progress" desc [alice; bob; carol] = [alice; bob; carol].
Proof. vm_compute. reflexivity. Qed.

Example sort_by_name :
  StudentTable.sortedStudents "name" desc [alice; bob; carol] = [carol; bob; alice].
Proof. vm_compute. reflexivity. Qed.

Example sort_by_unknown_column_uses_status :
  StudentTable.sortedStudents "phone" asc [bob; alice; carol] = [alice; carol; bob].
Proof. vm_compute. reflexivity. Qed.

Example filter_by_status :
  Dashboard.filteredStudents (Dashboard.setStatusFilter "active" loadedState) = [alice].
Proof. vm_compute. reflexivity. Qed.

Example filter_by_search :
  Dashboard.filteredStudents (Dashboard.setSearchTerm "SOUTH" loadedState) = [bob].
Proof. vm_compute. reflexivity. Qed.

Example recalc_sample :
  Dashboard.recalcExamSummary 10 sampleDateOf examRows None
  = Dashboard.mkExamSummary 7 1 2 2 1 (Binary64.div64 333 10) 2 None None.
Proof. vm_compute. reflexivity. Qed.

Example export_url_with_departments :
  Dashboard.exportUrl
    (Dashboard.setExtraDepartments
       ["a1b2c3d4-e5f6-7890-abcd-ef1234567890"; "00000000-0000-0000-0000-000000000002"]
       emptyState)
  = "/api/dashboard/export?departments=a1b2c3d4-e5f6-7890-abcd-ef1234567890%2C00000000-0000-0000-0000-000000000002".
Proof. vm_compute. reflexivity. Qed.

Example trim_sample : Js.trim "  a b  " = "a b".
Proof. vm_compute. reflexivity. Qed.

End Examples.

(** * Further properties of the dashboard *)

(** ** The department dropdown *)

Section DepartmentDropdown.
Import Model Dashboard Departments.

Lemma arrayIncludes_In (arr : list string) (x : string) :
  arrayIncludes arr x = true <-> In x arr.
Proof.
  unfold arrayIncludes. rewrite existsb_exists. split.
  - intros (y & Hy & He). apply String.eqb_eq in He. by subst.
  - intros Hx. exists x. split; [done | apply String.eqb_refl].
Qed.

Lemma newSet_fold (arr seen : list string) :
  NoDup seen ->
  let out := fold_left
               (fun seen x => if arrayIncludes seen x then seen else (seen ++ [x])%list)
               arr seen in
  NoDup out /\ forall x, In x out <-> In x seen \/ In x arr.
Proof.
  revert seen. induction arr as [|a arr IH]; intros seen Hnd; simpl.
  - split; [done | tauto].
  - destruct (arrayIncludes seen a) eqn:Ha.
    + apply arrayIncludes_In in Ha. destruct (IH seen Hnd) as [H1 H2].
      split; [done|]. intros x. rewrite H2. intuition (subst; auto).
    + assert (~ In a seen) as Hna
        by (rewrite <- arrayIncludes_In; congruence).
      assert (NoDup (seen ++ [a])) as Hnd'.
      { apply NoDup_app. split_and!; [done| |apply NoDup_singleton].
        intros x Hx Hx'. apply list_elem_of_singleton in Hx'. subst.
        by apply list_elem_of_In in Hx. }
      destruct (IH _ Hnd') as [H1 H2]. split; [done|].
      intros x. rewrite H2, in_app_iff. simpl. tauto.
Qed.

Lemma newSet_spec (arr : list string) :
  NoDup (newSet arr) /\ forall x, In x (newSet arr) <-> In x arr.
Proof.
  destruct (newSet_fold arr [] (NoDup_nil_2)) as [H1 H2]. split; [done|].
  intros x. unfold newSet. rewrite H2. simpl. tauto.
Qed.

Lemma defaultCompare_antisym (a b : string) :
  0 < defaultCompare a b -> defaultCompare b a <= 0.
Proof.
  unfold defaultCompare.
  destruct (String.ltb a b) eqn:Hab, (String.ltb b a) eqn:Hba; try lia.
Qed.

Lemma string_ltb_total (a b : string) :
  String.ltb b a = false -> a <> b -> String.ltb a b = true.
Proof.
  unfold String.ltb. rewrite (String.compare_antisym b a).
  destruct (String.compare a b) eqn:E; simpl; try done.
  intros _ Hne. by apply String.compare_eq_iff in E.
Qed.

Lemma Sorted_NoDup_strict {A} (R : A -> A -> Prop) (l : list A) :
  Sorted R l -> NoDup l -> Sorted (fun a b => R a b /\ a <> b) l.
Proof.
  induction 1 as [|a l Hs IH Hhd]; intros Hnd; [constructor|].
  apply NoDup_cons in Hnd as [Ha Hnd]. constructor; [by apply IH|].
  destruct Hhd as [|b l Hab]; constructor. split; [done|].
  intros ->. apply Ha. by left.
Qed.

Lemma studentDepartments_listing_in (students : list Student) (d : string) :
  In d (studentDepartments students) <->
  d <> "" /\ exists s, In s students
                       /\ Js.trim (Js.orEmpty (departmentName s)) = d.
Proof.
  unfold studentDepartments.
  pose proof (sort_Permutation defaultCompare (newSet (departmentNames students))) as Hp.
  destruct (newSet_spec (departmentNames students)) as [Hnd Hin].
  rewrite <- !list_elem_of_In, Hp, !list_elem_of_In, Hin.
  unfold departmentNames. rewrite filter_In, in_map_iff. split.
  - intros [(s & <- & Hs) Ht]. split; [|eauto].
    intros E. by rewrite E in Ht.
  - intros [Hne (s & Hs & <-)]. split; [eauto|].
    by destruct (Js.trim (Js.orEmpty (departmentName s))).
Qed.

(** X1. The department dropdown offers every non-blank department name of
    the loaded students, trimmed, exactly once and in ascending order, and
    offers nothing else. *)
Theorem studentDepartments_listing (students : list Student) :
  NoDup (studentDepartments students)
  /\ Sorted (fun a b => String.ltb a b = true) (studentDepartments students)
  /\ forall d,
       In d (studentDepartments students) <->
       d <> "" /\ exists s, In s students
                            /\ Js.trim (Js.orEmpty (departmentName s)) = d.
Proof.
  unfold studentDepartments.
  pose proof (sort_Permutation defaultCompare (newSet (departmentNames students))) as Hp.
  destruct (newSet_spec (departmentNames students)) as [Hnd Hin].
  assert (NoDup (JsArray.sort defaultCompare (newSet (departmentNames students)))) as Hnd'
    by (by rewrite Hp).
  split_and!; [done| |].
  - eapply Sorted_weaken;
      [|apply Sorted_NoDup_strict;
         [apply sort_Sorted, defaultCompare_antisym | exact Hnd']].
    intros a b [Hle Hne]. apply string_ltb_total; [|done].
    unfold JsArray.inOrder, defaultCompare in Hle.
    destruct (String.ltb b a) eqn:Hba; [|done].
    destruct (String.ltb a b) eqn:Hab; [|lia].
    apply string_ltb_asym in Hab. congruence.
  - intros d. fold (studentDepartments students).
    apply studentDepartments_listing_in.
Qed.

End DepartmentDropdown.

Section DepartmentFilter.
Import Model Dashboard Departments.

Lemma filter_neq_notin (d : string) (l : list string) :
  ~ In d l -> List.filter (fun x => negb (String.eqb x d)) l = l.
Proof.
  intros Hd. induction l as [|x l IH]; simpl; [done|].
  destruct (String.eqb_spec x d) as [->|Hne]; simpl.
  - exfalso. apply Hd. by left.
  - f_equal. apply IH. intros H. apply Hd. by right.
Qed.

Lemma filter_neq_Permutation (d : string) (l : list string) :
  NoDup l -> In d l ->
  Permutation (List.filter (fun x => negb (String.eqb x d)) l ++ [d]) l.
Proof.
  induction l as [|x l IH]; intros Hnd Hin; [destruct Hin|].
  apply NoDup_cons in Hnd as [Hx Hnd]. simpl.
  destruct (String.eqb_spec x d) as [->|Hne]; simpl.
  - rewrite filter_neq_notin by (by rewrite <- list_elem_of_In).
    by rewrite <- Permutation_cons_append.
  - constructor. apply IH; [done|]. destruct Hin; [congruence|done].
Qed.

(** X2. Ticking the box of a department flips that department in the filter
    and leaves every other department as it was; the filter stays free of
    repetitions, and ticking the same box twice selects the same departments
    as before. *)
Theorem toggleDepartment_flips (d : string) (prev : list string) :
  NoDup prev ->
  (forall x, In x (toggleDepartment d prev) <->
             (x = d /\ ~ In d prev) \/ (x <> d /\ In x prev))
  /\ NoDup (toggleDepartment d prev)
  /\ Permutation (toggleDepartment d (toggleDepartment d prev)) prev.
Proof.
  intros Hnd. destruct (arrayIncludes prev d) eqn:Hin.
  - assert (toggleDepartment d prev
            = List.filter (fun x => negb (String.eqb x d)) prev) as ->
      by (unfold toggleDepartment; by rewrite Hin).
    apply arrayIncludes_In in Hin.
    assert (~ In d (List.filter (fun x => negb (String.eqb x d)) prev)) as Hout.
    { rewrite filter_In. intros [_ H]. by rewrite String.eqb_refl in H. }
    split_and!.
    + intros x. rewrite filter_In, negb_true_iff, String.eqb_neq. tauto.
    + eapply sublist_NoDup; [exact Hnd | apply filter_sublist].
    + unfold toggleDepartment.
      assert (arrayIncludes (List.filter (fun x => negb (String.eqb x d)) prev) d
              = false) as ->.
      { destruct (arrayIncludes _ d) eqn:E; [|done].
        apply arrayIncludes_In in E. done. }
      by apply filter_neq_Permutation.
  - assert (toggleDepartment d prev = (prev ++ [d])%list) as ->
      by (unfold toggleDepartment; by rewrite Hin).
    assert (~ In d prev) as Hout by (rewrite <- arrayIncludes_In; congruence).
    split_and!.
    + intros x. rewrite in_app_iff. simpl.
      destruct (String.eqb_spec x d) as [->|Hne]; [tauto|].
      split; [intros [?|[?|[]]]; [tauto|congruence] | tauto].
    + apply NoDup_app. split_and!; [done| |apply NoDup_singleton].
      intros x Hx Hx'. apply list_elem_of_singleton in Hx'. subst.
      by apply list_elem_of_In in Hx.
    + unfold toggleDepartment.
      assert (arrayIncludes (prev ++ [d]) d = true) as ->.
      { apply arrayIncludes_In, in_app_iff. right. by left. }
      rewrite List.filter_app. simpl. rewrite String.eqb_refl. simpl.
      rewrite app_nil_r. by rewrite filter_neq_notin.
Qed.

Lemma toggleDepartment_flips_witness :
  Permutation
    (toggleDepartment "North Agency"
       (toggleDepartment "North Agency" ["South Agency"; "North Agency"]))
    ["South Agency"; "North Agency"].
Proof.
  apply (toggleDepartment_flips "North Agency" ["South Agency"; "North Agency"]).
  apply (bool_decide_unpack _). vm_compute. exact I.
Defined.

(** X3. With every department of the dropdown ticked the table shows the
    students that have a department, not all students: a student whose
    department name is missing or blank drops out, unlike under "All
    Departments". *)
Theorem all_departments_ticked (s : State) :
  studentDepartments (students s) <> [] ->
  filteredStudents
    (setStudentDeptFilter (studentDepartments (students s))
       (setSearchTerm "" (setStatusFilter "all" s)))
  = List.filter hasDepartment (students s).
Proof.
  intros Hne. unfold filteredStudents. simpl.
  apply filter_ext_in. intros st Hst. unfold keepStudent, matchesDept. simpl.
  assert ((Z.of_nat (length (studentDepartments (students s))) =? 0) = false) as ->.
  { destruct (studentDepartments (students s)); [done|]. apply Z.eqb_neq. simpl. lia. }
  simpl. unfold hasDepartment.
  destruct (arrayIncludes _ _) eqn:Hinc.
  - apply arrayIncludes_In, studentDepartments_listing_in in Hinc as [Hn _].
    by destruct (Js.trim (Js.orEmpty (departmentName st))).
  - destruct (Js.truthy _) eqn:Ht; [|done].
    assert (arrayIncludes (studentDepartments (students s))
              (Js.trim (Js.orEmpty (departmentName st))) = true); [|congruence].
    apply arrayIncludes_In, studentDepartments_listing_in. split; [|eauto].
    intros E'. by rewrite E' in Ht.
Qed.

Lemma all_departments_ticked_witness :
  filteredStudents
    (setStudentDeptFilter (studentDepartments (students MoreSamples.mixedState))
       (setSearchTerm "" (setStatusFilter "all" MoreSamples.mixedState)))
  = [Samples.alice; Samples.bob; Samples.carol].
Proof.
  rewrite (all_departments_ticked MoreSamples.mixedState); [reflexivity|].
  vm_compute. discriminate.
Defined.

End DepartmentFilter.

(** ** Searching the students *)

Section Search.
Import Model Dashboard.

Lemma map_chars_app (f : ascii -> ascii) (a b : string) :
  Js.map_chars f (a ++ b) = Js.map_chars f a ++ Js.map_chars f b.
Proof.
  induction a as [|c a IH]; [done|].
  rewrite append_cons. simpl. rewrite append_cons. by f_equal.
Qed.

Lemma includes_part (name before part after : string) :
  Js.includes name (before ++ part ++ after) = true -> Js.includes name part = true.
Proof.
  rewrite !includes_spec. intros (x & y & ->).
  exists (x ++ before), (after ++ y). by rewrite !append_assoc.
Qed.

Lemma truthy_app (a b : string) :
  Js.truthy (a ++ b) = false -> Js.truthy a = false /\ Js.truthy b = false.
Proof. destruct a; [by rewrite append_nil | by rewrite append_cons]. Qed.

(** A row that matches a search term matches every part of the term. *)
Lemma matchesSearch_part (before part after : string) (student : Student) :
  matchesSearch (before ++ part ++ after) student = true ->
  matchesSearch part student = true.
Proof.
  unfold matchesSearch.
  destruct (Js.truthy part) eqn:Hp; [|done].
  destruct (Js.truthy (before ++ part ++ after)) eqn:Ht.
  - simpl. unfold Js.toLowerCase. rewrite !map_chars_app.
    rewrite !orb_true_iff. intros [[H|H]|H]; apply includes_part in H; auto.
  - apply truthy_app in Ht as [_ Ht]. apply truthy_app in Ht as [Ht _]. congruence.
Qed.

Lemma filter_sublist_impl {A} (f g : A -> bool) (l : list A) :
  (forall x, f x = true -> g x = true) ->
  List.filter f l `sublist_of` List.filter g l.
Proof.
  intros Hfg. induction l as [|x l IH]; simpl; [constructor|].
  destruct (f x) eqn:Hf.
  - rewrite (Hfg x Hf). by constructor.
  - destruct (g x); [by constructor | done].
Qed.

(** X4. On ASCII text, typing more characters around a search term never
    adds rows: when the term typed and the names, e-mail addresses and
    departments of the students are ASCII, the students found for a term that
    contains another term are, in order, among the students found for the
    contained term, whatever the status and department filters. *)
Theorem search_narrows (s : State) (before part after : string) :
  Js.isAscii (before ++ part ++ after) = true ->
  forallb Departments.asciiStudent (students s) = true ->
  filteredStudents (setSearchTerm (before ++ part ++ after) s)
    `sublist_of` filteredStudents (setSearchTerm part s).
Proof.
  intros _ _.
  unfold filteredStudents. simpl. apply filter_sublist_impl.
  intros student. unfold keepStudent. simpl.
  rewrite !andb_true_iff. intros [[Hs ?] ?]. split_and!; try done.
  by apply matchesSearch_part in Hs.
Qed.

Lemma search_narrows_witness :
  filteredStudents (setSearchTerm "Adams" MoreSamples.mixedState)
    `sublist_of` filteredStudents (setSearchTerm "dam" MoreSamples.mixedState).
Proof.
  apply (search_narrows MoreSamples.mixedState "A" "dam" "s"); reflexivity.
Defined.

Lemma lower_upper_char (c : ascii) :
  Js.lower_char (Js.upper_char c) = Js.lower_char c.
Proof. destruct c as [[] [] [] [] [] [] [] []]; vm_compute; reflexivity. Qed.

Lemma toLowerCase_toUpperCase (t : string) :
  Js.toLowerCase (Js.toUpperCase t) = Js.toLowerCase t.
Proof.
  unfold Js.toLowerCase, Js.toUpperCase.
  induction t as [|c t IH]; [done|]. simpl. by rewrite lower_upper_char, IH.
Qed.

Lemma truthy_map_chars (f : ascii -> ascii) (t : string) :
  Js.truthy (Js.map_chars f t) = Js.truthy t.
Proof. by destruct t. Qed.

Lemma matchesSearch_case (term : string) (student : Student) :
  matchesSearch (Js.toUpperCase term) student = matchesSearch term student
  /\ matchesSearch (Js.toLowerCase term) student = matchesSearch term student.
Proof.
  unfold matchesSearch. rewrite toLowerCase_toUpperCase, toLowerCase_idem.
  assert (Js.truthy (Js.toUpperCase term) = Js.truthy term) as ->
    by apply truthy_map_chars.
  assert (Js.truthy (Js.toLowerCase term) = Js.truthy term) as ->
    by apply truthy_map_chars.
  done.
Qed.

(** X5. On ASCII text the search ignores the letter case of what is typed:
    when the term and the names, e-mail addresses and departments of the
    students are ASCII, the term in upper case, in lower case or as typed
    finds the same students. *)
Theorem search_ignores_case (s : State) (term : string) :
  Js.isAscii term = true ->
  forallb Departments.asciiStudent (students s) = true ->
  filteredStudents (setSearchTerm (Js.toUpperCase term) s)
  = filteredStudents (setSearchTerm term s)
  /\ filteredStudents (setSearchTerm (Js.toLowerCase term) s)
     = filteredStudents (setSearchTerm term s).
Proof.
  intros _ _.
  unfold filteredStudents, keepStudent. simpl.
  split; apply filter_ext; intros student;
    destruct (matchesSearch_case term student) as [Hu Hl];
    rewrite ?Hu, ?Hl; reflexivity.
Qed.

Lemma search_ignores_case_witness :
  filteredStudents (setSearchTerm "ADAMS" MoreSamples.mixedState)
  = filteredStudents (setSearchTerm "Adams" MoreSamples.mixedState)
  /\ filteredStudents (setSearchTerm "adams" MoreSamples.mixedState)
     = filteredStudents (setSearchTerm "Adams" MoreSamples.mixedState).
Proof.
  apply (search_ignores_case MoreSamples.mixedState "Adams"); reflexivity.
Defined.

End Search.

(** ** The filters of the Exam tab *)

Section ExamTabFacts.
Import Model ExamTab.

Variable todayTs : Z.
Variable dateOf : string -> option Z.

(** X6. "Showing X of Y exam students": the filtered exam rows are, in
    order, among the visible rows, so X <= Y; outside admin mode no row that
    failed to match a student of the department is ever listed; and after
    "Clear All" every visible row is listed. *)
Theorem filteredExamStudents_visible (f : Filters) (examStudents : list ExamRow) :
  filteredExamStudents todayTs dateOf f examStudents
    `sublist_of` visibleExamStudents f examStudents
  /\ (length (filteredExamStudents todayTs dateOf f examStudents)
      <= length (visibleExamStudents f examStudents))%nat
  /\ (if adminMode f then True
      else Forall (fun r => matched (examRowOf r) <> Some false)
             (filteredExamStudents todayTs dateOf f examStudents))
  /\ filteredExamStudents todayTs dateOf (clearAll f) examStudents
     = visibleExamStudents f examStudents.
Proof.
  assert (filteredExamStudents todayTs dateOf f examStudents
            `sublist_of` visibleExamStudents f examStudents) as Hsub.
  { unfold filteredExamStudents, visibleExamStudents.
    destruct (adminMode f) eqn:Ha; [apply filter_sublist|].
    apply filter_sublist_impl. intros r. unfold keepExamStudent. rewrite Ha. simpl.
    by destruct (matched (examRowOf r)) as [[]|]. }
  split_and!; [done | by apply sublist_length | |].
  - destruct (adminMode f) eqn:Ha; [done|].
    apply List.Forall_forall. intros r Hr.
    unfold filteredExamStudents in Hr. apply filter_In in Hr as [_ Hr].
    unfold keepExamStudent in Hr. rewrite Ha in Hr. simpl in Hr.
    by destruct (matched (examRowOf r)) as [[]|].
  - unfold filteredExamStudents, visibleExamStudents, keepExamStudent. simpl.
    destruct (adminMode f); simpl.
    + by apply filter_all.
    + apply filter_ext. intros r. by destruct (matched (examRowOf r)) as [[]|].
Qed.

Lemma keepExamStudent_result (f : Filters) (v : string) (r : ExamRow) :
  keepExamStudent todayTs dateOf (setExamResultFilter v f) r
  = keepExamStudent todayTs dateOf (setExamResultFilter "all" f) r
    && matchesResult todayTs dateOf v r.
Proof.
  unfold keepExamStudent. simpl.
  destruct (negb (adminMode f) && _); [done|].
  change (matchesResult todayTs dateOf "all" r) with true.
  rewrite andb_true_r.
  generalize (matchesResult todayTs dateOf v r). intros m.
  set (a := negb _ || _ || _ || _ || _).
  set (b := matchesChoice _ _). set (c := _ || Dashboard.arrayIncludes _ _).
  set (d := matchesChoice _ _). set (e := (_ =? "all")%string || _).
  set (g := matchesDaysFilter _ _ _ _).
  by destruct a, m, b, c, d, e, g.
Qed.

Lemma filter_split_length {A} (f g h : A -> bool) (l : list A) :
  (forall x, f x = g x || h x) -> (forall x, g x && h x = false) ->
  length (List.filter f l) = (length (List.filter g l) + length (List.filter h l))%nat.
Proof.
  intros Hf Hd. induction l as [|x l IH]; simpl; [done|].
  rewrite Hf. specialize (Hd x).
  destruct (g x), (h x); simpl in *; try discriminate; lia.
Qed.

Lemma filtered_result_length (f : Filters) (v : string) (rows : list ExamRow) :
  filteredExamStudents todayTs dateOf (setExamResultFilter v f) rows
  = List.filter (matchesResult todayTs dateOf v)
      (filteredExamStudents todayTs dateOf (setExamResultFilter "all" f) rows).
Proof.
  unfold filteredExamStudents. induction rows as [|r rows IH]; simpl; [done|].
  rewrite keepExamStudent_result.
  destruct (keepExamStudent todayTs dateOf (setExamResultFilter "all" f) r); simpl;
    [|done].
  destruct (matchesResult todayTs dateOf v r); by rewrite IH.
Qed.

(** X7. The result filters sort the listed exam rows into classes: every row
    is under exactly one of Passed, Failed and No result, every row without
    result is under exactly one of Upcoming and Pending, and the rows At risk
    are among the Upcoming ones; so the counts shown under Passed, Failed and
    No result add up to the count under All, and Upcoming and Pending to No
    result, whatever the other filters. *)
Theorem result_filters_partition (f : Filters) (rows : list ExamRow) :
  let shown v :=
    filteredExamStudents todayTs dateOf (setExamResultFilter v f) rows in
  length (shown "all")
  = (length (shown "passed") + length (shown "failed") + length (shown "no-result"))%nat
  /\ length (shown "no-result")
     = (length (shown "upcoming") + length (shown "pending"))%nat
  /\ shown "at-risk" `sublist_of` shown "upcoming"
  /\ (forall r,
        matchesResult todayTs dateOf "passed" r
        && matchesResult todayTs dateOf "failed" r = false
        /\ matchesResult todayTs dateOf "upcoming" r
           && matchesResult todayTs dateOf "pending" r = false).
Proof.
  intros shown. subst shown. cbv beta.
  rewrite !(filtered_result_length f "passed"), !(filtered_result_length f "failed"),
    !(filtered_result_length f "no-result"), !(filtered_result_length f "upcoming"),
    !(filtered_result_length f "pending"), !(filtered_result_length f "at-risk").
  set (base := filteredExamStudents todayTs dateOf (setExamResultFilter "all" f) rows).
  assert (forall r, matchesResult todayTs dateOf "passed" r
                    && matchesResult todayTs dateOf "failed" r = false) as Hpf.
  { intros r. unfold matchesResult. simpl.
    destruct (String.eqb_spec (Js.toUpperCase (Js.orEmpty (passFail (examRowOf r))))
                "PASS") as [->|]; done. }
  split_and!.
  - rewrite <- (filter_all (fun _ => true) base) at 1 by done.
    rewrite (filter_split_length (fun _ => true)
               (fun r => matchesResult todayTs dateOf "passed" r
                         || matchesResult todayTs dateOf "failed" r)
               (matchesResult todayTs dateOf "no-result")).
    + f_equal. by apply filter_split_length.
    + intros r. unfold matchesResult. simpl. by destruct (_ =? "PASS")%string, (_ =? "FAIL")%string.
    + intros r. unfold matchesResult. simpl. by destruct (_ =? "PASS")%string, (_ =? "FAIL")%string.
  - apply filter_split_length; intros r; unfold matchesResult; simpl;
      by destruct (isPast todayTs dateOf r), (_ =? "PASS")%string, (_ =? "FAIL")%string.
  - apply filter_sublist_impl. intros r. unfold matchesResult. simpl.
    rewrite !andb_true_iff. tauto.
  - intros r. split; [apply Hpf|]. unfold matchesResult. simpl.
    by destruct (isPast todayTs dateOf r), (_ =? "PASS")%string, (_ =? "FAIL")%string.
Qed.

End ExamTabFacts.

Section ExamTabWindows.
Import Model ExamTab.

Variable todayTs : Z.
Variable dateOf : string -> option Z.

Lemma filtered_days (f : Filters) (v : string) (rows : list ExamRow) :
  filteredExamStudents todayTs dateOf (setExamDaysFilter v f) rows
  = List.filter (fun r => matchesDaysFilter todayTs dateOf r v)
      (filteredExamStudents todayTs dateOf (setExamDaysFilter "all" f) rows).
Proof.
  unfold filteredExamStudents. induction rows as [|r rows IH]; simpl; [done|].
  assert (keepExamStudent todayTs dateOf (setExamDaysFilter v f) r
          = keepExamStudent todayTs dateOf (setExamDaysFilter "all" f) r
            && matchesDaysFilter todayTs dateOf r v) as ->.
  { unfold keepExamStudent. simpl. destruct (negb (adminMode f) && _); [done|].
    change (matchesDaysFilter todayTs dateOf r "all") with true.
    by rewrite andb_true_r. }
  destruct (keepExamStudent todayTs dateOf (setExamDaysFilter "all" f) r); simpl;
    [|done].
  destruct (matchesDaysFilter todayTs dateOf r v); by rewrite IH.
Qed.

(** The day windows on one row. *)
Lemma day_windows_row (r : ExamRow) :
  let m := matchesDaysFilter todayTs dateOf r in
  (m "today" = true -> m "2-days" = true)
  /\ (m "tomorrow" = true -> m "2-days" = true)
  /\ (m "2-days" = true -> m "3-days" = true)
  /\ (m "3-days" = true -> m "this-week" = true)
  /\ (m "this-week" = true -> m "this-month" = true)
  /\ (m "next-week" = true -> m "this-month" = true)
  /\ m "this-week" && m "next-week" = false
  /\ m "overdue" && m "this-month" = false
  /\ m "today" && m "tomorrow" = false
  /\ (m "no-date" = true ->
      m "overdue" = false /\ m "this-month" = false)
  /\ m "no-date" || m "overdue" || m "this-month"
     || (30 <? daysUntil todayTs
                 match Dashboard.parseExamDateRaw dateOf (examDateRaw (examRowOf r))
                 with Some t => t | None => 0 end) = true.
Proof.
  intros m. subst m. unfold matchesDaysFilter. simpl.
  destruct (truthyTime _); simpl.
  - set (d := daysUntil todayTs _).
    rewrite ?andb_true_iff, ?andb_false_iff, ?orb_true_iff, ?Z.eqb_eq, ?Z.leb_le,
      ?Z.ltb_lt, ?Z.leb_gt, ?Z.ltb_ge.
    split_and!; try (intros; lia); try done.
  - split_and!; done.
Qed.

(** X8. The day windows of the Exam tab are nested: the rows listed under
    Today are among those under 2 days, these among those under 3 days, then
    This week, then This month, and Tomorrow is within 2 days and Next week
    within This month, whatever the other filters; no row is both under This
    week and Next week, or under Today and Tomorrow, or both Overdue and under
    This month; a row without exam date is in none of the windows, and every
    row is without date, overdue, within the month or more than 30 days
    away. *)
Theorem exam_day_windows (f : Filters) (rows : list ExamRow) :
  let shown v := filteredExamStudents todayTs dateOf (setExamDaysFilter v f) rows in
  let m r := matchesDaysFilter todayTs dateOf r in
  shown "today" `sublist_of` shown "2-days"
  /\ shown "tomorrow" `sublist_of` shown "2-days"
  /\ shown "2-days" `sublist_of` shown "3-days"
  /\ shown "3-days" `sublist_of` shown "this-week"
  /\ shown "this-week" `sublist_of` shown "this-month"
  /\ shown "next-week" `sublist_of` shown "this-month"
  /\ (forall r,
        m r "this-week" && m r "next-week" = false
        /\ m r "overdue" && m r "this-month" = false
        /\ m r "today" && m r "tomorrow" = false
        /\ m r "no-date" && (m r "overdue" || m r "this-month") = false
        /\ m r "no-date" || m r "overdue" || m r "this-month"
           || (30 <? daysUntil todayTs
                       match Dashboard.parseExamDateRaw dateOf
                               (examDateRaw (examRowOf r))
                       with Some t => t | None => 0 end) = true).
Proof.
  intros shown m. subst shown m. cbv beta.
  rewrite !(filtered_days f "today"), !(filtered_days f "tomorrow"),
    !(filtered_days f "2-days"), !(filtered_days f "3-days"),
    !(filtered_days f "this-week"), !(filtered_days f "this-month"),
    !(filtered_days f "next-week").
  split_and!; try (apply filter_sublist_impl; intros r;
                   pose proof (day_windows_row r) as H; cbv zeta in H; tauto).
  intros r. pose proof (day_windows_row r) as H. cbv zeta in H.
  destruct H as (_ & _ & _ & _ & _ & _ & H1 & H2 & H3 & H4 & H5).
  split_and!; try done.
  destruct (matchesDaysFilter todayTs dateOf r "no-date"); [|done].
  destruct (H4 eq_refl) as [-> ->]. done.
Qed.

Variable now : Z.

Lemma upcoming_matches (r : ExamRow) :
  todayTs <= now ->
  Dashboard.isUpcoming now dateOf (examRowOf r) = true ->
  matchesResult todayTs dateOf "upcoming" r = true
  /\ (Dashboard.isAtRisk (examRowOf r) = true ->
      matchesResult todayTs dateOf "at-risk" r = true).
Proof.
  intros Hnow Hup.
  assert (hasMarkP : Dashboard.hasMark "PASS" (examRowOf r) = false)
    by (by apply (upcoming_unmarked now dateOf "PASS"); [left|]).
  assert (hasMarkF : Dashboard.hasMark "FAIL" (examRowOf r) = false)
    by (by apply (upcoming_unmarked now dateOf "FAIL"); [right|]).
  unfold Dashboard.hasMark in hasMarkP, hasMarkF.
  unfold Dashboard.isUpcoming in Hup. apply andb_true_iff in Hup as [Hdt _].
  assert (isPast todayTs dateOf r = false) as Hpast.
  { unfold isPast.
    destruct (Dashboard.parseExamDateRaw dateOf (examDateRaw (examRowOf r))) as [t|];
      [|done].
    apply Z.ltb_lt in Hdt. rewrite andb_false_iff. right. apply Z.ltb_ge. lia. }
  unfold matchesResult. simpl. rewrite hasMarkP, hasMarkF, Hpast. simpl.
  split; [done|]. unfold Dashboard.isAtRisk. intros H. by rewrite H.
Qed.

Lemma filter_id_Forall {A} (p : A -> bool) (l : list A) :
  List.filter p l = l -> forall x, In x l -> p x = true.
Proof.
  induction l as [|y l IH]; simpl; [done|].
  destruct (p y) eqn:Hy.
  - intros [= H] x [<-|Hx]; [done|]. by apply IH.
  - intros H. pose proof (sublist_length _ _ (filter_sublist p l)) as Hlen.
    rewrite H in Hlen. simpl in Hlen. lia.
Qed.

(** With nothing hidden and the other filters cleared, a result filter lists
    the rows its own test accepts. *)
Lemma cleared_filter_lists (f : Filters) (result : string) (rows : list ExamRow) :
  visibleExamStudents f rows = rows ->
  filteredExamStudents todayTs dateOf (setExamResultFilter result (clearAll f)) rows
  = List.filter (matchesResult todayTs dateOf result) rows.
Proof.
  intros Hvis. unfold filteredExamStudents. apply filter_ext_in. intros r Hr.
  unfold keepExamStudent, matchesChoice. simpl.
  assert (negb (adminMode f)
          && match matched (examRowOf r) with Some false => true | _ => false end
          = false) as ->.
  { unfold visibleExamStudents in Hvis. destruct (adminMode f); [done|]. simpl.
    apply negb_true_iff. by apply (filter_id_Forall _ _ Hvis). }
  by destruct (matchesResult todayTs dateOf result r).
Qed.

(** X9. The Upcoming card never counts more rows than the Upcoming filter
    lists, nor the At Risk card more than the At-risk filter lists, provided
    no row is hidden (admin mode, or every row matched to a student), the
    other filters are cleared and the day has begun ([todayTs <= now]): the
    counts [recalcExamSummary] computes from the exam rows are then at most
    the numbers of rows listed under the two result filters. *)
Theorem kpi_upcoming_within_filter (f : Filters) (rows : list ExamRow)
    (prev : option Dashboard.ExamSummary) :
  todayTs <= now ->
  visibleExamStudents f rows = rows ->
  let k := Dashboard.recalcExamSummary now dateOf (map examRowOf rows) prev in
  let listed result :=
    filteredExamStudents todayTs dateOf (setExamResultFilter result (clearAll f))
      rows in
  Dashboard.upcoming k <= Z.of_nat (length (listed "upcoming"))
  /\ Dashboard.atRisk k <= Z.of_nat (length (listed "at-risk")).
Proof.
  intros Hnow Hvis k listed. subst k listed. cbv beta.
  rewrite !cleared_filter_lists by done.
  unfold Dashboard.recalcExamSummary.
  rewrite countUpcoming_filter. cbn [Dashboard.upcoming Dashboard.atRisk].
  assert (forall (p : ExamStudent -> bool) (q : ExamRow -> bool),
            (forall r, p (examRowOf r) = true -> q r = true) ->
            (length (List.filter p (map examRowOf rows))
             <= length (List.filter q rows))%nat) as Hcount.
  { clear Hvis. intros p q Hpq. induction rows as [|r rs IH]; simpl; [lia|].
    destruct (p (examRowOf r)) eqn:Hp.
    - rewrite (Hpq r Hp). simpl. lia.
    - destruct (q r); simpl; lia. }
  split; apply Nat2Z.inj_le, Hcount; intros r Hr.
  - by apply upcoming_matches.
  - apply andb_true_iff in Hr as [Hu Ha]. by apply upcoming_matches.
Qed.

End ExamTabWindows.

Lemma kpi_upcoming_within_filter_witness :
  let k := Dashboard.recalcExamSummary 10 Samples.sampleDateOf
             (map ExamTab.examRowOf MoreSamples.examTabRows) None in
  let listed result :=
    ExamTab.filteredExamStudents 9 Samples.sampleDateOf
      (ExamTab.setExamResultFilter result
         (ExamTab.clearAll MoreSamples.adminFilters))
      MoreSamples.examTabRows in
  Dashboard.upcoming k <= Z.of_nat (length (listed "upcoming"))
  /\ Dashboard.atRisk k <= Z.of_nat (length (listed "at-risk")).
Proof.
  apply (kpi_upcoming_within_filter 9 Samples.sampleDateOf 10
           MoreSamples.adminFilters MoreSamples.examTabRows None).
  - lia.
  - reflexivity.
Defined.

(** ** Local edits and the department list *)

Section Edits.
Import Model Dashboard Http.

Lemma map_if_others {A} (p : A -> bool) (g : A -> A) (l : list A) :
  (forall e, p (g e) = p e) ->
  List.filter (fun e => negb (p e)) (map (fun e => if p e then g e else e) l)
  = List.filter (fun e => negb (p e)) l.
Proof.
  intros Hg. induction l as [|e l IH]; simpl; [done|].
  destruct (p e) eqn:Hp; simpl.
  - by rewrite Hg, Hp.
  - rewrite Hp. simpl. by f_equal.
Qed.

(** X10. Saving an exam result or an exam date writes the exam rows the
    handler captured when it was created, with the rows of that e-mail address
    edited.  Against the captured rows the edit is local: the list keeps its
    length and its e-mail addresses, the rows of other addresses are
    untouched, and the rows of the address carry the new result, or the new
    date.  The rows the state holds when the answer arrives play no part, so
    what another save or a refresh wrote in between is overwritten; with
    nothing in between (the captured rows are the current ones) the save edits
    the rows of the address and nothing else.  The students, the error banner
    and the session are left alone, and without success (request rejected,
    body unreadable, no success) the state stays as it was. *)
Theorem exam_edits_are_local
    (now : Z) (dateOf : string -> option Z) (formatDate : string -> string)
    (email result newDate newTime : string) (res : Fetch UpdateBody)
    (captured : list ExamStudent) (s : State) :
  let s1 := handleUpdateResult now dateOf email result res captured s in
  let s2 :=
    handleUpdateExamDate now dateOf formatDate email newDate newTime res captured s in
  let saved := match res with
               | Response _ (Some data) => updateSuccess data
               | _ => false
               end in
  let others := List.filter (fun e => negb (hasEmail email e)) in
  (students s1 = students s /\ error s1 = error s
   /\ onLogoutCalled s1 = onLogoutCalled s
   /\ if saved
      then length (examStudents s1) = length captured
           /\ map examEmail (examStudents s1) = map examEmail captured
           /\ others (examStudents s1) = others captured
           /\ Forall (fun e => passFail e = Some result)
                (List.filter (hasEmail email) (examStudents s1))
           /\ (forall s0,
                 examStudents
                   (handleUpdateResult now dateOf email result res captured s0)
                 = examStudents s1)
           /\ (captured = examStudents s ->
               others (examStudents s1) = others (examStudents s))
      else s1 = s)
  /\ (students s2 = students s /\ error s2 = error s
      /\ onLogoutCalled s2 = onLogoutCalled s
      /\ if saved
         then length (examStudents s2) = length captured
              /\ map examEmail (examStudents s2) = map examEmail captured
              /\ others (examStudents s2) = others captured
              /\ Forall (fun e => examDateRaw e = Some newDate
                                  /\ examDate e = Some (formatDate newDate))
                   (List.filter (hasEmail email) (examStudents s2))
              /\ (forall s0,
                    examStudents
                      (handleUpdateExamDate now dateOf formatDate email newDate
                         newTime res captured s0)
                    = examStudents s2)
              /\ (captured = examStudents s ->
                  others (examStudents s2) = others (examStudents s))
         else s2 = s).
Proof.
  intros s1 s2 saved others. subst s1 s2 saved others.
  unfold handleUpdateResult, handleUpdateExamDate.
  destruct res as [|st [data|]]; try (by split_and!).
  destruct (updateSuccess data); try (by split_and!).
  cbn [examStudents students error onLogoutCalled setExamSummary setExamStudents].
  split; split_and!; try reflexivity.
  - apply length_map.
  - rewrite map_map. apply map_ext. intros e. by destruct (hasEmail email e).
  - by apply map_if_others.
  - apply List.Forall_forall. intros e He. apply filter_In in He as [He Hm].
    apply in_map_iff in He as (e0 & <- & _).
    destruct (hasEmail email e0) eqn:E; [done | congruence].
  - intros <-. by apply map_if_others.
  - apply length_map.
  - rewrite map_map. apply map_ext. intros e. by destruct (hasEmail email e).
  - by apply map_if_others.
  - apply List.Forall_forall. intros e He. apply filter_In in He as [He Hm].
    apply in_map_iff in He as (e0 & <- & _).
    destruct (hasEmail email e0) eqn:E; [done | congruence].
  - intros <-. by apply map_if_others.
Qed.

End Edits.

Section DepartmentRoundTrip.
Import Model Dashboard Http.

(** X11. Removing a department deletes the entries equal to the given id
    and keeps the others in order, whatever the list holds; and when an id
    passes the checks of [handleAddDepartment], removing it right after
    adding it gives back the list as it was before the addition. *)
Theorem add_then_remove_department (departmentId : option string) (s : State) :
  (forall other,
      extraDepartments (handleRemoveDepartment other s)
      `sublist_of` extraDepartments s
      /\ forall x,
           In x (extraDepartments (handleRemoveDepartment other s))
           <-> In x (extraDepartments s) /\ x <> other)
  /\ (canAddDepartment departmentId s = true ->
      extraDepartments
        (handleRemoveDepartment (Js.trim (deptInputValue s))
           (handleAddDepartment departmentId s))
      = extraDepartments s).
Proof.
  split.
  - intros other. split; [apply filter_sublist|].
    intros x. simpl. rewrite filter_In, negb_true_iff, String.eqb_neq. tauto.
  - intros Hcan. set (id := Js.trim (deptInputValue s)).
    pose proof (handleAddDepartment_cases departmentId s) as Hc. cbv zeta in Hc.
    rewrite Hcan in Hc. rewrite Hc. simpl. fold id.
    apply canAddDepartment_spec in Hcan as (_ & _ & Hfresh & _). fold id in Hfresh.
    rewrite List.filter_app. simpl. rewrite String.eqb_refl. simpl.
    rewrite app_nil_r. apply filter_neq_notin.
    intros Hin. by apply (Hfresh id).
Qed.

Lemma add_then_remove_department_witness :
  extraDepartments
    (handleRemoveDepartment "a1b2c3d4-e5f6-7890-abcd-ef1234567890"
       (handleAddDepartment (Some "AAAAAAAA-0000-0000-0000-000000000001")
          MoreSamples.typingState))
  = ["00000000-0000-0000-0000-000000000002"].
Proof.
  apply (proj2 (add_then_remove_department
                  (Some "AAAAAAAA-0000-0000-0000-000000000001")
                  MoreSamples.typingState)).
  vm_compute. reflexivity.
Defined.

(** X12. The background load of the full data is all or nothing: either the
    summary, the students and the time of the last sync are replaced together
    by what the two responses carry (both OK and both reporting success), or
    all three stay as they were; in no case does it call [onLogout] or touch
    the error banner, and it always clears its loading flag. *)
Theorem loadFullDataInBackground_atomic (now : Z)
    (summaryRes : Fetch SummaryBody) (studentsRes : Fetch StudentsBody) (s : State) :
  let s' := loadFullDataInBackground now summaryRes studentsRes s in
  loadingFull s' = false
  /\ error s' = error s
  /\ onLogoutCalled s' = onLogoutCalled s
  /\ ((summary s' = summary s /\ students s' = students s
       /\ lastSynced s' = lastSynced s)
      \/ exists status1 summaryData status2 studentsData,
           summaryRes = Response status1 (Some summaryData)
           /\ studentsRes = Response status2 (Some studentsData)
           /\ ok status1 = true /\ ok status2 = true
           /\ summarySuccess summaryData = true
           /\ studentsSuccess studentsData = true
           /\ summary s' = Some (summaryOf summaryData)
           /\ students s' = studentsOf studentsData
           /\ lastSynced s' = Some now).
Proof.
  intros s'. subst s'. unfold loadFullDataInBackground.
  destruct summaryRes as [|st1 [b1|]], studentsRes as [|st2 [b2|]];
    try (split_and!; try reflexivity; left; by split_and!);
    destruct (ok st1) eqn:H1, (ok st2) eqn:H2; simpl;
    try (split_and!; try reflexivity; left; by split_and!).
  destruct (summarySuccess b1) eqn:S1, (studentsSuccess b2) eqn:S2; simpl;
    try (split_and!; try reflexivity; left; by split_and!).
  split_and!; try reflexivity. right. exists st1, b1, st2, b2. by split_and!.
Qed.

End DepartmentRoundTrip.

(** ** Sorted tables *)

Section SortedTables.
Import Model JsArray.

Lemma in_order_keys {A} (key : A -> JsValue) (d : SortDirection) (l : list A) :
  Sorted (fun a b =>
            match d with
            | asc => js_lt (key b) (key a) = false
            | desc => js_lt (key a) (key b) = false
            end)
    (sort (fun a b => compareValues d (key a) (key b)) l).
Proof.
  eapply Sorted_weaken; [|apply sort_by_key_Sorted].
  intros a b. unfold inOrder, compareValues. cbv beta.
  destruct d, (js_lt (key a) (key b)) eqn:E1, (js_lt (key b) (key a)) eqn:E2;
    try done; try lia.
  all: intros _; apply js_lt_asym in E1; congruence.
Qed.

Lemma noNaN_other_columns (sortField : string) (students : list Student) :
  sortField <> "lastLogin" -> StudentTable.noNaN sortField students = true.
Proof.
  intros Hne. unfold StudentTable.noNaN. apply forallb_forall. intros a _.
  unfold StudentTable.sortValue.
  destruct (String.eqb_spec sortField "lastLogin"); [done|].
  by repeat case_match.
Qed.

(** X13. Both tables come out in order: in the ascending table no row is
    followed by a row with a smaller sort value, in the descending table none
    by a row with a greater one.  It holds for every column of the exam table,
    and for every column of the students table when no sort value is [NaN]:
    for Last Login, when every [lastLogin.raw] can be read as a date. *)
Theorem tables_in_order :
  (forall sortField d students,
      StudentTable.noNaN sortField students = true ->
      Sorted (fun a b =>
                match d with
                | asc => js_lt (StudentTable.sortValue sortField b)
                               (StudentTable.sortValue sortField a) = false
                | desc => js_lt (StudentTable.sortValue sortField a)
                                (StudentTable.sortValue sortField b) = false
                end)
        (StudentTable.sortedStudents sortField d students))
  /\ (forall sortField students,
        sortField <> "lastLogin" -> StudentTable.noNaN sortField students = true)
  /\ (forall formats sortField d students,
        Sorted (fun a b =>
                  match d with
                  | asc => js_lt (ExamTable.sortValue formats sortField b)
                                 (ExamTable.sortValue formats sortField a) = false
                  | desc => js_lt (ExamTable.sortValue formats sortField a)
                                  (ExamTable.sortValue formats sortField b) = false
                  end)
          (ExamTable.sortedStudents formats sortField d students)).
Proof.
  split_and!; intros.
  - apply (in_order_keys (StudentTable.sortValue sortField)).
  - by apply noNaN_other_columns.
  - apply (in_order_keys (ExamTable.sortValue formats sortField)).
Qed.

Lemma tables_in_order_witness :
  Sorted (fun a b =>
            js_lt (StudentTable.sortValue "lastLogin" b)
                  (StudentTable.sortValue "lastLogin" a) = false)
    (StudentTable.sortedStudents "lastLogin" asc
       [Samples.alice; Samples.bob; Samples.carol]).
Proof.
  apply (proj1 tables_in_order "lastLogin" asc
           [Samples.alice; Samples.bob; Samples.carol]).
  reflexivity.
Defined.

End SortedTables.

(** ** Filtering and sorting together *)

Section FilterThenSort.
Import Model JsArray JsOrder.

Section Generic.
Context {A : Type} (cmp : A -> A -> Z).
Hypothesis cmp_antisym : forall a b, 0 < cmp a b -> cmp b a <= 0.
Hypothesis cmp_trans : forall a b c, cmp a b <= 0 -> cmp b c <= 0 -> cmp a c <= 0.







End Generic.















End FilterThenSort.

(** ** The student modal *)

Section CourseGroupFacts.
Import StudentModal CourseGroups.

Lemma filter_all_in {A} (f : A -> bool) (l : list A) :
  (forall x, In x l -> f x = true) -> List.filter f l = l.
Proof.
  induction l as [|x l IH]; intros Hf; simpl; [done|].
  rewrite (Hf x (or_introl eq_refl)), IH; [done|].
  intros y Hy. apply Hf. by right.
Qed.

Lemma filter_other_ids (m : Enrollment) (l : list Enrollment) :
  ~ In (enrollmentId m) (map enrollmentId l) ->
  List.filter (fun e => negb (enrollmentId e =? enrollmentId m)) l = l.
Proof.
  intros Hm. apply filter_all_in. intros e He.
  apply negb_true_iff, Z.eqb_neq. intros Heq. apply Hm. rewrite <- Heq.
  by apply in_map.
Qed.

Lemma main_and_modules (m : Enrollment) (l : list Enrollment) :
  NoDup (map enrollmentId l) -> In m l ->
  Permutation
    (m :: List.filter (fun e => negb (enrollmentId e =? enrollmentId m)) l) l.
Proof.
  induction l as [|x l IH]; intros Hnd Hin; [destruct Hin|].
  simpl in Hnd. apply NoDup_cons in Hnd as [Hx Hnd]. rewrite list_elem_of_In in Hx.
  simpl. destruct Hin as [->|Hin].
  - rewrite Z.eqb_refl. simpl. by rewrite filter_other_ids.
  - destruct (Z.eqb_spec (enrollmentId x) (enrollmentId m)) as [Heq|Hne]; simpl.
    + exfalso. apply Hx. rewrite Heq. by apply in_map.
    + rewrite perm_swap. constructor. by apply IH.
Qed.

(** X15. A group of courses shows each enrollment exactly once, as the main
    course or among the modules, provided the enrollments have distinct ids:
    the main course with the modules is a rearrangement of the group, so the
    cards add up to the number of courses in the header; the main course is
    the first course whose name mentions no module, chapter or lesson, and the
    first course when every name does.  An empty group shows nothing. *)
Theorem courseGroup_each_once (enrollments : list Enrollment) :
  NoDup (map enrollmentId enrollments) ->
  match courseGroup enrollments with
  | None => enrollments = []
  | Some (mainCourse, modules) =>
      Permutation (mainCourse :: modules) enrollments
      /\ (1 + length modules = length enrollments)%nat
      /\ modules `sublist_of` enrollments
      /\ ~ In mainCourse modules
      /\ match List.find isMainCandidate enrollments with
         | Some e => mainCourse = e /\ isMainCandidate e = true
         | None => head enrollments = Some mainCourse
         end
  end.
Proof.
  intros Hnd. unfold courseGroup. destruct enrollments as [|first rest]; [done|].
  set (l := first :: rest) in *.
  set (m := match List.find isMainCandidate l with Some e => e | None => first end).
  assert (In m l) as Hin.
  { subst m. destruct (List.find isMainCandidate l) eqn:Hf.
    - by apply find_some in Hf as [? _].
    - by left. }
  pose proof (main_and_modules m l Hnd Hin) as Hperm.
  split_and!; [done | | apply filter_sublist | |].
  - apply Permutation_length in Hperm. exact Hperm.
  - rewrite filter_In, Z.eqb_refl. by intros [_ ?].
  - subst m. destruct (List.find isMainCandidate l) eqn:Hf; [|done].
    by apply find_some in Hf as [_ ?].
Qed.

Lemma courseGroup_each_once_witness :
  match courseGroup MoreSamples.bundle with
  | None => MoreSamples.bundle = []
  | Some (mainCourse, modules) =>
      Permutation (mainCourse :: modules) MoreSamples.bundle
      /\ (1 + length modules = length MoreSamples.bundle)%nat
      /\ modules `sublist_of` MoreSamples.bundle
      /\ ~ In mainCourse modules
      /\ match List.find isMainCandidate MoreSamples.bundle with
         | Some e => mainCourse = e /\ isMainCandidate e = true
         | None => head MoreSamples.bundle = Some mainCourse
         end
  end.
Proof.
  apply (courseGroup_each_once MoreSamples.bundle).
  apply (bool_decide_unpack _). vm_compute. exact I.
Defined.

Lemma fold_add_bounds (lo hi : Z) (l : list Z) (acc : Z) :
  Forall (fun v => lo <= v <= hi) l ->
  acc + lo * Z.of_nat (length l) <= fold_left Z.add l acc
  <= acc + hi * Z.of_nat (length l).
Proof.
  intros Hall. revert acc. induction Hall as [|v l Hv Hl IH]; intros acc; simpl.
  - lia.
  - specialize (IH (acc + v)). lia.
Qed.

Lemma roundDiv_bounds (lo hi total n : Z) :
  0 < n -> lo * n <= total <= hi * n -> lo <= roundDiv total n <= hi.
Proof.
  intros Hn [Hlo Hhi]. unfold roundDiv. split.
  - apply Z.div_le_lower_bound; nia.
  - apply Z.lt_succ_r. apply Z.div_lt_upper_bound; nia.
Qed.

(** X16. The overall progress of a group lies between the smallest and the
    largest progress of its enrollments: when every progress that is a number
    lies between two bounds (0 and 100, say), so does the group's; a group
    with no enrollment, or with no progress that is a number, shows 0. *)
Theorem calculateGroupProgress_bounds (lo hi : Z) (progress : list (option Z)) :
  Forall (fun v => lo <= v <= hi) (validProgress progress) ->
  match validProgress progress with
  | [] => calculateGroupProgress progress = 0
  | _ :: _ => lo <= calculateGroupProgress progress <= hi
  end.
Proof.
  intros Hall. unfold calculateGroupProgress.
  destruct progress as [|p progress]; [done|].
  assert ((Z.of_nat (length (p :: progress)) =? 0) = false) as ->
    by (apply Z.eqb_neq; simpl; lia).
  destruct (validProgress (p :: progress)) as [|v valid] eqn:E; [done|].
  assert ((Z.of_nat (length (v :: valid)) =? 0) = false) as ->
    by (apply Z.eqb_neq; simpl; lia).
  apply roundDiv_bounds; [simpl; lia|].
  pose proof (fold_add_bounds lo hi (v :: valid) 0 Hall). lia.
Qed.

Lemma calculateGroupProgress_bounds_witness :
  0 <= calculateGroupProgress [Some 100; None; Some 15; Some 40] <= 100.
Proof.
  apply (calculateGroupProgress_bounds 0 100 [Some 100; None; Some 15; Some 40]).
  repeat constructor; lia.
Defined.

End CourseGroupFacts.

Section ContactFormFacts.
Import ContactForm.

Lemma allChars_cons (class : ascii -> bool) (c : ascii) (s : string) :
  allChars class (String c s) <-> class c = true /\ allChars class s.
Proof. unfold allChars. simpl. by rewrite andb_true_iff. Qed.

Lemma allChars_app (class : ascii -> bool) (a b : string) :
  allChars class (a ++ b) <-> allChars class a /\ allChars class b.
Proof.
  induction a as [|c a IH].
  - rewrite append_nil. unfold allChars at 2. simpl. tauto.
  - rewrite append_cons, !allChars_cons, IH. tauto.
Qed.

Lemma allChars_impl (p q : ascii -> bool) (s : string) :
  (forall c, p c = true -> q c = true) -> allChars p s -> allChars q s.
Proof.
  intros Hpq. induction s as [|c s IH]; [done|].
  rewrite !allChars_cons. intros [Hc Hs]. split; [by apply Hpq | by apply IH].
Qed.

(** [[class]+] followed by [k]: a non-empty run of the class, then [k]. *)
Lemma plus_spec (class : ascii -> bool) (k : string -> bool) (s : string) :
  plus class k s = true <->
  exists a b, s = a ++ b /\ a <> "" /\ allChars class a /\ k b = true.
Proof.
  induction s as [|c s IH]; simpl.
  - split; [discriminate|]. intros (a & b & Hs & Ha & _).
    destruct a; [done | discriminate].
  - rewrite andb_true_iff, orb_true_iff, IH. split.
    + intros [Hc [(a & b & -> & Ha & Hall & Hk)|Hk]].
      * exists (String c a), b. rewrite allChars_cons. by split_and!.
      * exists (String c ""), s. rewrite allChars_cons. by split_and!.
    + intros (a & b & Hs & Ha & Hall & Hk). destruct a as [|c' a]; [done|].
      rewrite append_cons in Hs. injection Hs as -> ->.
      apply allChars_cons in Hall as [Hc Hall]. split; [done|].
      destruct a as [|d a]; [by right|]. left. exists (String d a), b.
      by split_and!.
Qed.

(** [[class]*] followed by [k]. *)
Lemma star_spec (class : ascii -> bool) (k : string -> bool) (s : string) :
  star class k s = true <->
  exists a b, s = a ++ b /\ allChars class a /\ k b = true.
Proof.
  induction s as [|c s IH]; simpl.
  - split.
    + intros Hk. by exists "", "".
    + intros (a & b & Hs & _ & Hk). destruct a; [|discriminate].
      rewrite append_nil in Hs. by subst b.
  - rewrite orb_true_iff, andb_true_iff, IH. split.
    + intros [[Hc (a & b & -> & Hall & Hk)]|Hk].
      * exists (String c a), b. rewrite allChars_cons. by split_and!.
      * by exists "", (String c s).
    + intros (a & b & Hs & Hall & Hk). destruct a as [|c' a].
      * rewrite append_nil in Hs. subst b. by right.
      * rewrite append_cons in Hs. injection Hs as -> ->.
        apply allChars_cons in Hall as [Hc Hall]. left. split; [done|].
        by exists a, b.
Qed.

Lemma one_spec (class : ascii -> bool) (k : string -> bool) (s : string) :
  one class k s = true <-> exists c b, s = String c b /\ class c = true /\ k b = true.
Proof.
  destruct s as [|c s]; simpl.
  - split; [discriminate | by intros (? & ? & ? & _)].
  - rewrite andb_true_iff. split.
    + intros [Hc Hk]. by exists c, s.
    + intros (c' & b & Hs & Hc & Hk). by injection Hs as -> ->.
Qed.

Lemma lit_spec (c : ascii) (k : string -> bool) (s : string) :
  lit c k s = true <-> exists b, s = String c b /\ k b = true.
Proof.
  unfold lit. rewrite one_spec. split.
  - intros (c' & b & -> & Hc & Hk). apply Ascii.eqb_eq in Hc as ->. by exists b.
  - intros (b & -> & Hk). exists c, b. by rewrite Ascii.eqb_refl.
Qed.

Lemma atEnd_spec (s : string) : atEnd s = true <-> s = "".
Proof. by destruct s. Qed.

(** X17. The addresses [isValidEmail] accepts are exactly those of the form
    local@domain.tld, where local is a non-empty run of letters, digits and
    the characters . _ % + -, domain a non-empty run of letters, digits, dots
    and hyphens, and tld a run of at least two letters. *)
Theorem isValidEmail_form (email : string) :
  isValidEmail email = true <->
  exists localPart domain tld,
    email = localPart ++ "@" ++ domain ++ "." ++ tld
    /\ localPart <> "" /\ allChars isLocalChar localPart
    /\ domain <> "" /\ allChars isDomainChar domain
    /\ (2 <= String.length tld)%nat /\ allChars isLetter tld.
Proof.
  unfold isValidEmail. rewrite plus_spec. split.
  - intros (localPart & r1 & -> & Hl & Hlall & H).
    apply lit_spec in H as (r2 & -> & H).
    apply plus_spec in H as (domain & r3 & -> & Hd & Hdall & H).
    apply lit_spec in H as (r4 & -> & H).
    apply one_spec in H as (c1 & r5 & -> & Hc1 & H).
    apply one_spec in H as (c2 & r6 & -> & Hc2 & H).
    apply star_spec in H as (rest & r7 & -> & Hrest & H).
    apply atEnd_spec in H as ->.
    exists localPart, domain, (String c1 (String c2 rest)).
    rewrite append_empty_r, !allChars_cons. split_and!; try done.
    simpl. lia.
  - intros (localPart & domain & tld & -> & Hl & Hlall & Hd & Hdall & Hlen & Htld).
    exists localPart, ("@" ++ domain ++ "." ++ tld). split_and!; try done.
    apply lit_spec. exists (domain ++ "." ++ tld). split; [done|].
    apply plus_spec. exists domain, ("." ++ tld). split_and!; try done.
    apply lit_spec. exists tld. split; [done|].
    destruct tld as [|c1 [|c2 rest]]; simpl in Hlen; try lia.
    apply allChars_cons in Htld as [Hc1 Htld].
    apply allChars_cons in Htld as [Hc2 Htld].
    apply one_spec. exists c1, (String c2 rest). split_and!; try done.
    apply one_spec. exists c2, rest. split_and!; try done.
    apply star_spec. exists rest, "". rewrite append_empty_r. by split_and!.
Qed.

Lemma trimEnd_no_space (s : string) :
  allChars notSpace s -> Js.trimEnd s = s.
Proof.
  induction s as [|c s IH]; [done|].
  rewrite allChars_cons. intros [Hc Hs]. simpl. rewrite (IH Hs).
  unfold notSpace in Hc. apply negb_true_iff in Hc. rewrite Hc. by destruct s.
Qed.

Lemma trim_no_space (s : string) : allChars notSpace s -> Js.trim s = s.
Proof.
  intros Hs. unfold Js.trim.
  assert (Js.trimStart s = s) as ->; [|by apply trimEnd_no_space].
  destruct s as [|c s]; [done|]. apply allChars_cons in Hs as [Hc _].
  unfold notSpace in Hc. apply negb_true_iff in Hc. simpl. by rewrite Hc.
Qed.

Lemma localChar_notSpace (c : ascii) : isLocalChar c = true -> notSpace c = true.
Proof. destruct c as [[] [] [] [] [] [] [] []]; vm_compute; congruence. Qed.

Lemma domainChar_notSpace (c : ascii) : isDomainChar c = true -> notSpace c = true.
Proof. destruct c as [[] [] [] [] [] [] [] []]; vm_compute; congruence. Qed.

Lemma letter_notSpace (c : ascii) : isLetter c = true -> notSpace c = true.
Proof. destruct c as [[] [] [] [] [] [] [] []]; vm_compute; congruence. Qed.

(** An address that passes the check holds no white space, so trimming it
    changes nothing. *)
Lemma valid_email_trim (email : string) :
  isValidEmail email = true -> Js.trim email = email.
Proof.
  intros H. apply trim_no_space. unfold isValidEmail in H.
  apply plus_spec in H as (localPart & r1 & -> & _ & Hlall & H).
  apply lit_spec in H as (r2 & -> & H).
  apply plus_spec in H as (domain & r3 & -> & _ & Hdall & H).
  apply lit_spec in H as (r4 & -> & H).
  apply one_spec in H as (c1 & r5 & -> & Hc1 & H).
  apply one_spec in H as (c2 & r6 & -> & Hc2 & H).
  apply star_spec in H as (rest & r7 & -> & Hrest & H).
  apply atEnd_spec in H as ->. rewrite append_empty_r.
  repeat first [rewrite allChars_app | rewrite allChars_cons].
  split_and!; try done;
    eauto using allChars_impl, localChar_notSpace, domainChar_notSpace,
      letter_notSpace.
Qed.

End ContactFormFacts.

Section SaveContactFacts.
Import ContactForm.

Lemma truthy_nonempty (s : string) : Js.truthy s = true <-> s <> "".
Proof. destruct s; simpl; split; congruence. Qed.

(** X18. Saving the contact form.  The form is never altered by saving.  The
    update function of the parent is called only when both names are
    non-blank and the e-mail address passes the check; what it is handed then
    carries non-empty names and the address exactly as typed, the saving flag
    is cleared whatever the outcome, a successful answer replaces the contact
    shown, closes the editor and leaves no error, and a refusal or an
    exception keeps the contact shown and the editor open with a non-empty
    error.  When a check fails the update function is not called: the parent
    is as before, the outcome does not depend on the function, and only a
    non-empty error is set. *)
Theorem handleSaveContact_gate {W} (studentId : Z)
    (save : Z -> Contact -> W -> W * SaveResult) (s : State) (parent : W) :
  let form := contactForm s in
  let out := handleSaveContact studentId save s parent in
  let s' := out.2 in
  contactForm s' = form
  /\ if Js.truthy (Js.trim (firstName form)) && Js.truthy (Js.trim (lastName form))
        && isValidEmail (emailAddress form)
     then
       let answer := save studentId (trimmed form) parent in
       firstName (trimmed form) <> "" /\ lastName (trimmed form) <> ""
       /\ emailAddress (trimmed form) = emailAddress form
       /\ out.1 = answer.1
       /\ contactSaving s' = false
       /\ match answer.2 with
          | Saved student =>
              shown s' = student /\ editingContact s' = false
              /\ contactError s' = ""
          | NotSaved _ | Threw =>
              shown s' = shown s /\ shownFullName s' = shownFullName s
              /\ editingContact s' = editingContact s /\ contactError s' <> ""
          end
     else
       out.1 = parent
       /\ (forall save', handleSaveContact studentId save' s parent = out)
       /\ shown s' = shown s /\ shownFullName s' = shownFullName s
       /\ editingContact s' = editingContact s
       /\ contactSaving s' = contactSaving s
       /\ contactError s' <> "".
Proof.
  intros form out s'. subst out s'. unfold handleSaveContact. fold form.
  destruct (Js.truthy (Js.trim (firstName form))) eqn:Hf; simpl; [|by split_and!].
  destruct (Js.truthy (Js.trim (lastName form))) eqn:Hl; simpl; [|by split_and!].
  destruct (isValidEmail (emailAddress form)) eqn:He; simpl; [|by split_and!].
  apply truthy_nonempty in Hf, Hl. rewrite (valid_email_trim _ He).
  destruct (save _ _ _) as [parent' result]. simpl.
  split; [by destruct result|]. split_and!; try done.
  destruct result as [|student|[e|]]; simpl; split_and!; try done.
  destruct (Js.truthy e) eqn:Ht; [by apply truthy_nonempty | done].
Qed.

End SaveContactFacts.

(** ** The login form *)

Section LoginFacts.
Import LoginForm.

Lemma guid_nonempty (id : string) : Dashboard.guidPattern_test id = true -> id <> "".
Proof.
  intros H ->. vm_compute in H. discriminate.
Qed.

(** X19. Submitting the login form.  Whatever happens, the fields keep what
    was typed and the loading flag is cleared.  [onLogin] is reached only with
    a non-empty user name, a non-empty password and a department id that is a
    GUID, the user name and the id trimmed; the error shown afterwards is the
    one [onLogin] reports, and none on success.  Otherwise [onLogin] is not
    consulted and one of the four messages is shown; a blank user name is
    reported before anything else. *)
Theorem handleSubmit_gate (onLogin : Credentials -> LoginResult) (s : State) :
  let s' := handleSubmit onLogin s in
  let sent := mkCredentials (Js.trim (username s)) (password s)
                (Js.trim (departmentId s)) in
  (username s' = username s /\ password s' = password s
   /\ departmentId s' = departmentId s /\ loading s' = false)
  /\ (Js.trim (username s) = "" -> error s' = Some "Username is required")
  /\ if Js.truthy (Js.trim (username s)) && Js.truthy (password s)
        && Dashboard.guidPattern_test (Js.trim (departmentId s))
     then
       credUsername sent <> "" /\ credPassword sent <> ""
       /\ Dashboard.isGuid (credDepartmentId sent)
       /\ error s' = (if loginSuccess (onLogin sent) then None
                      else loginError (onLogin sent))
     else
       (forall onLogin', handleSubmit onLogin' s = s')
       /\ In (error s')
            [ Some "Username is required"; Some "Password is required";
              Some "Department ID is required";
              Some "Invalid Department ID format. Please enter a valid GUID." ].
Proof.
  intros s' sent. subst s' sent. unfold handleSubmit.
  destruct (Js.truthy (Js.trim (username s))) eqn:Hu; simpl.
  2:{ split_and!; try done. simpl. tauto. }
  assert (Js.trim (username s) = "" -> False) as Hno
    by (by apply truthy_nonempty).
  destruct (Js.truthy (password s)) eqn:Hp; simpl.
  2:{ split_and!; try done. simpl. tauto. }
  destruct (Dashboard.guidPattern_test (Js.trim (departmentId s))) eqn:Hg; simpl.
  - pose proof (guid_nonempty _ Hg) as Hd. apply truthy_nonempty in Hd.
    rewrite Hd. simpl. apply truthy_nonempty in Hu, Hp.
    apply guidPattern_test_spec in Hg.
    destruct (loginSuccess (onLogin _)); simpl; by split_and!.
  - destruct (Js.truthy (Js.trim (departmentId s))); simpl;
      (split_and!; try done; simpl; tauto).
Qed.

End LoginFacts.

(** ** The Sync button *)

Section SyncFacts.
Import Model Http Dashboard Sync.

Local Arguments syncFailedMessage : simpl never.

Lemma syncFailedMessage_nonempty (status : Z) (errData : option SyncBody) :
  syncFailedMessage status errData <> "".
Proof.
  unfold syncFailedMessage.
  destruct errData as [[? ? ? ? [e|]]|]; cbn; try done.
  destruct (Js.truthy e) eqn:He; [by apply truthy_nonempty | done].
Qed.

Lemma caught_message (message fallback : string) :
  fallback <> "" ->
  exists m, Some (if Js.truthy message then message else fallback) = Some m
            /\ m <> "".
Proof.
  intros Hf. destruct (Js.truthy message) eqn:E; eexists; split; try done.
  by apply truthy_nonempty.
Qed.

(** [fetchExamData] leaves the dashboard data and the sync cells alone. *)
Lemma fetchExamData_frame overrideAdminKey (res : Fetch ExamBody)
    (schedulerRes : Fetch SchedulerBody) (s : State) :
  let s' := fetchExamData overrideAdminKey res schedulerRes s in
  syncing s' = syncing s /\ extraDepartments s' = extraDepartments s
  /\ students s' = students s /\ summary s' = summary s
  /\ lastSynced s' = lastSynced s /\ departmentMeta s' = departmentMeta s.
Proof.
  unfold fetchExamData.
  repeat (match goal with
          | |- context [match ?x with _ => _ end] => destruct x
          end; simpl); by split_and!.
Qed.

(** X20. The Sync button.  On every path the syncing flag is cleared and the
    list of extra departments is as before.  A sync that fails (the request
    is rejected, is answered with a status outside 200..299, or its body
    cannot be read) keeps all the data loaded before and the time of the last
    sync; a 401 answer calls [onLogout] and sets no error, every other failure
    leaves the user logged in and shows a non-empty error, the server's own
    text when the answer carries one.  An answer with [success] false changes
    nothing and shows no error.  A successful sync replaces the students and
    the summary, stamps the time, and marks exam data loaded before as not
    loaded, leaving the exam rows alone unless the Exam tab is open. *)
Theorem handleSync_outcomes (now : Z) (fetchErrorMessage jsonErrorMessage : string)
    (activeTab : string) (res : Fetch SyncBody) (examRes : Fetch ExamBody)
    (schedulerRes : Fetch SchedulerBody) (s : State) :
  let s' := handleSync now fetchErrorMessage jsonErrorMessage activeTab
              res examRes schedulerRes s in
  syncing s' = false
  /\ extraDepartments s' = extraDepartments s
  /\ if requestFailed res then
       dataKept s s' /\ lastSynced s' = lastSynced s
       /\ examLoaded s' = examLoaded s
       /\ if status401 res
          then onLogoutCalled s' = true /\ error s' = None
          else onLogoutCalled s' = onLogoutCalled s
               /\ (exists message, error s' = Some message /\ message <> "")
               /\ (forall status d e,
                      res = Response status (Some d) -> syncError d = Some e ->
                      e <> "" -> error s' = Some e)
     else
       match res with
       | Response _ (Some data) =>
           if syncSuccess data then
             students s' = syncStudents data
             /\ summary s' = Some (syncSummary data)
             /\ lastSynced s' = Some now
             /\ (forall ds, syncDepartments data = Some ds -> departmentMeta s' = ds)
             /\ (syncDepartments data = None -> departmentMeta s' = departmentMeta s)
             /\ (examLoaded s = false \/ activeTab <> "exam" ->
                 examLoaded s' = false /\ examStudents s' = examStudents s
                 /\ examSummary s' = examSummary s /\ error s' = None
                 /\ onLogoutCalled s' = onLogoutCalled s)
           else
             dataKept s s' /\ lastSynced s' = lastSynced s
             /\ examLoaded s' = examLoaded s /\ error s' = None
             /\ onLogoutCalled s' = onLogoutCalled s
       | _ => False
       end.
Proof.
  intros s'. subst s'. unfold handleSync.
  destruct res as [|status [data|]]; simpl.
  - split_and!; try done. by apply caught_message.
  - destruct (ok status) eqn:Hok; simpl.
    + destruct (syncSuccess data); [|by split_and!].
      destruct (examLoaded s) eqn:Hex; simpl.
      * destruct (String.eqb_spec activeTab "exam") as [->|Hne].
        -- match goal with
           | |- context [fetchExamData ?k ?r ?sr ?st] =>
               pose proof (fetchExamData_frame k r sr st)
                 as (H1 & H2 & H3 & H4 & H5 & H6)
           end.
           rewrite ?H1, ?H2, ?H3, ?H4, ?H5, ?H6.
           destruct (syncDepartments data); simpl; split_and!; try done;
             try congruence; by intros [|].
        -- destruct (syncDepartments data); simpl; split_and!; try done;
             congruence.
      * destruct (syncDepartments data); simpl; split_and!; try done;
          congruence.
    + destruct (status =? 401) eqn:H401; simpl; split_and!; try done.
      * by apply caught_message.
      * intros status' d e [= -> ->] He Hne.
        pose proof (syncFailedMessage_nonempty status' (Some d)) as Hm.
        apply truthy_nonempty in Hm. rewrite Hm. unfold syncFailedMessage.
        rewrite He. apply truthy_nonempty in Hne. by rewrite Hne.
  - rewrite orb_true_r. destruct (ok status) eqn:Hok; simpl.
    + assert ((status =? 401) = false) as ->
        by (unfold ok in Hok; lia).
      split_and!; try done. by apply caught_message.
    + destruct (status =? 401) eqn:H401; simpl; split_and!; try done.
      eexists. split; [done|]. apply syncFailedMessage_nonempty.
Qed.

End SyncFacts.

(** ** Saving the contact data of a student *)

Section ContactUpdateFacts.
Import Model Http ContactForm ContactUpdate.

(** X21. [handleUpdateStudentContact] never throws: it always resolves to an
    answer, and a refusal carries a non-empty error.  It keeps the rows in
    place, with their ids; rows of another id are untouched, and a row of the
    id keeps its department, status, last login, progress and course.  Unless
    the answer reports success the rows are exactly as before.  The data sent
    and the status of the response play no part in the outcome. *)
Theorem handleUpdateStudentContact_rows (id : Z) (contactData : Contact)
    (res : Fetch ContactBody) (rows : list ContactRow) :
  let out := handleUpdateStudentContact id contactData res rows in
  out.2 <> Threw
  /\ map (fun r => studentId (rowOf r)) out.1
     = map (fun r => studentId (rowOf r)) rows
  /\ (forall i r, rows !! i = Some r -> studentId (rowOf r) <> id ->
                  out.1 !! i = Some r)
  /\ (forall i r r', rows !! i = Some r -> out.1 !! i = Some r' ->
        departmentName (rowOf r') = departmentName (rowOf r)
        /\ status (rowOf r') = status (rowOf r)
        /\ lastLoginTime (rowOf r') = lastLoginTime (rowOf r)
        /\ progressValue (rowOf r') = progressValue (rowOf r)
        /\ courseName (rowOf r') = courseName (rowOf r))
  /\ match out.2 with
     | Saved _ => True
     | NotSaved error => out.1 = rows /\ exists e, error = Some e /\ e <> ""
     | Threw => False
     end
  /\ (forall contactData' status status' body,
        res = Response status body ->
        handleUpdateStudentContact id contactData' (Response status' body) rows
        = out).
Proof.
  intros out. subst out. unfold handleUpdateStudentContact.
  assert (forall i (r r' : ContactRow), rows !! i = Some r -> rows !! i = Some r' ->
            departmentName (rowOf r') = departmentName (rowOf r)
            /\ status (rowOf r') = status (rowOf r)
            /\ lastLoginTime (rowOf r') = lastLoginTime (rowOf r)
            /\ progressValue (rowOf r') = progressValue (rowOf r)
            /\ courseName (rowOf r') = courseName (rowOf r)) as Hsame.
  { intros i r r' Hi. rewrite Hi. by intros [= <-]. }
  destruct res as [|st [data|]]; simpl.
  - split_and!; try done; eauto.
  - destruct (contactSuccess data) eqn:Hs; simpl.
    + split_and!; try done.
      * rewrite map_map. apply map_ext. intros r.
        by destruct (studentId (rowOf r) =? id).
      * intros i r Hi Hne. rewrite list_lookup_fmap, Hi. simpl.
        apply Z.eqb_neq in Hne. by rewrite Hne.
      * intros i r r' Hi. rewrite list_lookup_fmap, Hi. simpl. intros [= <-].
        by destruct (studentId (rowOf r) =? id).
      * intros ? ? ? ? [= <- <-]. by rewrite Hs.
    + split_and!; try done.
      * destruct (contactErrorText data) as [e|]; [|by eexists].
        destruct (Js.truthy e) eqn:He; eexists; split; try done.
        by apply truthy_nonempty.
      * intros ? ? ? ? [= <- <-]. by rewrite Hs.
  - split_and!; try done; eauto.
    by intros ? ? ? ? [= <- <-].
Qed.

(** X22. The modal wired to the dashboard, as [Dashboard] renders it.  When
    the form fails a check the rows of the table are as before.  Otherwise,
    when the server reports success, every row of the student's id shows the
    full name, the e-mail address and the phone the modal shows afterwards,
    and the editor is closed; when it does not, or no readable answer comes,
    the table is unchanged, the modal shows what it showed before and a
    non-empty error ("Network error" when no readable answer came), and the
    editor stays open. *)
Theorem saved_contact_shown_alike (id : Z) (res : Fetch ContactBody)
    (s : State) (rows : list ContactRow) :
  let out :=
    handleSaveContact id (fun i c => handleUpdateStudentContact i c res) s rows in
  let form := contactForm s in
  if Js.truthy (Js.trim (firstName form)) && Js.truthy (Js.trim (lastName form))
     && isValidEmail (emailAddress form)
  then
    match res with
    | Response _ (Some data) =>
        if contactSuccess data then
          editingContact out.2 = false
          /\ shown out.2 = contactStudent data
          /\ forall r, In r out.1 -> studentId (rowOf r) = id ->
               fullName (rowOf r) = shownFullName out.2
               /\ email (rowOf r) = emailAddress (shown out.2)
               /\ rowFirstName r = Some (firstName (shown out.2))
               /\ rowLastName r = Some (lastName (shown out.2))
               /\ rowPhone r = Some (phone (shown out.2))
        else
          out.1 = rows /\ shown out.2 = shown s
          /\ editingContact out.2 = editingContact s /\ contactError out.2 <> ""
    | _ =>
        out.1 = rows /\ shown out.2 = shown s
        /\ editingContact out.2 = editingContact s
        /\ contactError out.2 = "Network error"
    end
  else out.1 = rows.
Proof.
  intros out form. subst out. unfold handleSaveContact. fold form.
  destruct (Js.truthy (Js.trim (firstName form))); simpl; [|done].
  destruct (Js.truthy (Js.trim (lastName form))); simpl; [|done].
  destruct (isValidEmail (emailAddress form)); simpl; [|done].
  unfold handleUpdateStudentContact.
  destruct res as [|st [data|]]; simpl; [done| |done].
  destruct (contactSuccess data); simpl.
  - split_and!; try done. intros r Hr Hid.
    apply in_map_iff in Hr as (r0 & <- & _).
    destruct (studentId (rowOf r0) =? id) eqn:E; [done|].
    apply Z.eqb_neq in E. by destruct E.
  - split_and!; try done. destruct (contactErrorText data) as [e|]; [|done].
    destruct (Js.truthy e) eqn:He; [|done].
    rewrite He. by apply truthy_nonempty.
Qed.

End ContactUpdateFacts.

(** ** The exam table with sections *)

Section GroupedExamTableFacts.
Import Model JsArray GroupedExamTable.

Variable formats : list (string -> option Z).
Variable localDate : Z -> Z * Z * Z.
Variable dateTime : Z * Z * Z -> Z.
Variable now : Z.

Lemma getDateGroup_cases (s : ExamStudent) :
  getDateGroup formats localDate dateTime now s = "today"
  \/ getDateGroup formats localDate dateTime now s = "upcoming"
  \/ getDateGroup formats localDate dateTime now s = "past".
Proof.
  unfold getDateGroup.
  destruct (_ =? 0); [tauto|].
  destruct (localDate _) as [[ey em] ed], (localDate now) as [[ty tm] td].
  destruct (_ && _); [tauto|]. destruct (_ <? _); tauto.
Qed.

Lemma three_groups (students : list ExamStudent) :
  Permutation
    (inGroup formats localDate dateTime now "today" students
     ++ inGroup formats localDate dateTime now "upcoming" students
     ++ inGroup formats localDate dateTime now "past" students)%list
    students.
Proof.
  unfold inGroup.
  induction students as [|s l IH]; simpl; [done|].
  destruct (getDateGroup_cases s) as [-> | [-> | ->]]; simpl.
  - by constructor.
  - rewrite <- Permutation_middle. by constructor.
  - rewrite app_assoc, <- Permutation_middle, <- app_assoc. by constructor.
Qed.

Lemma pushSection_rows (name shade : string) (rows : list ExamStudent)
    (secs : list TableSection) :
  concat (map sectionStudents (pushSection name shade rows secs))
  = (concat (map sectionStudents secs) ++ rows)%list.
Proof.
  unfold pushSection. destruct rows as [|r rows].
  - simpl. by rewrite app_nil_r.
  - assert ((0 <? Z.of_nat (length (r :: rows))) = true) as ->
      by (apply Z.ltb_lt; cbn [length]; lia).
    rewrite map_app, concat_app. simpl. by rewrite app_nil_r.
Qed.

Lemma pushSection_In (name shade : string) (rows : list ExamStudent)
    (secs : list TableSection) (sec : TableSection) :
  In sec (pushSection name shade rows secs) ->
  In sec secs \/ (sec = mkTableSection name shade rows /\ rows <> []).
Proof.
  unfold pushSection. destruct rows as [|r rows]; [simpl; tauto|].
  assert ((0 <? Z.of_nat (length (r :: rows))) = true) as ->
    by (apply Z.ltb_lt; cbn [length]; lia).
  rewrite in_app_iff. simpl. intros [?|[<-|[]]]; [tauto|]. by right.
Qed.

Lemma pushSection_labels (name shade : string) (rows : list ExamStudent)
    (secs : list TableSection) (names : list string) :
  map label secs `sublist_of` names ->
  map label (pushSection name shade rows secs) `sublist_of` (names ++ [name])%list.
Proof.
  intros Hs. unfold pushSection. destruct (0 <? _).
  - rewrite map_app. simpl. by apply sublist_app.
  - by apply sublist_inserts_r.
Qed.

Lemma sorted_in_group (cmp : ExamStudent -> ExamStudent -> Z) (group : string)
    (students : list ExamStudent) (s : ExamStudent) :
  In s (sort cmp (inGroup formats localDate dateTime now group students)) ->
  In s students /\ getDateGroup formats localDate dateTime now s = group.
Proof.
  intros Hs. eapply Permutation_in in Hs; [|apply sort_Permutation].
  apply filter_In in Hs as [? Hg]. by apply String.eqb_eq in Hg.
Qed.

Lemma sortedPast_in (sortField : string) (sortDirection : SortDirection)
    (students : list ExamStudent) (s : ExamStudent) :
  In s (sortedPast formats localDate dateTime now sortField sortDirection students) ->
  In s students /\ getDateGroup formats localDate dateTime now s = "past".
Proof.
  unfold sortedPast, sortWithinGroup.
  destruct (String.eqb sortField "examDate"); apply sorted_in_group.
Qed.

Lemma sortedPast_Permutation (sortField : string) (sortDirection : SortDirection)
    (students : list ExamStudent) :
  Permutation (sortedPast formats localDate dateTime now sortField sortDirection students)
    (inGroup formats localDate dateTime now "past" students).
Proof.
  unfold sortedPast, sortWithinGroup.
  destruct (String.eqb sortField "examDate"); apply sort_Permutation.
Qed.

(** X23. The sections of the exam table split its rows: every row is shown
    exactly once (the rows of the sections together are a rearrangement of the
    rows given), in the section of its date group; a row with no readable
    date is among the upcoming exams; no section is empty, and the sections
    come in the order Today, Upcoming, Past. *)
Theorem sections_split_rows (sortField : string) (sortDirection : SortDirection)
    (students : list ExamStudent) :
  let secs :=
    sections formats localDate dateTime now sortField sortDirection students in
  Permutation (concat (map sectionStudents secs)) students
  /\ map label secs
     `sublist_of` ["Today's Exams"; "Upcoming Exams"; "Past Exams"]
  /\ (forall sec, In sec secs -> sectionStudents sec <> [])
  /\ (forall sec s, In sec secs -> In s (sectionStudents sec) ->
        (label sec = "Today's Exams"
         /\ getDateGroup formats localDate dateTime now s = "today")
        \/ (label sec = "Upcoming Exams"
            /\ getDateGroup formats localDate dateTime now s = "upcoming")
        \/ (label sec = "Past Exams"
            /\ getDateGroup formats localDate dateTime now s = "past"))
  /\ (forall s, In s students -> examTs formats s = 0 ->
        getDateGroup formats localDate dateTime now s = "upcoming").
Proof.
  intros secs. subst secs. unfold sections. split_and!.
  - rewrite !pushSection_rows. simpl. rewrite <- app_assoc.
    unfold sortWithinGroup. rewrite !sort_Permutation, sortedPast_Permutation.
    apply three_groups.
  - apply (pushSection_labels _ _ _ _ ["Today's Exams"; "Upcoming Exams"]).
    apply (pushSection_labels _ _ _ _ ["Today's Exams"]).
    apply (pushSection_labels _ _ _ _ []). simpl. constructor.
  - intros sec Hsec.
    repeat (apply pushSection_In in Hsec as [Hsec|[-> Hne]]; [|done]).
    destruct Hsec.
  - intros sec s Hsec Hs.
    apply pushSection_In in Hsec as [Hsec|[-> _]].
    2:{ apply sortedPast_in in Hs as [_ ->]. tauto. }
    apply pushSection_In in Hsec as [Hsec|[-> _]].
    2:{ apply sorted_in_group in Hs as [_ ->]. tauto. }
    apply pushSection_In in Hsec as [Hsec|[-> _]]; [destruct Hsec|].
    apply sorted_in_group in Hs as [_ ->]. tauto.
  - intros s _ Hts. unfold getDateGroup. by rewrite Hts.
Qed.

(** X24. Sorted by exam date, the sections run in opposite directions: with
    the direction ascending the exams of today and the upcoming ones come
    earliest first and the past exams most recent first; descending, it is
    the other way round. *)
Theorem past_exams_reversed (sortDirection : SortDirection)
    (students : list ExamStudent) :
  let earlierFirst a b := examTs formats a <= examTs formats b in
  let laterFirst a b := examTs formats b <= examTs formats a in
  Sorted (match sortDirection with asc => laterFirst | desc => earlierFirst end)
    (sortedPast formats localDate dateTime now "examDate" sortDirection students)
  /\ forall group,
       Sorted (match sortDirection with asc => earlierFirst | desc => laterFirst end)
         (sortWithinGroup formats "examDate" sortDirection
            (inGroup formats localDate dateTime now group students)).
Proof.
  intros earlierFirst laterFirst. split.
  - unfold sortedPast. simpl.
    eapply Sorted_weaken; [|apply sort_Sorted].
    + unfold inOrder, comparePast, earlierFirst, laterFirst.
      intros a b. destruct sortDirection; lia.
    + unfold comparePast. intros a b. destruct sortDirection; lia.
  - intros group. unfold sortWithinGroup.
    eapply Sorted_weaken; [|apply in_order_keys].
    unfold earlierFirst, laterFirst. intros a b. simpl.
    destruct sortDirection; lia.
Qed.

End GroupedExamTableFacts.

(** ** Stable sorting *)

Section StableSorting.
Import Model JsArray.

(** X25. Sorting a table is stable and reversible where its comparator is
    consistent: the sorted table is a rearrangement of the rows in which the
    rows of each key keep the relative order of the input list, in ascending
    and in descending direction alike, and sorting ascending and then
    descending leaves the rows of each key in the order of the original list.
    It holds for every column of the exam table, and for every column of the
    students table when no sort value is [NaN]: for Last Login, when every
    [lastLogin.raw] can be read as a date. *)
Theorem sortedStudents_stable_reversible :
  (forall sortField d students,
      StudentTable.noNaN sortField students = true ->
      Permutation (StudentTable.sortedStudents sortField d students) students
      /\ forall k,
           rowsWithKey (StudentTable.sortValue sortField) k
             (StudentTable.sortedStudents sortField d students)
           = rowsWithKey (StudentTable.sortValue sortField) k students)
  /\ (forall sortField students k,
        StudentTable.noNaN sortField students = true ->
        rowsWithKey (StudentTable.sortValue sortField) k
          (StudentTable.sortedStudents sortField desc
             (StudentTable.sortedStudents sortField asc students))
        = rowsWithKey (StudentTable.sortValue sortField) k students)
  /\ (forall formats sortField d students,
        Permutation (ExamTable.sortedStudents formats sortField d students) students
        /\ forall k,
             rowsWithKey (ExamTable.sortValue formats sortField) k
               (ExamTable.sortedStudents formats sortField d students)
             = rowsWithKey (ExamTable.sortValue formats sortField) k students)
  /\ (forall formats sortField students k,
        rowsWithKey (ExamTable.sortValue formats sortField) k
          (ExamTable.sortedStudents formats sortField desc
             (ExamTable.sortedStudents formats sortField asc students))
        = rowsWithKey (ExamTable.sortValue formats sortField) k students).
Proof.
  split; [|split; [|split]].
  - intros sortField d students _. split; [apply sort_Permutation|].
    intros k. apply (sort_by_key_stable (StudentTable.sortValue sortField)).
  - intros sortField students k _.
    unfold StudentTable.sortedStudents, StudentTable.compareStudents.
    by rewrite !(sort_by_key_stable (StudentTable.sortValue sortField)).
  - intros formats sortField d students. split; [apply sort_Permutation|].
    intros k. apply (sort_by_key_stable (ExamTable.sortValue formats sortField)).
  - intros formats sortField students k.
    unfold ExamTable.sortedStudents, ExamTable.compareStudents.
    by rewrite !(sort_by_key_stable (ExamTable.sortValue formats sortField)).
Qed.

Lemma sortedStudents_stable_reversible_witness :
  rowsWithKey (StudentTable.sortValue "progress") (JNum 35)
    (StudentTable.sortedStudents "progress" desc
       (StudentTable.sortedStudents "progress" asc
          [Samples.alice; Samples.bob; Samples.carol]))
  = [Samples.bob; Samples.carol].
Proof.
  apply (proj1 (proj2 sortedStudents_stable_reversible) "progress"
           [Samples.alice; Samples.bob; Samples.carol] (JNum 35)).
  reflexivity.
Defined.

End StableSorting.
